(** * Admin console: product upload and similarity search pages

    A shallow embedding of the React pages [AddAIProduct],
    [UploadDigitalProduct], [SearchDigitalProduct] and [VectorSearch]:
    their event handlers, the requests they hand to [fetch], and the
    part of the JSX that decides how a message is coloured and how
    results are listed.

    JavaScript strings are sequences of UTF-16 code units; the component
    state of a page is a record; a handler is a computation over the
    component state that logs every request it passes to [fetch] and
    that may complete normally, by [return], or by a thrown error. *)

From Stdlib Require Import ZArith NArith String Ascii Bool Lia DecimalString.
From stdpp Require Import base option list gmap.

Local Open Scope list_scope.
Local Open Scope N_scope.

(** ** JavaScript values used by the pages *)

Module JS.

(** A string is its sequence of UTF-16 code units. *)
Definition jsstring : Type := list N.

(** The code units of an ASCII literal of the source. *)
Definition lit (s : string) : jsstring :=
  map N_of_ascii (list_ascii_of_string s).

(** WhiteSpace and LineTerminator code units, the ones [trim] and
    [parseInt] strip. *)
Definition isWhiteSpace (c : N) : bool :=
  (9 <=? c) && (c <=? 13)
  || (c =? 32) || (c =? 160) || (c =? 5760)
  || (8192 <=? c) && (c <=? 8202)
  || (c =? 8232) || (c =? 8233) || (c =? 8239) || (c =? 8287)
  || (c =? 12288) || (c =? 65279).

Fixpoint trimStart (s : jsstring) : jsstring :=
  match s with
  | c :: s' => if isWhiteSpace c then trimStart s' else s
  | [] => []
  end.

Definition trimEnd (s : jsstring) : jsstring := rev (trimStart (rev s)).

(** [String.prototype.trim] *)
Definition trim (s : jsstring) : jsstring := trimEnd (trimStart s).

(** Truthiness of a string: the empty string is the only falsy one. *)
Definition truthy (s : jsstring) : bool :=
  match s with [] => false | _ :: _ => true end.

Fixpoint startsWith (p s : jsstring) : bool :=
  match p, s with
  | [], _ => true
  | _ :: _, [] => false
  | a :: p', b :: s' => (a =? b) && startsWith p' s'
  end.

(** [s.includes(sub)]: [sub] occurs in [s] at some position. *)
Fixpoint includes (s sub : jsstring) : bool :=
  startsWith sub s
  || match s with
     | [] => false
     | _ :: s' => includes s' sub
     end.

(** Numbers the pages compute with: the result of [parseInt] is NaN or
    an integer.  [Int z] stands for the double of value [z]; the model
    is exact for the safe integers (below 2^53 in magnitude). *)
Inductive number : Type :=
  | NaN
  | Int (z : Z).

(** Decimal text of an integer, as [Number.prototype.toString] prints
    a safe integer (from 10^21 on the code prints an exponent, which is
    not modelled). *)
Definition decimal (z : Z) : jsstring :=
  lit (NilZero.string_of_int (Z.to_int z)).

Definition Number_toString (n : number) : jsstring :=
  match n with
  | NaN => lit "NaN"
  | Int z => decimal z
  end.

(** Value of a code unit as a digit of the given radix. *)
Definition digitValue (radix : N) (c : N) : option N :=
  let v :=
    if (48 <=? c) && (c <=? 57) then Some (c - 48)
    else if (97 <=? c) && (c <=? 122) then Some (c - 87)
    else if (65 <=? c) && (c <=? 90) then Some (c - 55)
    else None in
  match v with
  | Some d => if d <? radix then Some d else None
  | None => None
  end.

(** The longest prefix of radix digits, folded into its value; [None]
    when there is no digit at all. *)
Fixpoint parseDigits (radix : N) (acc : option N) (s : jsstring) : option N :=
  match s with
  | [] => acc
  | c :: s' =>
      match digitValue radix c with
      | Some d => parseDigits radix (Some (radix * default 0 acc + d)) s'
      | None => acc
      end
  end.

(** [parseInt(string)] with the radix left undefined.  The value is the
    exact integer of the digits: it is the double that the code holds
    for the safe integers (below 2^53 in magnitude), not beyond. *)
Definition parseInt (input : jsstring) : number :=
  let s := trimStart input in
  let '(sign, s) :=
    match s with
    | 45 :: s' => ((-1)%Z, s')
    | 43 :: s' => (1%Z, s')
    | _ => (1%Z, s)
    end in
  let '(radix, s) :=
    match s with
    | 48 :: 120 :: s' => (16, s')
    | 48 :: 88 :: s' => (16, s')
    | _ => (10, s)
    end in
  match parseDigits radix None s with
  | None => NaN
  | Some n => Int (sign * Z.of_N n)
  end.

(** Values found in a field of a JSON answer or of a form state. *)
Inductive value : Type :=
  | Undefined
  | Null
  | Boolean (b : bool)
  | Number (n : number)
  | String (s : jsstring).

(** The conversion done by a template literal and by [.toString()] (the
    latter is only called on numbers and strings here). *)
Definition ToString (v : value) : jsstring :=
  match v with
  | Undefined => lit "undefined"
  | Null => lit "null"
  | Boolean true => lit "true"
  | Boolean false => lit "false"
  | Number n => Number_toString n
  | String s => s
  end.

(** [a || b] on a value that is a string, or null/undefined. *)
Definition or_else (a : option jsstring) (b : jsstring) : jsstring :=
  match a with
  | Some s => if truthy s then s else b
  | None => b
  end.

End JS.

Import JS.

(** ** Browser objects the handlers use *)

Module Web.

(** A [File] picked in a file input: its declared name and type and its
    contents.  [size] is the length of the contents in bytes. *)
Record File : Type := {
  file_name : jsstring;
  file_type : jsstring;
  file_bytes : list Byte.byte
}.

Definition size (f : File) : nat := length (file_bytes f).

(** A [FormData] object is the ordered list of its entries; a value is
    a string or a file. *)
Inductive FormDataEntryValue : Type :=
  | Text (s : jsstring)
  | Blob (f : File).

Abbreviation FormData := (list (jsstring * FormDataEntryValue)).

(** [fd.append(name, value)] adds the entry at the end. *)
Definition append (name : jsstring) (value : FormDataEntryValue)
    (fd : FormData) : FormData :=
  fd ++ [(name, value)].

(** [fd.getAll(name)]: the values of the entries called [name], in the
    order of the entries. *)
Definition getAll (name : jsstring) (fd : FormData) : list FormDataEntryValue :=
  (filter (fun e => e.1 = name) fd).*2.

(** [fd.get(name)]: the first of them. *)
Definition get (name : jsstring) (fd : FormData) : option FormDataEntryValue :=
  head (getAll name fd).

(** [localStorage]: [getItem] gives null for a key that is not stored. *)
Abbreviation Storage := (gmap jsstring jsstring).

Definition getItem (localStorage : Storage) (key : jsstring) : option jsstring :=
  localStorage !! key.

Inductive Method : Type := GET | POST.

(** What is handed to [fetch]: the method, the URL up to its query, the
    [URLSearchParams] appended to it, and the body, the entries of the
    [FormData].  The bytes that the body becomes on the wire are those of
    [Multipart.encode] below. *)
Record Request : Type := {
  method : Method;
  url : jsstring;
  searchParams : list (jsstring * jsstring);
  body : FormData
}.

(** [await fetch(...)] followed by [await response.json()]: either one
    of the two throws an error carrying a message, or the body parses
    to the data of the response. *)
Inductive FetchResult (D : Type) : Type :=
  | Rejected (error_message : jsstring)
  | Json (data : D).

Arguments Rejected {D} error_message.
Arguments Json {D} data.

(** *** Handlers

    An async handler runs over the component state [S]; every request
    it fetches is logged.  It completes normally, with a thrown error,
    or by a [return] statement. *)

Inductive Completion (A : Type) : Type :=
  | Normal (a : A)
  | Thrown (error_message : jsstring)
  | Returned.

Arguments Normal {A} a.
Arguments Thrown {A} error_message.
Arguments Returned {A}.

Record World (S : Type) : Type := {
  component : S;
  fetched : list Request
}.

Arguments component {S} w.
Arguments fetched {S} w.

Definition Handler (S A : Type) : Type := World S -> Completion A * World S.

#[global] Instance handler_ret {S} : MRet (Handler S) :=
  fun A a w => (Normal a, w).

#[global] Instance handler_bind {S} : MBind (Handler S) :=
  fun A B k m w =>
    match m w with
    | (Normal a, w') => k a w'
    | (Thrown e, w') => (Thrown e, w')
    | (Returned, w') => (Returned, w')
    end.

Section Handler.
Context {S : Type}.

Definition getState : Handler S S :=
  fun w => (Normal (component w), w).

Definition setState (f : S -> S) : Handler S unit :=
  fun w => (Normal tt, {| component := f (component w); fetched := fetched w |}).

(** [return;] *)
Definition return_ {A} : Handler S A :=
  fun w => (Returned, w).

(** [const data = await (await fetch(r)).json()] against a server
    that answers request [r] with [net r]. *)
Definition fetch_json {D} (net : Request -> FetchResult D) (r : Request) : Handler S D :=
  fun w =>
    let w' := {| component := component w; fetched := fetched w ++ [r] |} in
    match net r with
    | Rejected e => (Thrown e, w')
    | Json data => (Normal data, w')
    end.

(** [try { block } catch (error) { handler(error.message) } finally { finalizer }] *)
Definition try_catch_finally (block : Handler S unit)
    (handler : jsstring -> Handler S unit) (finalizer : Handler S unit)
    : Handler S unit :=
  fun w =>
    let '(c, w1) :=
      match block w with
      | (Thrown e, w') => handler e w'
      | r => r
      end in
    match finalizer w1 with
    | (Normal _, w2) => (c, w2)
    | r => r
    end.

(** Running a handler from a component state, with nothing fetched yet. *)
Definition run (h : Handler S unit) (s : S) : World S :=
  (h {| component := s; fetched := [] |}).2.
End Handler.

End Web.

Import Web.

(** ** The [AddAIProduct] page (AI training course) *)

Module AddAIProduct.

(** The shape of the answer of [/api/add-ai-train-product]. *)
Module Response.
Record item : Type := {
  lesson_title : jsstring;
  video_gcs : jsstring;
  audio_gcs : jsstring;
  text_gcs : jsstring;
  pdf_gcs : jsstring;
  vectors : option (list jsstring)
}.

Record payload : Type := {
  product_id : jsstring;
  product_name : jsstring;
  bucket_root : jsstring;
  vector_index : jsstring;
  number_of_videos : Z;
  total_vectors : Z;
  items : option (list item)
}.

Record t : Type := {
  success : bool;
  message : option jsstring;
  data : option payload
}.
End Response.

Record FormFields : Type := {
  product_name : jsstring;
  product_category : jsstring;
  suggestion_questions : jsstring;
  price : jsstring;
  videos : list File
}.

Record State : Type := {
  formData : FormFields;
  loading : bool;
  message : jsstring;
  responseData : option Response.payload
}.

(** The [useState] initial values. *)
Definition emptyForm : FormFields :=
  {| product_name := []; product_category := []; suggestion_questions := [];
     price := []; videos := [] |}.

Definition initial : State :=
  {| formData := emptyForm; loading := false; message := []; responseData := None |}.

Definition setFormData (f : FormFields -> FormFields) (st : State) : State :=
  {| formData := f (formData st); loading := loading st;
     message := message st; responseData := responseData st |}.

Definition setLoading (b : bool) (st : State) : State :=
  {| formData := formData st; loading := b;
     message := message st; responseData := responseData st |}.

Definition setMessage (m : jsstring) (st : State) : State :=
  {| formData := formData st; loading := loading st;
     message := m; responseData := responseData st |}.

Definition setResponseData (d : option Response.payload) (st : State) : State :=
  {| formData := formData st; loading := loading st;
     message := message st; responseData := d |}.

(** [handleInputChange]: the field called like the input takes its value
    (the four text inputs of the form are the only ones wired to it). *)
Definition handleInputChange (name value : jsstring) : State -> State :=
  setFormData (fun prev =>
    if decide (name = lit "product_name") then
      {| product_name := value; product_category := product_category prev;
         suggestion_questions := suggestion_questions prev; price := price prev;
         videos := videos prev |}
    else if decide (name = lit "product_category") then
      {| product_name := product_name prev; product_category := value;
         suggestion_questions := suggestion_questions prev; price := price prev;
         videos := videos prev |}
    else if decide (name = lit "suggestion_questions") then
      {| product_name := product_name prev; product_category := product_category prev;
         suggestion_questions := value; price := price prev;
         videos := videos prev |}
    else if decide (name = lit "price") then
      {| product_name := product_name prev; product_category := product_category prev;
         suggestion_questions := suggestion_questions prev; price := value;
         videos := videos prev |}
    else prev).

(** [handleVideosChange]: [Array.from(e.target.files)] replaces the list
    of videos, in the order of the [FileList]. *)
Definition handleVideosChange (files : list File) : State -> State :=
  setFormData (fun prev =>
    {| product_name := product_name prev; product_category := product_category prev;
       suggestion_questions := suggestion_questions prev; price := price prev;
       videos := files |}).

Definition endpoint : jsstring := lit "http://127.0.0.1:8000/api/add-ai-train-product".

Definition default_admin_id : jsstring := lit "550e8400-e29b-41d4-a716-446655440000".
Definition default_admin_type : jsstring := lit "super_admin".

(** The multipart body built in [handleSubmit]. *)
Definition submitData (localStorage : Storage) (formData : FormFields) : FormData :=
  let adminId := or_else (getItem localStorage (lit "admin_id")) default_admin_id in
  let adminType := or_else (getItem localStorage (lit "admin_type")) default_admin_type in
  let submitData := [] in
  let submitData := append (lit "admin_id") (Text adminId) submitData in
  let submitData := append (lit "admin_type") (Text adminType) submitData in
  let submitData := append (lit "product_name") (Text (product_name formData)) submitData in
  let submitData := append (lit "product_category") (Text (product_category formData)) submitData in
  let submitData := append (lit "suggestion_questions") (Text (suggestion_questions formData)) submitData in
  let submitData := append (lit "price") (Text (price formData)) submitData in
  (* formData.videos.forEach(video => submitData.append('videos', video)) *)
  fold_left (fun submitData video => append (lit "videos") (Blob video) submitData)
    (videos formData) submitData.

(** The request handed to [fetch]. *)
Definition request (submitData : FormData) : Request :=
  {| method := POST; url := endpoint; searchParams := []; body := submitData |}.

Definition handleSubmit (localStorage : Storage)
    (net : Request -> FetchResult Response.t) : Handler State unit :=
  st ← getState;
  let formData := formData st in
  setState (setLoading true);;
  setState (setMessage (lit ""));;
  setState (setResponseData None);;
  try_catch_finally
    (let submitData := submitData localStorage formData in
     setState (setMessage (lit "Processing AI training product... This may take several minutes."));;
     data ← fetch_json net (request submitData);
     if Response.success data then
       setState (setMessage (lit "AI training product created and processed successfully!"));;
       setState (setResponseData (Response.data data));;
       (* the form is reset; so is the file input of the document *)
       setState (setFormData (fun _ => emptyForm))
     else
       setState (setMessage
         (lit "Error: " ++ or_else (Response.message data) (lit "Unknown error occurred"))))
    (fun error_message =>
       setState (setMessage (lit "Network error: " ++ error_message)))
    (setState (setLoading false)).

(** The status of a submission.  [handleSubmit] tells two of them
    apart, by the [if (data.success)] and by the [catch]; it has no
    branch for a partial failure. *)
Inductive OverallStatus : Type := success | partial_failure | failure.

Definition overall_status (result : FetchResult Response.t) : OverallStatus :=
  match result with
  | Json data => if Response.success data then success else failure
  | Rejected _ => failure
  end.

(** The two looks of the message box: the green one and the red one. *)
Inductive Tone : Type := Informational | Error.

(** The message box of the JSX: absent for an empty message, red when
    the message includes 'Error' or 'error', green otherwise. *)
Definition messageBox (message : jsstring) : option Tone :=
  if truthy message then
    Some (if includes message (lit "Error") || includes message (lit "error")
          then Error else Informational)
  else None.

End AddAIProduct.

(** ** The [UploadDigitalProduct] page *)

Module UploadDigitalProduct.

(** The shape of the answer of [/api/add-digital-product]; the size in
    megabytes is kept as the number text received. *)
Module Response.
Record payload : Type := {
  product_id : jsstring;
  product_name : jsstring;
  product_category : jsstring;
  file_size_mb : jsstring;
  file_format : jsstring;
  product_location : jsstring;
  vector_index : jsstring
}.

Record t : Type := {
  success : bool;
  message : option jsstring;
  data : option payload
}.
End Response.

Record FormFields : Type := {
  product_name : jsstring;
  product_category : jsstring;
  product_description : jsstring;
  price : jsstring;
  product_file : option File
}.

Record State : Type := {
  formData : FormFields;
  loading : bool;
  message : jsstring;
  responseData : option Response.payload
}.

Definition emptyForm : FormFields :=
  {| product_name := []; product_category := []; product_description := [];
     price := []; product_file := None |}.

Definition initial : State :=
  {| formData := emptyForm; loading := false; message := []; responseData := None |}.

Definition setFormData (f : FormFields -> FormFields) (st : State) : State :=
  {| formData := f (formData st); loading := loading st;
     message := message st; responseData := responseData st |}.

Definition setLoading (b : bool) (st : State) : State :=
  {| formData := formData st; loading := b;
     message := message st; responseData := responseData st |}.

Definition setMessage (m : jsstring) (st : State) : State :=
  {| formData := formData st; loading := loading st;
     message := m; responseData := responseData st |}.

Definition setResponseData (d : option Response.payload) (st : State) : State :=
  {| formData := formData st; loading := loading st;
     message := message st; responseData := d |}.

Definition handleInputChange (name value : jsstring) : State -> State :=
  setFormData (fun prev =>
    if decide (name = lit "product_name") then
      {| product_name := value; product_category := product_category prev;
         product_description := product_description prev; price := price prev;
         product_file := product_file prev |}
    else if decide (name = lit "product_category") then
      {| product_name := product_name prev; product_category := value;
         product_description := product_description prev; price := price prev;
         product_file := product_file prev |}
    else if decide (name = lit "product_description") then
      {| product_name := product_name prev; product_category := product_category prev;
         product_description := value; price := price prev;
         product_file := product_file prev |}
    else if decide (name = lit "price") then
      {| product_name := product_name prev; product_category := product_category prev;
         product_description := product_description prev; price := value;
         product_file := product_file prev |}
    else prev).

(** [handleFileChange]: the first file of the input, when there is one. *)
Definition handleFileChange (files : list File) (st : State) : State :=
  match head files with
  | Some file =>
      setFormData (fun prev =>
        {| product_name := product_name prev; product_category := product_category prev;
           product_description := product_description prev; price := price prev;
           product_file := Some file |}) st
  | None => st
  end.

Definition endpoint : jsstring := lit "http://127.0.0.1:8000/api/add-digital-product".

Definition default_admin_id : jsstring := lit "550e8400-e29b-41d4-a716-446655440000".
Definition default_admin_type : jsstring := lit "super_admin".

(** The multipart body built in [handleSubmit] once a file is there. *)
Definition submitData (localStorage : Storage) (formData : FormFields)
    (file : File) : FormData :=
  let adminId := or_else (getItem localStorage (lit "admin_id")) default_admin_id in
  let adminType := or_else (getItem localStorage (lit "admin_type")) default_admin_type in
  let submitData := [] in
  let submitData := append (lit "admin_id") (Text adminId) submitData in
  let submitData := append (lit "admin_type") (Text adminType) submitData in
  let submitData := append (lit "product_name") (Text (product_name formData)) submitData in
  let submitData := append (lit "product_category") (Text (product_category formData)) submitData in
  let submitData := append (lit "product_description") (Text (product_description formData)) submitData in
  let submitData := append (lit "price") (Text (price formData)) submitData in
  append (lit "product_file") (Blob file) submitData.

(** The request handed to [fetch]. *)
Definition request (submitData : FormData) : Request :=
  {| method := POST; url := endpoint; searchParams := []; body := submitData |}.

Definition handleSubmit (localStorage : Storage)
    (net : Request -> FetchResult Response.t) : Handler State unit :=
  st ← getState;
  let formData := formData st in
  setState (setLoading true);;
  setState (setMessage (lit ""));;
  setState (setResponseData None);;
  try_catch_finally
    (file ← match product_file formData with
            | None =>
                setState (setMessage (lit "Error: Please select a product file"));;
                return_
            | Some file => mret file
            end;
     let submitData := submitData localStorage formData file in
     setState (setMessage (lit "Uploading digital product..."));;
     data ← fetch_json net (request submitData);
     if Response.success data then
       setState (setMessage (lit "Digital product uploaded successfully!"));;
       setState (setResponseData (Response.data data));;
       (* the form is reset; so is the file input of the document *)
       setState (setFormData (fun _ => emptyForm))
     else
       setState (setMessage
         (lit "Error: " ++ or_else (Response.message data) (lit "Unknown error occurred"))))
    (fun error_message =>
       setState (setMessage (lit "Network error: " ++ error_message)))
    (setState (setLoading false)).

(** The status of a submission: a missing file and the two failure
    branches of [handleSubmit] on one side, the [data.success] branch on
    the other. *)
Inductive OverallStatus : Type := success | partial_failure | failure.

Definition overall_status (formData : FormFields)
    (result : FetchResult Response.t) : OverallStatus :=
  match product_file formData with
  | None => failure
  | Some _ =>
      match result with
      | Json data => if Response.success data then success else failure
      | Rejected _ => failure
      end
  end.

Inductive Tone : Type := Informational | Error.

Definition messageBox (message : jsstring) : option Tone :=
  if truthy message then
    Some (if includes message (lit "Error") || includes message (lit "error")
          then Error else Informational)
  else None.

End UploadDigitalProduct.

(** ** The [SearchDigitalProduct] page *)

Module SearchDigitalProduct.

(** The shape of the answer of [/api/search-digital-products]; the
    numbers that are only displayed are kept as the number text
    received. *)
Module Response.
Record result : Type := {
  similarity_score : jsstring;
  product_name : jsstring;
  product_category : jsstring;
  file_format : jsstring;
  product_size_mb : jsstring;
  price : jsstring;
  product_location : jsstring;
  product_id : jsstring
}.

Record t : Type := {
  success : bool;
  message : option jsstring;
  total_results : value;
  query : jsstring;
  results : option (list result)
}.
End Response.

Record State : Type := {
  searchQuery : jsstring;
  numResults : number;
  loading : bool;
  message : jsstring;
  searchResults : option Response.t
}.

Definition initial : State :=
  {| searchQuery := []; numResults := Int 5; loading := false;
     message := []; searchResults := None |}.

Definition setSearchQuery (q : jsstring) (st : State) : State :=
  {| searchQuery := q; numResults := numResults st; loading := loading st;
     message := message st; searchResults := searchResults st |}.

Definition setNumResults (n : number) (st : State) : State :=
  {| searchQuery := searchQuery st; numResults := n; loading := loading st;
     message := message st; searchResults := searchResults st |}.

Definition setLoading (b : bool) (st : State) : State :=
  {| searchQuery := searchQuery st; numResults := numResults st; loading := b;
     message := message st; searchResults := searchResults st |}.

Definition setMessage (m : jsstring) (st : State) : State :=
  {| searchQuery := searchQuery st; numResults := numResults st; loading := loading st;
     message := m; searchResults := searchResults st |}.

Definition setSearchResults (r : option Response.t) (st : State) : State :=
  {| searchQuery := searchQuery st; numResults := numResults st; loading := loading st;
     message := message st; searchResults := r |}.

(** The [onChange] of the query input and of the [numResults] input,
    applied to the text [e.target.value] of the input. *)
Definition onChange_searchQuery (value : jsstring) : State -> State :=
  setSearchQuery value.

Definition onChange_numResults (value : jsstring) : State -> State :=
  setNumResults (parseInt value).

(** The [min] and [max] attributes of the [numResults] input. *)
Definition numResults_min : Z := 1.
Definition numResults_max : Z := 50.

(** The [numResults] input has no [required] attribute: the form is
    submitted with the input left empty. *)
Definition numResults_required : bool := false.

Definition endpoint : jsstring := lit "http://127.0.0.1:8000/api/search-digital-products".

(** The request handed to [fetch]: the endpoint followed by the
    [URLSearchParams].  The parameters are the texts given to
    [URLSearchParams]; its percent-encoding, which sends a surrogate
    that is not paired as U+FFFD, is not modelled. *)
Definition request (params : list (jsstring * jsstring)) : Request :=
  {| method := GET; url := endpoint; searchParams := params; body := [] |}.

Definition handleSearch (net : Request -> FetchResult Response.t) : Handler State unit :=
  st ← getState;
  let searchQuery := searchQuery st in
  let numResults := numResults st in
  setState (setLoading true);;
  setState (setMessage (lit ""));;
  setState (setSearchResults None);;
  try_catch_finally
    ((if negb (truthy (trim searchQuery)) then
        setState (setMessage (lit "Error: Please enter a search query"));;
        return_
      else mret tt);;
     let params :=
       [(lit "query", searchQuery); (lit "n", Number_toString numResults)] in
     data ← fetch_json net (request params);
     if Response.success data then
       setState (setMessage
         (lit "Found " ++ ToString (Response.total_results data)
          ++ lit " digital products matching your search"));;
       setState (setSearchResults (Some data))
     else
       setState (setMessage
         (lit "Error: " ++ or_else (Response.message data) (lit "Search failed")));;
       setState (setSearchResults None))
    (fun error_message =>
       setState (setMessage (lit "Network error: " ++ error_message));;
       setState (setSearchResults None))
    (setState (setLoading false)).

(** A card of the results grid: the rank shown as [#rank] and the
    result it shows. *)
Record Card : Type := {
  rank : nat;
  shown : Response.result
}.

(** [renderResults]: nothing without results, otherwise one card per
    result, from [results.map((result, index) => ...)] with the rank
    [index + 1]. *)
Definition renderResults (searchResults : option Response.t) : option (list Card) :=
  match searchResults with
  | None => None
  | Some data =>
      match Response.results data with
      | None => None
      | Some [] => None
      | Some results =>
          Some (imap (fun index result => {| rank := index + 1; shown := result |}) results)
      end
  end.

(** The class of the message box: [message error] or [message success]. *)
Inductive Tone : Type := Informational | Error.

Definition messageBox (message : jsstring) : option Tone :=
  if truthy message then
    Some (if includes message (lit "Error") then Error else Informational)
  else None.

End SearchDigitalProduct.

(** ** The [VectorSearch] page *)

Module VectorSearch.

Module Response.
Record result : Type := {
  similarity_score : jsstring;
  content : jsstring;
  product_id : jsstring;
  source_file : jsstring;
  lesson_no : jsstring;
  page : jsstring;
  vector_id : jsstring
}.

Record t : Type := {
  success : bool;
  message : option jsstring;
  total_results : value;
  query : jsstring;
  product_ids : list jsstring;
  results : option (list result)
}.
End Response.

(** [n] starts as the number 5 and holds the text of the input once it
    has been edited. *)
Record FormFields : Type := {
  question : jsstring;
  product_ids : jsstring;
  n : value
}.

Record State : Type := {
  formData : FormFields;
  loading : bool;
  message : jsstring;
  searchResults : option Response.t
}.

Definition initial : State :=
  {| formData := {| question := []; product_ids := []; n := Number (Int 5) |};
     loading := false; message := []; searchResults := None |}.

Definition setFormData (f : FormFields -> FormFields) (st : State) : State :=
  {| formData := f (formData st); loading := loading st;
     message := message st; searchResults := searchResults st |}.

Definition setLoading (b : bool) (st : State) : State :=
  {| formData := formData st; loading := b;
     message := message st; searchResults := searchResults st |}.

Definition setMessage (m : jsstring) (st : State) : State :=
  {| formData := formData st; loading := loading st;
     message := m; searchResults := searchResults st |}.

Definition setSearchResults (r : option Response.t) (st : State) : State :=
  {| formData := formData st; loading := loading st;
     message := message st; searchResults := r |}.

Definition handleInputChange (name value : jsstring) : State -> State :=
  setFormData (fun prev =>
    if decide (name = lit "question") then
      {| question := value; product_ids := product_ids prev; n := n prev |}
    else if decide (name = lit "product_ids") then
      {| question := question prev; product_ids := value; n := n prev |}
    else if decide (name = lit "n") then
      {| question := question prev; product_ids := product_ids prev; n := String value |}
    else prev).

(** The [min] and [max] attributes of the [n] input. *)
Definition n_min : Z := 1.
Definition n_max : Z := 50.

(** The [n] input is [required]. *)
Definition n_required : bool := true.

Definition endpoint : jsstring := lit "http://127.0.0.1:8000/api/search-vectors".

(** The request handed to [fetch]: the endpoint followed by the
    [URLSearchParams].  The parameters are the texts given to
    [URLSearchParams]; its percent-encoding, which sends a surrogate
    that is not paired as U+FFFD, is not modelled. *)
Definition request (params : list (jsstring * jsstring)) : Request :=
  {| method := GET; url := endpoint; searchParams := params; body := [] |}.

Definition handleSubmit (net : Request -> FetchResult Response.t) : Handler State unit :=
  st ← getState;
  let formData := formData st in
  setState (setLoading true);;
  setState (setMessage (lit ""));;
  setState (setSearchResults None);;
  try_catch_finally
    ((if negb (truthy (trim (question formData))) then
        setState (setMessage (lit "Error: Please enter a search question"));;
        return_
      else mret tt);;
     (if negb (truthy (trim (product_ids formData))) then
        setState (setMessage (lit "Error: Please enter at least one product ID"));;
        return_
      else mret tt);;
     let params :=
       [(lit "question", question formData);
        (lit "product_ids", product_ids formData);
        (lit "n", ToString (n formData))] in
     data ← fetch_json net (request params);
     if Response.success data then
       setState (setMessage
         (lit "Found " ++ ToString (Response.total_results data)
          ++ lit " results for your search"));;
       setState (setSearchResults (Some data))
     else
       setState (setMessage
         (lit "Error: " ++ or_else (Response.message data) (lit "Search failed"))))
    (fun error_message =>
       setState (setMessage (lit "Network error: " ++ error_message)))
    (setState (setLoading false)).

Record Card : Type := {
  rank : nat;
  shown : Response.result
}.

(** [renderResults]: nothing without a results array, otherwise one
    item per result with the rank [index + 1]. *)
Definition renderResults (searchResults : option Response.t) : option (list Card) :=
  match searchResults with
  | None => None
  | Some data =>
      match Response.results data with
      | None => None
      | Some results =>
          Some (imap (fun index result => {| rank := index + 1; shown := result |}) results)
      end
  end.

Inductive Tone : Type := Informational | Error.

Definition messageBox (message : jsstring) : option Tone :=
  if truthy message then
    Some (if includes message (lit "Error") || includes message (lit "error")
          then Error else Informational)
  else None.

End VectorSearch.

(** ** The multipart body on the wire

    [fetch] sends a [FormData] body with the multipart/form-data
    encoding of the browser: the values are converted to scalar values
    and UTF-8, line breaks of names and text values are normalized to
    CR LF, names and file names are escaped, and the parts are framed by
    a boundary that the browser generates.  The bytes of the wire are
    numbers below 256. *)

Module Multipart.

Definition isLeadSurrogate (c : N) : bool := (55296 <=? c) && (c <=? 56319).
Definition isTrailSurrogate (c : N) : bool := (56320 <=? c) && (c <=? 57343).

(** The scalar values of a string: a surrogate pair is one value, a
    surrogate that is not paired becomes U+FFFD. *)
Fixpoint scalarValues (s : jsstring) : list N :=
  match s with
  | [] => []
  | c :: s' =>
      if isLeadSurrogate c then
        match s' with
        | d :: s'' =>
            if isTrailSurrogate d
            then (65536 + (c - 55296) * 1024 + (d - 56320)) :: scalarValues s''
            else 65533 :: scalarValues s'
        | [] => [65533]
        end
      else if isTrailSurrogate c then 65533 :: scalarValues s'
      else c :: scalarValues s'
  end.

(** Every CR that no LF follows and every LF that no CR precedes is
    replaced by CR LF. *)
Fixpoint normalizeNewlines (s : list N) : list N :=
  match s with
  | [] => []
  | c :: s' =>
      if c =? 13 then
        13 :: 10 :: match s' with
                    | d :: s'' => if d =? 10 then normalizeNewlines s'' else normalizeNewlines s'
                    | [] => []
                    end
      else if c =? 10 then 13 :: 10 :: normalizeNewlines s'
      else c :: normalizeNewlines s'
  end.

Definition utf8_scalar (c : N) : list N :=
  if c <? 128 then [c]
  else if c <? 2048 then [192 + c / 64; 128 + c mod 64]
  else if c <? 65536 then [224 + c / 4096; 128 + (c / 64) mod 64; 128 + c mod 64]
  else [240 + c / 262144; 128 + (c / 4096) mod 64; 128 + (c / 64) mod 64; 128 + c mod 64].

Definition utf8 (s : list N) : list N := flat_map utf8_scalar s.

(** The bytes of a text value on the wire. *)
Definition textBytes (value : jsstring) : list N :=
  utf8 (normalizeNewlines (scalarValues value)).

(** The escaping of names and file names: LF, CR and the double quote. *)
Definition escape (bytes : list N) : list N :=
  flat_map (fun b => if b =? 10 then lit "%0A"
                     else if b =? 13 then lit "%0D"
                     else if b =? 34 then lit "%22"
                     else [b]) bytes.

Definition fieldName (name : jsstring) : list N := escape (textBytes name).

Definition fileName (f : File) : list N := escape (utf8 (scalarValues (file_name f))).

Definition contentType (f : File) : list N :=
  match file_type f with
  | [] => lit "application/octet-stream"
  | type => type
  end.

(** The type of a file picked in an input is a media type in printable
    ASCII, or empty. *)
Definition printableType (f : File) : bool :=
  forallb (fun b => (32 <=? b) && (b <=? 126)) (file_type f).

Definition fileBytes (f : File) : list N := map Byte.to_N (file_bytes f).

Definition CRLF : list N := [13; 10].

(** The headers and the payload of the part of an entry. *)
Definition part (entry : jsstring * FormDataEntryValue) : list N :=
  lit "Content-Disposition: form-data; name=" ++ [34] ++ fieldName entry.1 ++ [34]
  ++ match entry.2 with
     | Text value => CRLF ++ CRLF ++ textBytes value
     | Blob f =>
         lit "; filename=" ++ [34] ++ fileName f ++ [34] ++ CRLF
         ++ lit "Content-Type: " ++ contentType f ++ CRLF ++ CRLF ++ fileBytes f
     end.

(** The body: each part after a line with the boundary, and the closing
    line. *)
Definition encode (boundary : list N) (entries : FormData) : list N :=
  flat_map (fun entry => lit "--" ++ boundary ++ CRLF ++ part entry ++ CRLF) entries
  ++ lit "--" ++ boundary ++ lit "--" ++ CRLF.

(** The delimiter that ends a part. *)
Definition delimiter (boundary : list N) : list N := CRLF ++ lit "--" ++ boundary.

(** [d] starts at some position of [x], when [x] is followed by
    [after]. *)
Fixpoint startsWithin (d x after : list N) : bool :=
  match x with
  | [] => false
  | _ :: x' => startsWith d (x ++ after) || startsWithin d x' after
  end.

(** The boundary fits the entries when the delimiter occurs in no part,
    as the encoding requires of the boundary that the browser draws. *)
Definition boundaryFits (boundary : list N) (entries : FormData) : bool :=
  forallb (fun entry =>
             negb (startsWithin (delimiter boundary) (CRLF ++ part entry)
                     (delimiter boundary)))
    entries.

End Multipart.

(** ** The statements of the specification that the pages are compared with *)

Module Spec.

(** A request that carries metadata only: no part of its body is a file. *)
Definition metadata_only (r : Request) : bool :=
  forallb (fun e => match e.2 with Text _ => true | Blob _ => false end) (body r).

(** The two-phase orchestration as the specification words it: the first
    request of a course submission creates the record from metadata
    alone, the asset-processing requests come after it, and there is
    none when the first one fails. *)
Definition two_phase (localStorage : Storage)
    (net : Request -> FetchResult AddAIProduct.Response.t)
    (st : AddAIProduct.State) : Prop :=
  exists phase1 phase2,
    fetched (run (AddAIProduct.handleSubmit localStorage net) st) = phase1 :: phase2
    /\ metadata_only phase1 = true
    /\ (forall e, net phase1 = Rejected e -> phase2 = []).

(** The per-asset status and the overall status of the specification's
    course flow. *)
Inductive ItemStatus : Type := processed | failed.

Inductive OverallStatus : Type := AllProcessed | PartiallyProcessed | ProcessingFailed.

Definition is_processed (s : ItemStatus) : bool :=
  match s with processed => true | failed => false end.

(** The derivation of the specification, from the number [N] of input
    videos and the items the processing call returned ([None] when the
    call failed entirely): failed when nothing was processed, all
    processed when every returned item is processed and there are [N] of
    them, partially processed otherwise. *)
Definition overall_status (N : nat) (returned : option (list ItemStatus)) : OverallStatus :=
  match returned with
  | None => ProcessingFailed
  | Some items =>
      if (length (filter (fun s => is_processed s = true) items) =? 0)%nat
      then ProcessingFailed
      else if forallb is_processed items && (length items =? N)%nat
      then AllProcessed
      else PartiallyProcessed
  end.

(** The items an answer returns.  The answer has no status per item and
    the page lists the returned items under 'Processed Videos': each
    returned item counts as processed. *)
Definition returned (result : FetchResult AddAIProduct.Response.t)
    : option (list ItemStatus) :=
  match result with
  | Rejected _ => None
  | Json data =>
      if AddAIProduct.Response.success data then
        match AddAIProduct.Response.data data with
        | Some payload =>
            Some (map (fun _ => processed)
                    (default [] (AddAIProduct.Response.items payload)))
        | None => None
        end
      else None
  end.

(** The claim on the overall status: what the page holds after a
    submission determines the overall status the specification derives
    from the number of input videos and the returned items. *)
Definition overall_status_derivation : Prop :=
  exists status_of : AddAIProduct.State -> OverallStatus,
    forall localStorage result st,
      status_of (component (run (AddAIProduct.handleSubmit localStorage (fun _ => result)) st))
      = overall_status (length (AddAIProduct.videos (AddAIProduct.formData st)))
          (returned result).

(** [s.split(',')] *)
Fixpoint split (sep : N) (s : jsstring) : list jsstring :=
  match s with
  | [] => [[]]
  | c :: s' =>
      if c =? sep then [] :: split sep s'
      else match split sep s' with
           | seg :: segs => (c :: seg) :: segs
           | [] => [[c]]
           end
  end.

(** The identifier set of the specification: the comma-separated list,
    each segment trimmed, the empty segments dropped. *)
Definition product_id_set (product_ids : jsstring) : list jsstring :=
  filter (fun seg => truthy seg = true) (map trim (split 44 product_ids)).

(** The validation of the specification: no request for an empty query
    text, nor for a product_ids string without an identifier. *)
Definition buildQuery_rejects : Prop :=
  forall net st,
    VectorSearch.question (VectorSearch.formData st) = []
    \/ product_id_set (VectorSearch.product_ids (VectorSearch.formData st)) = [] ->
    fetched (run (VectorSearch.handleSubmit net) st) = [].

(** The bound of the specification on the result limit: whatever is
    typed in the [numResults] input, a request that is sent carries as
    [n] an integer between the minimum and the maximum. *)
Definition result_limit_in_range : Prop :=
  forall net st value req,
    req ∈ fetched (run (SearchDigitalProduct.handleSearch net)
                     (SearchDigitalProduct.onChange_numResults value st)) ->
    exists k : Z,
      (SearchDigitalProduct.numResults_min <= k <= SearchDigitalProduct.numResults_max)%Z
      /\ (lit "n", decimal k) ∈ searchParams req.

(** Modelled from the spec: the decoder of the wire body, which is not
    part of the pages.  It cuts the body at the delimiters of the
    boundary, reads the headers of each part and gives the payload of
    the part as the bytes between the blank line and the next
    delimiter. *)
Inductive Part : Type :=
  | TextPart (name payload : list N)
  | FilePart (name filename type payload : list N).

(** Modelled from the spec: what follows the prefix [p] in [s]. *)
Fixpoint stripPrefix (p s : list N) : option (list N) :=
  match p, s with
  | [], _ => Some s
  | _ :: _, [] => None
  | a :: p', b :: s' => if a =? b then stripPrefix p' s' else None
  end.

(** Modelled from the spec: the bytes before and after the first
    occurrence of [d]. *)
Fixpoint cut (d s : list N) : option (list N * list N) :=
  if startsWith d s then Some ([], drop (length d) s)
  else
    match s with
    | [] => None
    | b :: r =>
        match cut d r with
        | Some (x, y) => Some (b :: x, y)
        | None => None
        end
    end.

(** Modelled from the spec: the pieces of [s] between the occurrences
    of [d]; [skip] counts the bytes left of an occurrence just found. *)
Fixpoint pieces (d : list N) (skip : nat) (s : list N) : list (list N) :=
  match s with
  | [] => [[]]
  | b :: r =>
      match skip with
      | S k => pieces d k r
      | O =>
          if startsWith d s then [] :: pieces d (length d - 1) r
          else
            match pieces d 0 r with
            | p :: ps => (b :: p) :: ps
            | [] => [[b]]
            end
      end
  end.

(** Modelled from the spec: the part read from a piece of the body. *)
Definition parsePart (piece : list N) : option Part :=
  rest ← stripPrefix
           (Multipart.CRLF ++ lit "Content-Disposition: form-data; name=" ++ [34]) piece;
  '(name, rest) ← cut [34] rest;
  match stripPrefix (Multipart.CRLF ++ Multipart.CRLF) rest with
  | Some payload => Some (TextPart name payload)
  | None =>
      rest ← stripPrefix (lit "; filename=" ++ [34]) rest;
      '(filename, rest) ← cut [34] rest;
      rest ← stripPrefix (Multipart.CRLF ++ lit "Content-Type: ") rest;
      '(type, payload) ← cut (Multipart.CRLF ++ Multipart.CRLF) rest;
      Some (FilePart name filename type payload)
  end.

(** Modelled from the spec: the parts of a wire body. *)
Definition decode (boundary wire : list N) : list Part :=
  omap parsePart
    (tail (pieces (Multipart.delimiter boundary) 0 (Multipart.CRLF ++ wire))).

(** Modelled from the spec: the payload of a text part called [name]. *)
Definition selectText (name : jsstring) (p : Part) : option (list N) :=
  match p with
  | TextPart n payload =>
      if decide (n = Multipart.fieldName name) then Some payload else None
  | FilePart _ _ _ _ => None
  end.

(** Modelled from the spec: the payload of a file part called [name]. *)
Definition selectFile (name : jsstring) (p : Part) : option (list N) :=
  match p with
  | FilePart n _ _ payload =>
      if decide (n = Multipart.fieldName name) then Some payload else None
  | TextPart _ _ => None
  end.

(** Modelled from the spec: the bytes of the text field [name], from the
    first text part of that name. *)
Definition decode_text (boundary : list N) (name : jsstring) (wire : list N)
    : option (list N) :=
  head (omap (selectText name) (decode boundary wire)).

(** Modelled from the spec: the bytes of the binary assets sent under
    [name], in the order of the body. *)
Definition decode_files (boundary : list N) (name : jsstring) (wire : list N)
    : list (list N) :=
  omap (selectFile name) (decode boundary wire).

(** Modelled from the spec: the bytes of a text value as it was entered,
    its UTF-8 encoding.  A surrogate that is not paired has none and
    counts as U+FFFD. *)
Definition enteredBytes (value : jsstring) : list N :=
  Multipart.utf8 (Multipart.scalarValues value).

(** Modelled from the spec: the round trip for the draft of a digital
    product.  Decoding the wire body of the submission gives back the
    text fields byte for byte and the file with its byte length. *)
Definition wire_round_trip (boundary : list N) (localStorage : Storage)
    (formData : UploadDigitalProduct.FormFields) (file : File) : Prop :=
  let wire :=
    Multipart.encode boundary
      (UploadDigitalProduct.submitData localStorage formData file) in
  Multipart.boundaryFits boundary
    (UploadDigitalProduct.submitData localStorage formData file) = true ->
  decode_text boundary (lit "product_name") wire
  = Some (enteredBytes (UploadDigitalProduct.product_name formData))
  /\ decode_text boundary (lit "product_category") wire
     = Some (enteredBytes (UploadDigitalProduct.product_category formData))
  /\ decode_text boundary (lit "product_description") wire
     = Some (enteredBytes (UploadDigitalProduct.product_description formData))
  /\ decode_text boundary (lit "price") wire
     = Some (enteredBytes (UploadDigitalProduct.price formData))
  /\ map (@length N) (decode_files boundary (lit "product_file") wire) = [size file].

End Spec.

(** ** Sample inputs and answers *)

Definition sample_video (name : string) : File :=
  {| file_name := lit name; file_type := lit "video/mp4";
     file_bytes := [Byte.x00; Byte.x01; Byte.x02] |}.

Definition sample_course (videos : list File) : AddAIProduct.State :=
  AddAIProduct.handleVideosChange videos
    (AddAIProduct.handleInputChange (lit "price") (lit "19.99")
       (AddAIProduct.handleInputChange (lit "product_category") (lit "Database")
          (AddAIProduct.handleInputChange (lit "product_name") (lit "Intro to SQL")
             AddAIProduct.initial))).

Definition sample_item (title : string) : AddAIProduct.Response.item :=
  {| AddAIProduct.Response.lesson_title := lit title;
     AddAIProduct.Response.video_gcs := lit "gs://bucket/video";
     AddAIProduct.Response.audio_gcs := lit "gs://bucket/audio";
     AddAIProduct.Response.text_gcs := lit "gs://bucket/text";
     AddAIProduct.Response.pdf_gcs := lit "gs://bucket/pdf";
     AddAIProduct.Response.vectors := Some [lit "v1"; lit "v2"] |}.

Definition sample_course_answer (items : list AddAIProduct.Response.item)
    : AddAIProduct.Response.t :=
  {| AddAIProduct.Response.success := true;
     AddAIProduct.Response.message := None;
     AddAIProduct.Response.data :=
       Some {| AddAIProduct.Response.product_id := lit "abc-123";
               AddAIProduct.Response.product_name := lit "Intro to SQL";
               AddAIProduct.Response.bucket_root := lit "gs://bucket";
               AddAIProduct.Response.vector_index := lit "index";
               AddAIProduct.Response.number_of_videos := Z.of_nat (length items);
               AddAIProduct.Response.total_vectors := 2 * Z.of_nat (length items);
               AddAIProduct.Response.items := Some items |} |}.

Definition sample_failure (text : string) : AddAIProduct.Response.t :=
  {| AddAIProduct.Response.success := false;
     AddAIProduct.Response.message := Some (lit text);
     AddAIProduct.Response.data := None |}.

Definition sample_vector_form (question product_ids : string) : VectorSearch.State :=
  VectorSearch.handleInputChange (lit "product_ids") (lit product_ids)
    (VectorSearch.handleInputChange (lit "question") (lit question)
       VectorSearch.initial).

Definition sample_product (name : string) (score : string)
    : SearchDigitalProduct.Response.result :=
  {| SearchDigitalProduct.Response.similarity_score := lit score;
     SearchDigitalProduct.Response.product_name := lit name;
     SearchDigitalProduct.Response.product_category := lit "Database";
     SearchDigitalProduct.Response.file_format := lit "pdf";
     SearchDigitalProduct.Response.product_size_mb := lit "2.0";
     SearchDigitalProduct.Response.price := lit "19.99";
     SearchDigitalProduct.Response.product_location := lit "gs://bucket/file.pdf";
     SearchDigitalProduct.Response.product_id := lit "abc-123" |}.

Definition sample_search_answer (results : list SearchDigitalProduct.Response.result)
    : SearchDigitalProduct.Response.t :=
  {| SearchDigitalProduct.Response.success := true;
     SearchDigitalProduct.Response.message := None;
     SearchDigitalProduct.Response.total_results :=
       Number (Int (Z.of_nat (length results)));
     SearchDigitalProduct.Response.query := lit "python";
     SearchDigitalProduct.Response.results := Some results |}.

Definition sample_search_failure (text : string) : SearchDigitalProduct.Response.t :=
  {| SearchDigitalProduct.Response.success := false;
     SearchDigitalProduct.Response.message := Some (lit text);
     SearchDigitalProduct.Response.total_results := Undefined;
     SearchDigitalProduct.Response.query := lit "python";
     SearchDigitalProduct.Response.results := None |}.

Definition sample_search : SearchDigitalProduct.State :=
  SearchDigitalProduct.onChange_searchQuery (lit "python") SearchDigitalProduct.initial.

Definition sample_file : File :=
  {| file_name := lit "intro.pdf"; file_type := lit "application/pdf";
     file_bytes := [Byte.x25; Byte.x50; Byte.x44; Byte.x46] |}.

Definition sample_upload : UploadDigitalProduct.State :=
  UploadDigitalProduct.handleFileChange [sample_file]
    (UploadDigitalProduct.handleInputChange (lit "price") (lit "19.99")
       (UploadDigitalProduct.handleInputChange (lit "product_description")
          (lit "A first course") 
          (UploadDigitalProduct.handleInputChange (lit "product_category") (lit "Database")
             (UploadDigitalProduct.handleInputChange (lit "product_name") (lit "Intro to SQL")
                UploadDigitalProduct.initial)))).

Definition sample_boundary : list N := lit "----WebKitFormBoundary7MA4YWxkTrZu0gW".

Definition sample_two_lines : UploadDigitalProduct.State :=
  UploadDigitalProduct.handleInputChange (lit "product_description")
    (lit "line1" ++ [10] ++ lit "line2") sample_upload.

(** ** Requests with headers and JSON bodies

    The pages of the admin server (port 5000) send a bearer token and
    JSON; they look at [response.ok] as well as at the parsed body. *)

Module Http.

(** A number placed in a JSON body: a length, or the double that
    [parseFloat] reads from a text (its value is not computed). *)
Inductive jsonnum : Type :=
  | OfLength (n : nat)
  | ParseFloat (text : jsstring).

(** A property value of the flat objects given to [JSON.stringify]. *)
Inductive json : Type :=
  | JString (s : jsstring)
  | JNumber (n : jsonnum).

(** A body: none, a [FormData], or [JSON.stringify] of an object, kept
    as the properties of the object in their order. *)
Inductive Body : Type :=
  | NoBody
  | Multipart (fd : FormData)
  | Stringified (object : list (jsstring * json)).

Record Request : Type := {
  method : Method;
  url : jsstring;
  headers : list (jsstring * jsstring);
  body : Body
}.

(** [await fetch(...)]: it throws, or gives a response with its [ok]
    flag and a body that [response.json()] parses or rejects. *)
Inductive Answer (D : Type) : Type :=
  | Failed (error_message : jsstring)
  | Response (ok : bool) (json : FetchResult D).

Arguments Failed {D} error_message.
Arguments Response {D} ok json.

(** The component state of a page together with the requests it has
    sent so far. *)
Record Page (S : Type) : Type := {
  state : S;
  sent : list Request
}.

Arguments state {S} p.
Arguments sent {S} p.

Definition update {S} (f : S -> S) : Handler (Page S) unit :=
  setState (fun p => {| state := f (state p); sent := sent p |}).

Definition current {S} : Handler (Page S) S :=
  p ← getState; mret (state p).

Definition throw {S A} (error_message : jsstring) : Handler S A :=
  fun w => (Thrown error_message, w).

(** The response object: [response.ok] and what [response.json()]
    will give. *)
Record Reply (D : Type) : Type := {
  ok : bool;
  parsed : FetchResult D
}.

Arguments ok {D} r.
Arguments parsed {D} r.

(** [const response = await fetch(r)] *)
Definition fetch {S D} (net : Request -> Answer D) (r : Request)
    : Handler (Page S) (Reply D) :=
  setState (fun p => {| state := state p; sent := sent p ++ [r] |});;
  match net r with
  | Failed e => throw e
  | Response ok body => mret {| ok := ok; parsed := body |}
  end.

(** [await response.json()] *)
Definition json_of {S D} (response : Reply D) : Handler S D :=
  match parsed response with
  | Rejected e => throw e
  | Json data => mret data
  end.

(** [`Bearer ${localStorage.getItem('token')}`]: a missing token prints
    as null. *)
Definition bearer (localStorage : Storage) : jsstring :=
  lit "Bearer "
  ++ match getItem localStorage (lit "token") with
     | Some token => token
     | None => lit "null"
     end.

(** Running a handler on a page that has sent the requests [before]. *)
Definition run_from {S} (h : Handler (Page S) unit) (before : list Request) (s : S) : Page S :=
  component (run h {| state := s; sent := before |}).

Definition run {S} (h : Handler (Page S) unit) (s : S) : Page S :=
  run_from h [] s.

End Http.

(** ** The [AddProduct] page of the admin panel *)

Module AddProduct.

(** The answer of [/api/products/ai-training]. *)
Module Creation.
Record t : Type := {
  success : bool;
  message : value;
  product_id : value
}.
End Creation.

(** The answer of [/api/ai-processing/process-ai-product]. *)
Module Processing.
Record payload : Type := {
  course_id : value;
  successful_videos : value;
  total_videos : value;
  embeddings_created : value;
  root_directory : value
}.

Record t : Type := {
  success : bool;
  message : value;
  data : option payload
}.
End Processing.

(** The answer of [/api/products/digital]. *)
Module Digital.
Record t : Type := {
  success : bool;
  message : value
}.
End Digital.

(** The [file] state: null at first, the first file of the input after a
    change, undefined when the input was left empty. *)
Inductive FileSlot : Type :=
  | NoFile
  | Unset
  | Picked (f : File).

Record State : Type := {
  productType : jsstring;
  name : jsstring;
  category : jsstring;
  price : jsstring;
  description : jsstring;
  file : FileSlot;
  videos : list File;
  loading : bool;
  message : jsstring
}.

Definition initial : State :=
  {| productType := []; name := []; category := []; price := []; description := [];
     file := NoFile; videos := []; loading := false; message := [] |}.

Definition setProductType (v : jsstring) (st : State) : State :=
  {| productType := v; name := name st; category := category st; price := price st;
     description := description st; file := file st; videos := videos st;
     loading := loading st; message := message st |}.

Definition setName (v : jsstring) (st : State) : State :=
  {| productType := productType st; name := v; category := category st; price := price st;
     description := description st; file := file st; videos := videos st;
     loading := loading st; message := message st |}.

Definition setCategory (v : jsstring) (st : State) : State :=
  {| productType := productType st; name := name st; category := v; price := price st;
     description := description st; file := file st; videos := videos st;
     loading := loading st; message := message st |}.

Definition setPrice (v : jsstring) (st : State) : State :=
  {| productType := productType st; name := name st; category := category st; price := v;
     description := description st; file := file st; videos := videos st;
     loading := loading st; message := message st |}.

Definition setDescription (v : jsstring) (st : State) : State :=
  {| productType := productType st; name := name st; category := category st;
     price := price st; description := v; file := file st; videos := videos st;
     loading := loading st; message := message st |}.

Definition setFile (v : FileSlot) (st : State) : State :=
  {| productType := productType st; name := name st; category := category st;
     price := price st; description := description st; file := v; videos := videos st;
     loading := loading st; message := message st |}.

Definition setVideos (v : list File) (st : State) : State :=
  {| productType := productType st; name := name st; category := category st;
     price := price st; description := description st; file := file st; videos := v;
     loading := loading st; message := message st |}.

Definition setLoading (v : bool) (st : State) : State :=
  {| productType := productType st; name := name st; category := category st;
     price := price st; description := description st; file := file st;
     videos := videos st; loading := v; message := message st |}.

Definition setMessage (v : jsstring) (st : State) : State :=
  {| productType := productType st; name := name st; category := category st;
     price := price st; description := description st; file := file st;
     videos := videos st; loading := loading st; message := v |}.

(** [handleFileChange]: [e.target.files[0]], undefined for an empty list. *)
Definition handleFileChange (files : list File) : State -> State :=
  setFile (match head files with Some f => Picked f | None => Unset end).

Definition handleVideosChange (files : list File) : State -> State :=
  setVideos files.

(** The value [FormData.append] stores for the [file] state: the file,
    or the text of null or undefined. *)
Definition fileEntry (slot : FileSlot) : FormDataEntryValue :=
  match slot with
  | NoFile => Text (lit "null")
  | Unset => Text (lit "undefined")
  | Picked f => Blob f
  end.

Definition digital_endpoint : jsstring := lit "http://localhost:5000/api/products/digital".
Definition creation_endpoint : jsstring := lit "http://localhost:5000/api/products/ai-training".
Definition processing_endpoint : jsstring :=
  lit "http://127.0.0.1:8000/api/ai-processing/process-ai-product".

Definition digital_request (localStorage : Storage) (st : State) : Http.Request :=
  let formData := [] in
  let formData := append (lit "product_name") (Text (name st)) formData in
  let formData := append (lit "product_category") (Text (category st)) formData in
  let formData := append (lit "price") (Text (price st)) formData in
  let formData := append (lit "description") (Text (description st)) formData in
  let formData := append (lit "file") (fileEntry (file st)) formData in
  {| Http.method := POST; Http.url := digital_endpoint;
     Http.headers := [(lit "Authorization", Http.bearer localStorage)];
     Http.body := Http.Multipart formData |}.

Definition handleDigitalSubmit (localStorage : Storage)
    (net : Http.Request -> Http.Answer Digital.t) : Handler (Http.Page State) unit :=
  st ← Http.current;
  Http.update (setLoading true);;
  Http.update (setMessage (lit ""));;
  try_catch_finally
    (response ← Http.fetch net (digital_request localStorage st);
     data ← Http.json_of response;
     if Digital.success data then
       Http.update (setMessage (lit "Digital product created and uploaded successfully!"));;
       Http.update (setName (lit ""));;
       Http.update (setCategory (lit ""));;
       Http.update (setPrice (lit ""));;
       Http.update (setDescription (lit ""));;
       Http.update (setFile NoFile);;
       Http.update (setProductType (lit ""))
     else
       Http.update (setMessage (lit "Error: " ++ ToString (Digital.message data))))
    (fun error_message =>
       Http.update (setMessage (lit "Network error: " ++ error_message)))
    (Http.update (setLoading false)).

(** First request of a course: the record, from metadata alone. *)
Definition creation_request (localStorage : Storage) (st : State) : Http.Request :=
  {| Http.method := POST; Http.url := creation_endpoint;
     Http.headers := [(lit "Authorization", Http.bearer localStorage);
                      (lit "Content-Type", lit "application/json")];
     Http.body :=
       Http.Stringified
         [ (lit "product_name", Http.JString (name st));
           (lit "product_category", Http.JString (category st));
           (lit "price", Http.JNumber (Http.ParseFloat (price st)));
           (lit "number_of_videos", Http.JNumber (Http.OfLength (length (videos st)))) ] |}.

(** Second request of a course: the videos, with the identifier that the
    first answer gave. *)
Definition processing_request (localStorage : Storage) (st : State)
    (productId : value) : Http.Request :=
  let formData := [] in
  let formData := append (lit "product_id") (Text (ToString productId)) formData in
  let formData := append (lit "product_name") (Text (name st)) formData in
  let formData :=
    fold_left (fun formData video => append (lit "videos") (Blob video) formData)
      (videos st) formData in
  {| Http.method := POST; Http.url := processing_endpoint;
     Http.headers := [(lit "Authorization", Http.bearer localStorage)];
     Http.body := Http.Multipart formData |}.

(** The message of a processed course, a template over five lines. *)
Definition processed_message (data : Processing.payload) : jsstring :=
  lit "AI training product created and processed successfully! " ++ [10]
  ++ lit "            Course ID: " ++ ToString (Processing.course_id data) ++ [10]
  ++ lit "            Videos processed: " ++ ToString (Processing.successful_videos data)
  ++ lit "/" ++ ToString (Processing.total_videos data) ++ [10]
  ++ lit "            Embeddings created: " ++ ToString (Processing.embeddings_created data)
  ++ [10]
  ++ lit "            Root directory: " ++ ToString (Processing.root_directory data).

(** [handleAISubmit].  [type_error] is the text of the TypeError that the
    engine raises when the processing answer reports success without
    [data]. *)
Definition handleAISubmit (type_error : jsstring) (localStorage : Storage)
    (net1 : Http.Request -> Http.Answer Creation.t)
    (net2 : Http.Request -> Http.Answer Processing.t)
    : Handler (Http.Page State) unit :=
  st ← Http.current;
  Http.update (setLoading true);;
  Http.update (setMessage (lit ""));;
  try_catch_finally
    (productResponse ← Http.fetch net1 (creation_request localStorage st);
     productData ← Http.json_of productResponse;
     if Creation.success productData then
       let productId := Creation.product_id productData in
       Http.update (setMessage (lit "Product created! Processing videos through AI pipeline..."));;
       aiResponse ← Http.fetch net2 (processing_request localStorage st productId);
       aiData ← Http.json_of aiResponse;
       if Processing.success aiData then
         data ← match Processing.data aiData with
                | Some data => mret data
                | None => Http.throw type_error
                end;
         Http.update (setMessage (processed_message data));;
         Http.update (setName (lit ""));;
         Http.update (setCategory (lit ""));;
         Http.update (setPrice (lit ""));;
         Http.update (setVideos []);;
         Http.update (setProductType (lit ""))
       else
         Http.update (setMessage
           (lit "Product created but AI processing failed: "
            ++ ToString (Processing.message aiData)))
     else
       Http.update (setMessage
         (lit "Error creating product: " ++ ToString (Creation.message productData))))
    (fun error_message =>
       Http.update (setMessage (lit "Network error: " ++ error_message)))
    (Http.update (setLoading false)).

Inductive Tone : Type := Informational | Error.

(** The message box: red when the message includes 'Error' or 'failed'. *)
Definition messageBox (message : jsstring) : option Tone :=
  if truthy message then
    Some (if includes message (lit "Error") || includes message (lit "failed")
          then Error else Informational)
  else None.

End AddProduct.

(** ** The [ViewTable] page *)

Module ViewTable.

(** A row of a table: the properties of the object, in the order in
    which [Object.keys] lists them. *)
Abbreviation Row := (list (jsstring * value)).

(** The answer of [/admin/view_table]. *)
Module Response.
Record t : Type := {
  data : option (list Row);
  error : option jsstring
}.
End Response.

Record State : Type := {
  selectedTable : jsstring;
  tableData : list Row;
  loading : bool;
  error : jsstring
}.

Definition initial : State :=
  {| selectedTable := []; tableData := []; loading := false; error := [] |}.

Definition setSelectedTable (v : jsstring) (st : State) : State :=
  {| selectedTable := v; tableData := tableData st; loading := loading st;
     error := error st |}.

Definition setTableData (v : list Row) (st : State) : State :=
  {| selectedTable := selectedTable st; tableData := v; loading := loading st;
     error := error st |}.

Definition setLoading (v : bool) (st : State) : State :=
  {| selectedTable := selectedTable st; tableData := tableData st; loading := v;
     error := error st |}.

Definition setError (v : jsstring) (st : State) : State :=
  {| selectedTable := selectedTable st; tableData := tableData st; loading := loading st;
     error := v |}.

Definition tables : list jsstring :=
  map lit
    [ "super_admins"; "sub_admins"; "users"; "product_types"; "products";
      "digital_products"; "ai_train_products"; "ai_train_product_details";
      "payments"; "user_purchases"; "user_activity_log"; "sub_admin_activity_log";
      "super_admin_activity_log"; "chat_sessions"; "vector_metadata" ]%string.

(** The values of the options of the select: the empty one, then the
    tables. *)
Definition options : list jsstring := [] :: tables.

Definition request (localStorage : Storage) (selectedTable : jsstring) : Http.Request :=
  {| Http.method := GET;
     Http.url := lit "http://localhost:5000/admin/view_table?table=" ++ selectedTable;
     Http.headers := [(lit "Authorization", Http.bearer localStorage);
                      (lit "Content-Type", lit "application/json")];
     Http.body := Http.NoBody |}.

Definition fetchTableData (localStorage : Storage)
    (net : Http.Request -> Http.Answer Response.t) : Handler (Http.Page State) unit :=
  st ← Http.current;
  let selectedTable := selectedTable st in
  (if negb (truthy selectedTable) then return_ else mret tt);;
  Http.update (setLoading true);;
  Http.update (setError (lit ""));;
  try_catch_finally
    (response ← Http.fetch net (request localStorage selectedTable);
     data ← Http.json_of response;
     if Http.ok response then
       Http.update (setTableData (default [] (Response.data data)))
     else
       Http.update (setError (or_else (Response.error data) (lit "Failed to fetch data"))))
    (fun _ =>
       Http.update (setError (lit "Network error. Please check if backend is running.")))
    (Http.update (setLoading false)).

Definition handleTableChange (value : jsstring) (st : State) : State :=
  setError (lit "") (setTableData [] (setSelectedTable value st)).

Definition handleView := fetchTableData.

(** The events of the page: a choice in the select, or a click on the
    view button answered by a server. *)
Inductive Event : Type :=
  | Select (value : jsstring)
  | View (net : Http.Request -> Http.Answer Response.t).

Definition step (localStorage : Storage) (page : Http.Page State) (ev : Event)
    : Http.Page State :=
  match ev with
  | Select value =>
      {| Http.state := handleTableChange value (Http.state page);
         Http.sent := Http.sent page |}
  | View net =>
      Http.run_from (handleView localStorage net) (Http.sent page) (Http.state page)
  end.

Definition replay (localStorage : Storage) (events : list Event) : Http.Page State :=
  fold_left (step localStorage) events {| Http.state := initial; Http.sent := [] |}.

(** The table of the JSX, shown for a non-empty [tableData]: the keys of
    the first row as the header, and for each row the texts of its
    values. *)
Record Table : Type := {
  header : list jsstring;
  body : list (list jsstring)
}.

Definition renderTable (tableData : list Row) : option Table :=
  match tableData with
  | [] => None
  | first :: _ =>
      Some {| header := map fst first;
              body := map (fun row => map (fun property => ToString property.2) row)
                        tableData |}
  end.

End ViewTable.

(** ** The [AddSubadmin] page *)

Module AddSubadmin.

Module Response.
Record t : Type := {
  error : option jsstring
}.
End Response.

Record FormFields : Type := {
  name : jsstring;
  email : jsstring;
  password : jsstring;
  phone_number : jsstring
}.

Record State : Type := {
  formData : FormFields;
  error : jsstring;
  success : jsstring;
  loading : bool
}.

Definition emptyForm : FormFields :=
  {| name := []; email := []; password := []; phone_number := [] |}.

Definition initial : State :=
  {| formData := emptyForm; error := []; success := []; loading := false |}.

Definition setFormData (v : FormFields) (st : State) : State :=
  {| formData := v; error := error st; success := success st; loading := loading st |}.

Definition setError (v : jsstring) (st : State) : State :=
  {| formData := formData st; error := v; success := success st; loading := loading st |}.

Definition setSuccess (v : jsstring) (st : State) : State :=
  {| formData := formData st; error := error st; success := v; loading := loading st |}.

Definition setLoading (v : bool) (st : State) : State :=
  {| formData := formData st; error := error st; success := success st; loading := v |}.

(** [handleChange]: the field called like the input takes its value. *)
Definition handleChange (target_name value : jsstring) (st : State) : State :=
  let formData := formData st in
  setFormData
    (if decide (target_name = lit "name") then
       {| name := value; email := email formData; password := password formData;
          phone_number := phone_number formData |}
     else if decide (target_name = lit "email") then
       {| name := name formData; email := value; password := password formData;
          phone_number := phone_number formData |}
     else if decide (target_name = lit "password") then
       {| name := name formData; email := email formData; password := value;
          phone_number := phone_number formData |}
     else if decide (target_name = lit "phone_number") then
       {| name := name formData; email := email formData; password := password formData;
          phone_number := value |}
     else formData) st.

Definition request (localStorage : Storage) (formData : FormFields) : Http.Request :=
  {| Http.method := POST;
     Http.url := lit "http://localhost:5000/admin/insert";
     Http.headers := [(lit "Authorization", Http.bearer localStorage);
                      (lit "Content-Type", lit "application/json")];
     Http.body :=
       Http.Stringified
         [ (lit "name", Http.JString (name formData));
           (lit "email", Http.JString (email formData));
           (lit "password", Http.JString (password formData));
           (lit "phone_number", Http.JString (phone_number formData)) ] |}.

Definition handleSubmit (localStorage : Storage)
    (net : Http.Request -> Http.Answer Response.t) : Handler (Http.Page State) unit :=
  st ← Http.current;
  let formData := formData st in
  Http.update (setLoading true);;
  Http.update (setError (lit ""));;
  Http.update (setSuccess (lit ""));;
  try_catch_finally
    (response ← Http.fetch net (request localStorage formData);
     data ← Http.json_of response;
     if Http.ok response then
       Http.update (setSuccess (lit "Sub admin created successfully!"));;
       Http.update (setFormData emptyForm)
     else
       Http.update (setError (or_else (Response.error data) (lit "Failed to create sub admin"))))
    (fun _ =>
       Http.update (setError (lit "Network error. Please check if backend is running.")))
    (Http.update (setLoading false)).

End AddSubadmin.

(** ** The [Dashboard] page *)

Module Dashboard.

Record Stats : Type := {
  totalProducts : value;
  totalUsers : value;
  totalSubadmins : value;
  totalRevenue : value
}.

(** The answer of [/api/dashboard/stats]; [data] may be missing. *)
Module Response.
Record t : Type := {
  success : bool;
  data : option Stats
}.
End Response.

(** [stats] holds what [setStats] was given: [None] stands for the
    undefined of an answer without [data]. *)
Record State : Type := {
  stats : option Stats;
  loading : bool;
  error : jsstring
}.

Definition initial : State :=
  {| stats := Some {| totalProducts := Number (Int 0); totalUsers := Number (Int 0);
                      totalSubadmins := Number (Int 0); totalRevenue := Number (Int 0) |};
     loading := true; error := [] |}.

Definition setStats (v : option Stats) (st : State) : State :=
  {| stats := v; loading := loading st; error := error st |}.

Definition setLoading (v : bool) (st : State) : State :=
  {| stats := stats st; loading := v; error := error st |}.

Definition setError (v : jsstring) (st : State) : State :=
  {| stats := stats st; loading := loading st; error := v |}.

(** The mock data of the [catch]. *)
Definition sampleStats : Stats :=
  {| totalProducts := Number (Int 150); totalUsers := Number (Int 1250);
     totalSubadmins := Number (Int 15); totalRevenue := Number (Int 45000) |}.

Definition request (localStorage : Storage) : Http.Request :=
  {| Http.method := GET;
     Http.url := lit "http://localhost:5000/api/dashboard/stats";
     Http.headers := [(lit "Authorization", Http.bearer localStorage);
                      (lit "Content-Type", lit "application/json")];
     Http.body := Http.NoBody |}.

Definition fetchDashboardStats (localStorage : Storage)
    (net : Http.Request -> Http.Answer Response.t) : Handler (Http.Page State) unit :=
  try_catch_finally
    (response ← Http.fetch net (request localStorage);
     if Http.ok response then
       data ← Http.json_of response;
       if Response.success data then
         Http.update (setStats (Response.data data))
       else
         Http.update (setError (lit "Failed to fetch dashboard data"))
     else
       Http.update (setError (lit "Failed to fetch dashboard data")))
    (fun _ =>
       Http.update (setError (lit "Network error. Please check if backend is running."));;
       Http.update (setStats (Some sampleStats)))
    (Http.update (setLoading false)).

(** What the page shows: the loading text, or the cards with the
    banner above them. *)
Inductive View : Type :=
  | LoadingView
  | Cards (banner : option jsstring) (figures : Stats).

(** The render of the page: the loading text while [loading];
    otherwise the banner for a non-empty error, and the cards, which
    read [stats.totalProducts] and the other figures.  With [stats]
    undefined that read throws and nothing is shown: [None]. *)
Definition render (st : State) : option View :=
  if loading st then Some LoadingView
  else
    match stats st with
    | None => None
    | Some figures =>
        Some (Cards (if truthy (error st)
                     then Some (error st ++ lit " (Showing sample data)")
                     else None)
                figures)
    end.

(** The 'Refresh Data' button belongs to the cards: a click fetches
    again when the cards are shown, and there is nothing to click
    otherwise. *)
Definition click (localStorage : Storage) (page : Http.Page State)
    (net : Http.Request -> Http.Answer Response.t) : Http.Page State :=
  match render (Http.state page) with
  | Some (Cards _ _) =>
      Http.run_from (fetchDashboardStats localStorage net) (Http.sent page) (Http.state page)
  | _ => page
  end.

(** One click on 'Refresh Data' per server, as far as the button is
    there. *)
Definition refreshes (localStorage : Storage)
    (nets : list (Http.Request -> Http.Answer Response.t))
    (page : Http.Page State) : Http.Page State :=
  fold_left (click localStorage) nets page.

End Dashboard.

(** ** The panels and their sidebars *)

Module SuperAdminPanel.

Inductive Component : Type :=
  | ViewTable | AddSuperAdmin | AddSubadmin | AddAIProduct | VectorSearch
  | UploadDigitalProduct | SearchDigitalProduct.

Definition initial : jsstring := lit "viewTable".

(** The [switch] of [renderPage], with its default. *)
Definition renderPage (currentPage : jsstring) : Component :=
  if decide (currentPage = lit "viewTable") then ViewTable
  else if decide (currentPage = lit "addSuperAdmin") then AddSuperAdmin
  else if decide (currentPage = lit "addSubadmin") then AddSubadmin
  else if decide (currentPage = lit "addAIProduct") then AddAIProduct
  else if decide (currentPage = lit "vectorSearch") then VectorSearch
  else if decide (currentPage = lit "uploadDigitalProduct") then UploadDigitalProduct
  else if decide (currentPage = lit "searchDigitalProduct") then SearchDigitalProduct
  else ViewTable.

(** The pages that the buttons of the sidebar set, from top to bottom. *)
Definition buttons : list jsstring :=
  map lit [ "viewTable"; "addSuperAdmin"; "addSubadmin"; "addAIProduct"; "vectorSearch";
            "uploadDigitalProduct"; "searchDigitalProduct" ]%string.

(** The class of a button is 'active' when it is the current page. *)
Definition active (currentPage button : jsstring) : bool :=
  bool_decide (currentPage = button).

End SuperAdminPanel.

Module SubAdminPanel.

Inductive Component : Type := ViewTable | AddSubadmin | AddAIProduct.

Definition initial : jsstring := lit "viewTable".

Definition renderPage (currentPage : jsstring) : Component :=
  if decide (currentPage = lit "viewTable") then ViewTable
  else if decide (currentPage = lit "addSubadmin") then AddSubadmin
  else if decide (currentPage = lit "addAIProduct") then AddAIProduct
  else ViewTable.

Definition buttons : list jsstring :=
  map lit [ "viewTable"; "addSubadmin"; "addAIProduct" ]%string.

Definition active (currentPage button : jsstring) : bool :=
  bool_decide (currentPage = button).

End SubAdminPanel.

(** The panel of [AdminPanel.jsx], with the vector search in place of
    the course form. *)
Module AdminPanel.

Inductive Component : Type := ViewTable | AddSubadmin | VectorSearch.

Definition initial : jsstring := lit "viewTable".

Definition renderPage (currentPage : jsstring) : Component :=
  if decide (currentPage = lit "viewTable") then ViewTable
  else if decide (currentPage = lit "addSubadmin") then AddSubadmin
  else if decide (currentPage = lit "vectorSearch") then VectorSearch
  else ViewTable.

Definition buttons : list jsstring :=
  map lit [ "viewTable"; "addSubadmin"; "vectorSearch" ]%string.

Definition active (currentPage button : jsstring) : bool :=
  bool_decide (currentPage = button).

End AdminPanel.

(** ** More sample inputs *)

Definition sample_admin_course : AddProduct.State :=
  AddProduct.handleVideosChange [sample_video "lesson1.mp4"; sample_video "lesson2.mp4"]
    (AddProduct.setPrice (lit "19.99")
       (AddProduct.setCategory (lit "Database")
          (AddProduct.setName (lit "Intro to SQL")
             (AddProduct.setProductType (lit "ai") AddProduct.initial)))).

Definition sample_created : AddProduct.Creation.t :=
  {| AddProduct.Creation.success := true;
     AddProduct.Creation.message := Undefined;
     AddProduct.Creation.product_id := Number (Int 42) |}.

Definition sample_not_processed : AddProduct.Processing.t :=
  {| AddProduct.Processing.success := false;
     AddProduct.Processing.message := String (lit "transcoder unavailable");
     AddProduct.Processing.data := None |}.
(** * Properties *)

(** ** Strings *)

Example trim_spaces : trim (lit "  a b ") = lit "a b".
Proof. reflexivity. Qed.

Example trim_comma : trim (lit " , ") = lit ",".
Proof. reflexivity. Qed.

Example includes_error : includes (lit "Network error: x") (lit "error") = true.
Proof. reflexivity. Qed.

Example parseInt_examples :
  parseInt (lit "") = NaN /\ parseInt (lit "100") = Int 100
  /\ parseInt (lit "-3") = Int (-3) /\ parseInt (lit "2.5") = Int 2
  /\ parseInt (lit "1e5") = Int 1 /\ parseInt (lit ".5") = NaN
  /\ parseInt (lit "0x1f") = Int 31.
Proof. repeat split; reflexivity. Qed.

Example toString_examples :
  Number_toString (Int 0) = lit "0" /\ Number_toString (Int 50) = lit "50"
  /\ Number_toString (Int (-7)) = lit "-7" /\ Number_toString NaN = lit "NaN".
Proof. repeat split; reflexivity. Qed.

Lemma startsWith_app (p s : jsstring) : startsWith p (p ++ s) = true.
Proof.
  induction p as [|a p IH]; simpl; [reflexivity|].
  rewrite N.eqb_refl. exact IH.
Qed.

Lemma includes_app_r (pre s sub : jsstring) :
  includes s sub = true -> includes (pre ++ s) sub = true.
Proof.
  intros H. induction pre as [|a pre IH]; simpl; [exact H|].
  rewrite IH. apply orb_true_r.
Qed.

Lemma includes_infix (pre sub post : jsstring) :
  includes (pre ++ sub ++ post) sub = true.
Proof.
  apply includes_app_r.
  destruct sub as [|a sub]; destruct post; simpl;
    rewrite ?N.eqb_refl, ?startsWith_app; reflexivity.
Qed.

(** A prefix in which the first code unit of [sub] does not occur
    cannot hold the start of an occurrence of [sub]. *)
Lemma includes_skip (c : N) (sub pre s : jsstring) :
  Forall (fun x => x <> c) pre ->
  includes (pre ++ s) (c :: sub) = includes s (c :: sub).
Proof.
  induction 1 as [|x pre Hx _ IH]; [reflexivity|].
  change (includes ((x :: pre) ++ s) (c :: sub))
    with (startsWith (c :: sub) (x :: pre ++ s) || includes (pre ++ s) (c :: sub)).
  rewrite IH. simpl startsWith.
  destruct (N.eqb_spec c x) as [->|_]; [contradiction|reflexivity].
Qed.

Lemma trimStart_whitespace (s : jsstring) :
  forallb isWhiteSpace s = true <-> trimStart s = [].
Proof.
  induction s as [|c s IH]; simpl; [tauto|].
  destruct (isWhiteSpace c); simpl; [exact IH|].
  split; discriminate.
Qed.

(** [trim] leaves nothing exactly of the strings made of white space. *)
Lemma trim_whitespace (s : jsstring) :
  forallb isWhiteSpace s = true <-> trim s = [].
Proof.
  unfold trim, trimEnd. split.
  - intros H. apply trimStart_whitespace in H. rewrite H. reflexivity.
  - intros H. apply trimStart_whitespace.
    destruct (trimStart s) as [|c t] eqn:E; [reflexivity|].
    exfalso.
    assert (Hne : trimStart (rev (c :: t)) <> []).
    { assert (Hc : isWhiteSpace c = false).
      { destruct s as [|a s']; [discriminate|].
        revert E. clear. revert a.
        induction s' as [|b s' IH]; intros a; simpl.
        - destruct (isWhiteSpace a) eqn:Ea; [discriminate|].
          intros [= <- _]. exact Ea.
        - destruct (isWhiteSpace a) eqn:Ea.
          + intros E. apply (IH b). exact E.
          + intros [= <- _]. exact Ea. }
      intros Hnil. apply trimStart_whitespace in Hnil.
      rewrite forallb_forall in Hnil.
      specialize (Hnil c). rewrite Hc in Hnil.
      assert (In c (rev (c :: t))) as Hin by (apply in_rev; rewrite rev_involutive; left; reflexivity).
      specialize (Hnil Hin). discriminate. }
    apply Hne. apply (f_equal (@rev N)) in H. rewrite rev_involutive in H. exact H.
Qed.

(** The decimal text of an integer is made of digits, after a minus
    sign at most. *)
Lemma uint_text (d : Decimal.uint) :
  Forall (fun c => 48 <= c <= 57) (lit (NilEmpty.string_of_uint d)).
Proof.
  unfold lit. induction d; simpl; constructor; try assumption; lia.
Qed.

Lemma decimal_text (z : Z) :
  Forall (fun c => c = 45 \/ 48 <= c <= 57) (decimal z).
Proof.
  assert (Hu : forall d, Forall (fun c => c = 45 \/ 48 <= c <= 57)
                           (lit (NilZero.string_of_uint d))).
  { intros d. destruct d; try (eapply Forall_impl; [apply uint_text|]; simpl; tauto).
    unfold lit; simpl. constructor; [right; lia | constructor]. }
  unfold decimal. destruct (Z.to_int z) as [d|d]; simpl.
  - apply Hu.
  - unfold lit in *. simpl. constructor; [left; reflexivity|]. apply Hu.
Qed.

(** No number prints with an 'E' (69) or an 'e' (101). *)
Lemma Number_toString_text (n : number) :
  Forall (fun c => c <> 69 /\ c <> 101) (Number_toString n).
Proof.
  destruct n as [|z]; simpl.
  - unfold lit; simpl. repeat constructor; discriminate.
  - eapply Forall_impl; [apply decimal_text|]. simpl. intros c Hc. lia.
Qed.

(** ** Course submission: [AddAIProduct] *)

(** Running a handler: unfold the operations of the handler monad and
    reduce up to the first choice that depends on the input. *)
Ltac run_handler handler :=
  unfold run, handler, try_catch_finally, mbind, handler_bind,
    fetch_json, setState, getState, return_;
  simpl.

(** What [handleSubmit] leaves behind: one request, and a state decided
    by the answer to it. *)
Lemma AddAIProduct_run localStorage net st :
  run (AddAIProduct.handleSubmit localStorage net) st =
  let request :=
    AddAIProduct.request
      (AddAIProduct.submitData localStorage (AddAIProduct.formData st)) in
  {| component :=
       match net request with
       | Json data =>
           if AddAIProduct.Response.success data then
             {| AddAIProduct.formData := AddAIProduct.emptyForm;
                AddAIProduct.loading := false;
                AddAIProduct.message :=
                  lit "AI training product created and processed successfully!";
                AddAIProduct.responseData := AddAIProduct.Response.data data |}
           else
             {| AddAIProduct.formData := AddAIProduct.formData st;
                AddAIProduct.loading := false;
                AddAIProduct.message :=
                  lit "Error: "
                  ++ or_else (AddAIProduct.Response.message data)
                       (lit "Unknown error occurred");
                AddAIProduct.responseData := None |}
       | Rejected error_message =>
           {| AddAIProduct.formData := AddAIProduct.formData st;
              AddAIProduct.loading := false;
              AddAIProduct.message := lit "Network error: " ++ error_message;
              AddAIProduct.responseData := None |}
       end;
     fetched := [request] |}.
Proof.
  run_handler AddAIProduct.handleSubmit.
  destruct (net _) as [e|data]; simpl; [reflexivity|].
  destruct (AddAIProduct.Response.success data); reflexivity.
Qed.

(** A message that starts with 'Error: ' or with 'Network error: '
    includes 'Error' or 'error', whatever follows. *)
Lemma includes_Error (text : jsstring) :
  includes (lit "Error: " ++ text) (lit "Error") = true.
Proof.
  change (lit "Error: " ++ text) with ([] ++ lit "Error" ++ (lit ": " ++ text)).
  apply includes_infix.
Qed.

Lemma includes_Network_error (text : jsstring) :
  includes (lit "Network error: " ++ text) (lit "error") = true.
Proof.
  change (lit "Network error: " ++ text)
    with (lit "Network " ++ lit "error" ++ (lit ": " ++ text)).
  apply includes_infix.
Qed.

Lemma AddAIProduct_messageBox_Error (text : jsstring) :
  AddAIProduct.messageBox (lit "Error: " ++ text) = Some AddAIProduct.Error.
Proof.
  unfold AddAIProduct.messageBox. rewrite includes_Error. reflexivity.
Qed.

Lemma AddAIProduct_messageBox_Network_error (text : jsstring) :
  AddAIProduct.messageBox (lit "Network error: " ++ text) = Some AddAIProduct.Error.
Proof.
  unfold AddAIProduct.messageBox. rewrite includes_Network_error, orb_true_r.
  reflexivity.
Qed.

(** C1, as stated, fails: a course with one video is submitted in one
    request, which carries the video; no request creates the record from
    metadata alone. *)
Lemma two_phase_fails :
  ~ Spec.two_phase ∅ (fun _ => Json (sample_course_answer [sample_item "Lesson 1"]))
      (sample_course [sample_video "lesson1.mp4"]).
Proof.
  intros (phase1 & phase2 & Hcalls & Hmeta & _).
  rewrite AddAIProduct_run in Hcalls. simpl in Hcalls.
  injection Hcalls as <- _.
  vm_compute in Hmeta. discriminate.
Qed.

(** C1, amended: every course submission hands exactly one request to
    [fetch], the POST to the add-ai-train-product endpoint whose body
    holds the actor, the metadata and the videos; whatever the answer to
    it, success, failure or a thrown error, no other request follows. *)
Theorem single_submission_call localStorage net st :
  fetched (run (AddAIProduct.handleSubmit localStorage net) st)
  = [ {| method := POST; url := AddAIProduct.endpoint; searchParams := [];
         body := AddAIProduct.submitData localStorage (AddAIProduct.formData st) |} ]
  /\ length (fetched (run (AddAIProduct.handleSubmit localStorage net) st)) = 1%nat.
Proof.
  rewrite AddAIProduct_run. split; reflexivity.
Qed.

(** C2, as stated, fails: the same answer with three items leaves the
    page in the same state after a course of five videos and after a
    course of three, where the specification derives PartiallyProcessed
    for the first and AllProcessed for the second. *)
Lemma overall_status_not_derived : ~ Spec.overall_status_derivation.
Proof.
  intros [status_of H].
  pose (answer := sample_course_answer
                    [sample_item "Lesson 1"; sample_item "Lesson 2"; sample_item "Lesson 3"]).
  pose (five := sample_course (map sample_video ["1"; "2"; "3"; "4"; "5"]%string)).
  pose (three := sample_course (map sample_video ["1"; "2"; "3"]%string)).
  pose proof (H ∅ (Json answer) five) as H5.
  pose proof (H ∅ (Json answer) three) as H3.
  rewrite AddAIProduct_run in H5, H3.
  change (status_of (AddAIProduct.Build_State AddAIProduct.emptyForm false
            (lit "AI training product created and processed successfully!")
            (AddAIProduct.Response.data answer)) = Spec.PartiallyProcessed) in H5.
  change (status_of (AddAIProduct.Build_State AddAIProduct.emptyForm false
            (lit "AI training product created and processed successfully!")
            (AddAIProduct.Response.data answer)) = Spec.AllProcessed) in H3.
  congruence.
Qed.

(** C2, amended: the outcome of a course submission is decided by the
    [success] flag of the answer alone.  With the flag set the message
    is the fixed success line and [responseData] is the data of the
    answer, however many items it lists; with the flag unset the message
    is 'Error: ' followed by the message of the answer and
    [responseData] stays null; when the call throws the message is
    'Network error: ' followed by the error text and [responseData]
    stays null, so no product identifier is kept. *)
Theorem outcome_follows_success_flag localStorage net st :
  component (run (AddAIProduct.handleSubmit localStorage net) st) =
  match net (AddAIProduct.request
               (AddAIProduct.submitData localStorage (AddAIProduct.formData st))) with
  | Json data =>
      if AddAIProduct.Response.success data then
        {| AddAIProduct.formData := AddAIProduct.emptyForm;
           AddAIProduct.loading := false;
           AddAIProduct.message :=
             lit "AI training product created and processed successfully!";
           AddAIProduct.responseData := AddAIProduct.Response.data data |}
      else
        {| AddAIProduct.formData := AddAIProduct.formData st;
           AddAIProduct.loading := false;
           AddAIProduct.message :=
             lit "Error: "
             ++ or_else (AddAIProduct.Response.message data) (lit "Unknown error occurred");
           AddAIProduct.responseData := None |}
  | Rejected error_message =>
      {| AddAIProduct.formData := AddAIProduct.formData st;
         AddAIProduct.loading := false;
         AddAIProduct.message := lit "Network error: " ++ error_message;
         AddAIProduct.responseData := None |}
  end.
Proof.
  rewrite AddAIProduct_run. reflexivity.
Qed.

(** ** Digital product upload: [UploadDigitalProduct] *)

(** What [handleSubmit] leaves behind: without a file, the validation
    message and no request; with a file, one request and a state decided
    by the answer to it. *)
Lemma UploadDigitalProduct_run localStorage net st :
  run (UploadDigitalProduct.handleSubmit localStorage net) st =
  match UploadDigitalProduct.product_file (UploadDigitalProduct.formData st) with
  | None =>
      {| component :=
           {| UploadDigitalProduct.formData := UploadDigitalProduct.formData st;
              UploadDigitalProduct.loading := false;
              UploadDigitalProduct.message := lit "Error: Please select a product file";
              UploadDigitalProduct.responseData := None |};
         fetched := [] |}
  | Some file =>
      let request :=
        UploadDigitalProduct.request
          (UploadDigitalProduct.submitData localStorage
             (UploadDigitalProduct.formData st) file) in
      {| component :=
           match net request with
           | Json data =>
               if UploadDigitalProduct.Response.success data then
                 {| UploadDigitalProduct.formData := UploadDigitalProduct.emptyForm;
                    UploadDigitalProduct.loading := false;
                    UploadDigitalProduct.message :=
                      lit "Digital product uploaded successfully!";
                    UploadDigitalProduct.responseData :=
                      UploadDigitalProduct.Response.data data |}
               else
                 {| UploadDigitalProduct.formData := UploadDigitalProduct.formData st;
                    UploadDigitalProduct.loading := false;
                    UploadDigitalProduct.message :=
                      lit "Error: "
                      ++ or_else (UploadDigitalProduct.Response.message data)
                           (lit "Unknown error occurred");
                    UploadDigitalProduct.responseData := None |}
           | Rejected error_message =>
               {| UploadDigitalProduct.formData := UploadDigitalProduct.formData st;
                  UploadDigitalProduct.loading := false;
                  UploadDigitalProduct.message := lit "Network error: " ++ error_message;
                  UploadDigitalProduct.responseData := None |}
           end;
         fetched := [request] |}
  end.
Proof.
  run_handler UploadDigitalProduct.handleSubmit.
  destruct (UploadDigitalProduct.product_file _) as [file|]; simpl; [|reflexivity].
  destruct (net _) as [e|data]; simpl; [reflexivity|].
  destruct (UploadDigitalProduct.Response.success data); reflexivity.
Qed.

Lemma UploadDigitalProduct_messageBox_Error (text : jsstring) :
  UploadDigitalProduct.messageBox (lit "Error: " ++ text)
  = Some UploadDigitalProduct.Error.
Proof.
  unfold UploadDigitalProduct.messageBox. rewrite includes_Error. reflexivity.
Qed.

Lemma UploadDigitalProduct_messageBox_Network_error (text : jsstring) :
  UploadDigitalProduct.messageBox (lit "Network error: " ++ text)
  = Some UploadDigitalProduct.Error.
Proof.
  unfold UploadDigitalProduct.messageBox.
  rewrite includes_Network_error, orb_true_r. reflexivity.
Qed.

(** C3: on both upload pages the tone of the message box after a
    submission is a function of the overall status alone: informational
    for a success, error for a failure, whatever text the server or the
    thrown error puts in the message. *)
Theorem tone_from_overall_status :
  (exists tone_of : AddAIProduct.OverallStatus -> AddAIProduct.Tone,
     tone_of AddAIProduct.success = AddAIProduct.Informational
     /\ tone_of AddAIProduct.failure = AddAIProduct.Error
     /\ forall localStorage result st,
       AddAIProduct.messageBox
         (AddAIProduct.message
            (component (run (AddAIProduct.handleSubmit localStorage (fun _ => result)) st)))
       = Some (tone_of (AddAIProduct.overall_status result)))
  /\ (exists tone_of : UploadDigitalProduct.OverallStatus -> UploadDigitalProduct.Tone,
        tone_of UploadDigitalProduct.success = UploadDigitalProduct.Informational
        /\ tone_of UploadDigitalProduct.failure = UploadDigitalProduct.Error
        /\ forall localStorage result st,
          UploadDigitalProduct.messageBox
            (UploadDigitalProduct.message
               (component
                  (run (UploadDigitalProduct.handleSubmit localStorage (fun _ => result)) st)))
          = Some (tone_of (UploadDigitalProduct.overall_status
                             (UploadDigitalProduct.formData st) result))).
Proof.
  split.
  - exists (fun s => match s with
                     | AddAIProduct.success => AddAIProduct.Informational
                     | _ => AddAIProduct.Error
                     end).
    split; [reflexivity|]. split; [reflexivity|].
    intros localStorage result st. rewrite AddAIProduct_run. simpl.
    destruct result as [e|data]; simpl.
    + apply AddAIProduct_messageBox_Network_error.
    + destruct (AddAIProduct.Response.success data); simpl.
      * reflexivity.
      * apply AddAIProduct_messageBox_Error.
  - exists (fun s => match s with
                     | UploadDigitalProduct.success => UploadDigitalProduct.Informational
                     | _ => UploadDigitalProduct.Error
                     end).
    split; [reflexivity|]. split; [reflexivity|].
    intros localStorage result st. rewrite UploadDigitalProduct_run.
    unfold UploadDigitalProduct.overall_status.
    destruct (UploadDigitalProduct.product_file _) as [file|]; simpl.
    + destruct result as [e|data]; simpl.
      * apply UploadDigitalProduct_messageBox_Network_error.
      * destruct (UploadDigitalProduct.Response.success data); simpl.
        -- reflexivity.
        -- apply UploadDigitalProduct_messageBox_Error.
    + reflexivity.
Qed.

(** ** The multipart body *)

Lemma forEach_append (name : jsstring) (files : list File) (fd : FormData) :
  fold_left (fun fd file => append name (Blob file) fd) files fd
  = fd ++ map (fun file => (name, Blob file)) files.
Proof.
  revert fd. induction files as [|file files IH]; intros fd; simpl.
  - symmetry. apply app_nil_r.
  - rewrite IH. unfold append. rewrite <- app_assoc. reflexivity.
Qed.

Lemma getAll_app (name : jsstring) (fd1 fd2 : FormData) :
  getAll name (fd1 ++ fd2) = getAll name fd1 ++ getAll name fd2.
Proof.
  unfold getAll. rewrite filter_app, fmap_app. reflexivity.
Qed.

Lemma getAll_same (name : jsstring) (values : list FormDataEntryValue) :
  getAll name (map (fun v => (name, v)) values) = values.
Proof.
  unfold getAll. induction values as [|v values IH]; [reflexivity|].
  simpl. rewrite filter_cons. simpl.
  destruct (decide (name = name)) as [_|Hne]; [|contradiction].
  simpl. f_equal. exact IH.
Qed.

(** The body of a course submission: six text fields, then one entry
    called 'videos' per video, in the order of the list. *)
Lemma submitData_shape localStorage formData :
  AddAIProduct.submitData localStorage formData =
  [ (lit "admin_id",
     Text (or_else (getItem localStorage (lit "admin_id")) AddAIProduct.default_admin_id));
    (lit "admin_type",
     Text (or_else (getItem localStorage (lit "admin_type")) AddAIProduct.default_admin_type));
    (lit "product_name", Text (AddAIProduct.product_name formData));
    (lit "product_category", Text (AddAIProduct.product_category formData));
    (lit "suggestion_questions", Text (AddAIProduct.suggestion_questions formData));
    (lit "price", Text (AddAIProduct.price formData)) ]
  ++ map (fun v => (lit "videos", v)) (map Blob (AddAIProduct.videos formData)).
Proof.
  unfold AddAIProduct.submitData. rewrite forEach_append.
  rewrite map_map. reflexivity.
Qed.

Lemma submitData_videos localStorage formData :
  getAll (lit "videos") (AddAIProduct.submitData localStorage formData)
  = map Blob (AddAIProduct.videos formData).
Proof.
  rewrite submitData_shape, getAll_app, getAll_same. reflexivity.
Qed.

(** C4: the videos picked in the file input reach the body of the
    request under the one field name 'videos' and in the order of the
    selection: the i-th entry called 'videos' is the i-th selected file,
    and these entries follow the six text fields in that same order. *)
Theorem videos_in_selection_order localStorage net st (files : list File) :
  exists request,
    fetched (run (AddAIProduct.handleSubmit localStorage net)
               (AddAIProduct.handleVideosChange files st)) = [request]
    /\ getAll (lit "videos") (body request) = map Blob files
    /\ (forall i : nat, getAll (lit "videos") (body request) !! i = Blob <$> (files !! i))
    /\ (exists fields,
          length fields = 6%nat
          /\ body request = fields ++ map (fun file => (lit "videos", Blob file)) files).
Proof.
  eexists. rewrite AddAIProduct_run. cbv zeta. cbn [fetched].
  split; [reflexivity|].
  cbn [AddAIProduct.request body].
  pose proof (submitData_videos localStorage
                (AddAIProduct.formData (AddAIProduct.handleVideosChange files st))) as Hall.
  pose proof (submitData_shape localStorage
                (AddAIProduct.formData (AddAIProduct.handleVideosChange files st))) as Hshape.
  change (AddAIProduct.videos
            (AddAIProduct.formData (AddAIProduct.handleVideosChange files st)))
    with files in Hall, Hshape.
  split; [exact Hall|]. split.
  - intros i. rewrite Hall. apply list_lookup_fmap.
  - eexists. split; [|rewrite Hshape, map_map; reflexivity]. reflexivity.
Qed.

(** ** Search pages *)

(** What [handleSearch] leaves behind: for a blank query the validation
    message and no request; otherwise one request with the query and the
    result count as they stand, and a state decided by the answer. *)
Lemma SearchDigitalProduct_run net st :
  run (SearchDigitalProduct.handleSearch net) st =
  let finish message searchResults :=
    {| SearchDigitalProduct.searchQuery := SearchDigitalProduct.searchQuery st;
       SearchDigitalProduct.numResults := SearchDigitalProduct.numResults st;
       SearchDigitalProduct.loading := false;
       SearchDigitalProduct.message := message;
       SearchDigitalProduct.searchResults := searchResults |} in
  if truthy (trim (SearchDigitalProduct.searchQuery st)) then
    let request :=
      SearchDigitalProduct.request
        [ (lit "query", SearchDigitalProduct.searchQuery st);
          (lit "n", Number_toString (SearchDigitalProduct.numResults st)) ] in
    {| component :=
         match net request with
         | Json data =>
             if SearchDigitalProduct.Response.success data then
               finish (lit "Found "
                       ++ ToString (SearchDigitalProduct.Response.total_results data)
                       ++ lit " digital products matching your search")
                 (Some data)
             else
               finish (lit "Error: "
                       ++ or_else (SearchDigitalProduct.Response.message data)
                            (lit "Search failed"))
                 None
         | Rejected error_message =>
             finish (lit "Network error: " ++ error_message) None
         end;
       fetched := [request] |}
  else
    {| component := finish (lit "Error: Please enter a search query") None;
       fetched := [] |}.
Proof.
  run_handler SearchDigitalProduct.handleSearch.
  destruct (truthy (trim _)); simpl; [|reflexivity].
  destruct (net _) as [e|data]; simpl; [reflexivity|].
  destruct (SearchDigitalProduct.Response.success data); reflexivity.
Qed.

Lemma VectorSearch_run net st :
  run (VectorSearch.handleSubmit net) st =
  let formData := VectorSearch.formData st in
  let finish message searchResults :=
    {| VectorSearch.formData := formData;
       VectorSearch.loading := false;
       VectorSearch.message := message;
       VectorSearch.searchResults := searchResults |} in
  if truthy (trim (VectorSearch.question formData)) then
    if truthy (trim (VectorSearch.product_ids formData)) then
      let request :=
        VectorSearch.request
          [ (lit "question", VectorSearch.question formData);
            (lit "product_ids", VectorSearch.product_ids formData);
            (lit "n", ToString (VectorSearch.n formData)) ] in
      {| component :=
           match net request with
           | Json data =>
               if VectorSearch.Response.success data then
                 finish (lit "Found "
                         ++ ToString (VectorSearch.Response.total_results data)
                         ++ lit " results for your search")
                   (Some data)
               else
                 finish (lit "Error: "
                         ++ or_else (VectorSearch.Response.message data)
                              (lit "Search failed"))
                   None
           | Rejected error_message =>
               finish (lit "Network error: " ++ error_message) None
           end;
         fetched := [request] |}
    else
      {| component := finish (lit "Error: Please enter at least one product ID") None;
         fetched := [] |}
  else
    {| component := finish (lit "Error: Please enter a search question") None;
       fetched := [] |}.
Proof.
  run_handler VectorSearch.handleSubmit.
  destruct (truthy (trim (VectorSearch.question _))); simpl; [|reflexivity].
  destruct (truthy (trim (VectorSearch.product_ids _))); simpl; [|reflexivity].
  destruct (net _) as [e|data]; simpl; [reflexivity|].
  destruct (VectorSearch.Response.success data); reflexivity.
Qed.

Lemma truthy_trim (s : jsstring) :
  truthy (trim s) = negb (forallb isWhiteSpace s).
Proof.
  destruct (forallb isWhiteSpace s) eqn:E.
  - apply trim_whitespace in E. rewrite E. reflexivity.
  - destruct (trim s) eqn:Et; [|reflexivity].
    apply trim_whitespace in Et. congruence.
Qed.

(** C5, as stated, fails: the product_ids string ',' holds no
    identifier, and the question 'q' is still sent with it. *)
Lemma comma_only_is_sent : ~ Spec.buildQuery_rejects.
Proof.
  intros H.
  specialize (H (fun _ => Rejected []) (sample_vector_form "q" ",")).
  assert (Hset : Spec.product_id_set
                   (VectorSearch.product_ids
                      (VectorSearch.formData (sample_vector_form "q" ","))) = [])
    by reflexivity.
  specialize (H (or_intror Hset)).
  rewrite VectorSearch_run in H. vm_compute in H. discriminate.
Qed.

(** C5, amended: the vector search sends nothing and shows a validation
    error for every question that is empty or made of white space only,
    and for every product_ids string that is empty or made of white
    space only. *)
Theorem blank_query_rejected net st :
  forallb isWhiteSpace (VectorSearch.question (VectorSearch.formData st)) = true
  \/ forallb isWhiteSpace (VectorSearch.product_ids (VectorSearch.formData st)) = true ->
  fetched (run (VectorSearch.handleSubmit net) st) = []
  /\ VectorSearch.messageBox
       (VectorSearch.message (component (run (VectorSearch.handleSubmit net) st)))
     = Some VectorSearch.Error
  /\ VectorSearch.searchResults (component (run (VectorSearch.handleSubmit net) st)) = None.
Proof.
  intros H. rewrite VectorSearch_run. cbv zeta. rewrite !truthy_trim.
  destruct (forallb isWhiteSpace (VectorSearch.question _)); simpl.
  - repeat split; reflexivity.
  - destruct H as [H|H]; [discriminate|]. rewrite H. simpl.
    repeat split; reflexivity.
Qed.

(** The question 'what is a join?' with three spaces as product_ids. *)
Lemma blank_query_rejected_witness :
  fetched (run (VectorSearch.handleSubmit (fun _ => Rejected []))
             (sample_vector_form "what is a join?" "   ")) = [].
Proof.
  apply (blank_query_rejected (fun _ => Rejected [])
           (sample_vector_form "what is a join?" "   ")).
  right. reflexivity.
Defined.

(** The converse: when neither is blank the request is sent, with the
    product_ids string as typed. *)
Lemma nonblank_query_sent net st :
  forallb isWhiteSpace (VectorSearch.question (VectorSearch.formData st)) = false ->
  forallb isWhiteSpace (VectorSearch.product_ids (VectorSearch.formData st)) = false ->
  fetched (run (VectorSearch.handleSubmit net) st)
  = [ VectorSearch.request
        [ (lit "question", VectorSearch.question (VectorSearch.formData st));
          (lit "product_ids", VectorSearch.product_ids (VectorSearch.formData st));
          (lit "n", ToString (VectorSearch.n (VectorSearch.formData st))) ] ].
Proof.
  intros Hq Hp. rewrite VectorSearch_run. cbv zeta. rewrite !truthy_trim, Hq, Hp.
  reflexivity.
Qed.

(** The digital product search rejects a blank query in the same way. *)
Lemma blank_search_rejected net st :
  forallb isWhiteSpace (SearchDigitalProduct.searchQuery st) = true ->
  fetched (run (SearchDigitalProduct.handleSearch net) st) = [].
Proof.
  intros H. rewrite SearchDigitalProduct_run. cbv zeta. rewrite truthy_trim, H.
  reflexivity.
Qed.

(** The bound on the result limit does not hold of the page: with the
    result count input emptied, the state holds NaN and the search for
    'python' is sent with n=NaN, which is no integer of the range. *)
Lemma result_limit_not_in_range : ~ Spec.result_limit_in_range.
Proof.
  intros H.
  specialize (H (fun _ => Rejected [])
                (SearchDigitalProduct.onChange_searchQuery (lit "python")
                   SearchDigitalProduct.initial)
                (lit "")
                (SearchDigitalProduct.request [(lit "query", lit "python"); (lit "n", lit "NaN")])).
  destruct H as (k & _ & Hk).
  - rewrite SearchDigitalProduct_run. apply list_elem_of_In. left. reflexivity.
  - cbn [SearchDigitalProduct.request searchParams] in Hk.
    apply list_elem_of_In in Hk. destruct Hk as [Hk|[Hk|[]]].
    + vm_compute in Hk. discriminate.
    + injection Hk as Hk. pose proof (decimal_text k) as Hd.
      rewrite <- Hk in Hd. change (lit "NaN") with (78 :: lit "aN") in Hd.
      apply Forall_inv in Hd. lia.
Qed.

(** C6: the code fails the claim on the one input the form lets
    through.  The [numResults] input declares the range 1..50 but is not
    required (the [n] input of the vector search is): once it is
    emptied, [parseInt] of the empty text makes the state NaN, and every
    search with a query that is not blank is sent with n=NaN, which is
    the text of no integer of the range. *)
Theorem emptied_count_sent_as_NaN net st :
  forallb isWhiteSpace (SearchDigitalProduct.searchQuery st) = false ->
  SearchDigitalProduct.numResults
    (SearchDigitalProduct.onChange_numResults (lit "") st) = NaN
  /\ fetched (run (SearchDigitalProduct.handleSearch net)
                (SearchDigitalProduct.onChange_numResults (lit "") st))
     = [ SearchDigitalProduct.request
           [ (lit "query", SearchDigitalProduct.searchQuery st); (lit "n", lit "NaN") ] ]
  /\ (forall k : Z,
        (SearchDigitalProduct.numResults_min <= k <= SearchDigitalProduct.numResults_max)%Z ->
        decimal k <> lit "NaN")
  /\ SearchDigitalProduct.numResults_required = false
  /\ VectorSearch.n_required = true.
Proof.
  intros Hq. split; [reflexivity|]. split; [|split; [|split; reflexivity]].
  - rewrite SearchDigitalProduct_run. cbv zeta.
    cbn [SearchDigitalProduct.onChange_numResults SearchDigitalProduct.setNumResults
         SearchDigitalProduct.searchQuery SearchDigitalProduct.numResults].
    rewrite truthy_trim, Hq. reflexivity.
  - intros k _ Hk. pose proof (decimal_text k) as Hd.
    rewrite Hk in Hd. change (lit "NaN") with (78 :: lit "aN") in Hd.
    apply Forall_inv in Hd. lia.
Qed.

(** The search for 'python' after the count was emptied. *)
Lemma emptied_count_sent_as_NaN_witness :
  fetched (run (SearchDigitalProduct.handleSearch (fun _ => Rejected []))
             (SearchDigitalProduct.onChange_numResults (lit "")
                (SearchDigitalProduct.onChange_searchQuery (lit "python")
                   SearchDigitalProduct.initial)))
  = [ SearchDigitalProduct.request [(lit "query", lit "python"); (lit "n", lit "NaN")] ].
Proof.
  apply (emptied_count_sent_as_NaN (fun _ => Rejected [])
           (SearchDigitalProduct.onChange_searchQuery (lit "python")
              SearchDigitalProduct.initial)).
  reflexivity.
Defined.

(** C7: after a successful search the results are listed in the order
    of the answer, each with the rank of its position counted from 1;
    nothing is sorted or scored again, so results of equal score stay in
    the order of the answer.  This holds for the digital product search
    (which lists nothing for an empty answer) and for the vector
    search. *)
Theorem rank_is_return_order :
  (forall net st data results,
     forallb isWhiteSpace (SearchDigitalProduct.searchQuery st) = false ->
     net (SearchDigitalProduct.request
            [ (lit "query", SearchDigitalProduct.searchQuery st);
              (lit "n", Number_toString (SearchDigitalProduct.numResults st)) ])
     = Json data ->
     SearchDigitalProduct.Response.success data = true ->
     SearchDigitalProduct.Response.results data = Some results ->
     results <> [] ->
     exists cards,
       SearchDigitalProduct.renderResults
         (SearchDigitalProduct.searchResults
            (component (run (SearchDigitalProduct.handleSearch net) st))) = Some cards
       /\ map SearchDigitalProduct.shown cards = results
       /\ forall (i : nat) card, cards !! i = Some card ->
            SearchDigitalProduct.rank card = (i + 1)%nat
            /\ results !! i = Some (SearchDigitalProduct.shown card))
  /\ (forall net st data results,
        forallb isWhiteSpace (VectorSearch.question (VectorSearch.formData st)) = false ->
        forallb isWhiteSpace (VectorSearch.product_ids (VectorSearch.formData st)) = false ->
        net (VectorSearch.request
               [ (lit "question", VectorSearch.question (VectorSearch.formData st));
                 (lit "product_ids", VectorSearch.product_ids (VectorSearch.formData st));
                 (lit "n", ToString (VectorSearch.n (VectorSearch.formData st))) ])
        = Json data ->
        VectorSearch.Response.success data = true ->
        VectorSearch.Response.results data = Some results ->
        exists cards,
          VectorSearch.renderResults
            (VectorSearch.searchResults
               (component (run (VectorSearch.handleSubmit net) st))) = Some cards
          /\ map VectorSearch.shown cards = results
          /\ forall (i : nat) card, cards !! i = Some card ->
               VectorSearch.rank card = (i + 1)%nat
               /\ results !! i = Some (VectorSearch.shown card)).
Proof.
  split.
  - intros net st data results Hq Hnet Hok Hres Hne.
    rewrite SearchDigitalProduct_run. cbv zeta.
    rewrite truthy_trim, Hq. cbn [negb component]. rewrite Hnet, Hok.
    cbn [SearchDigitalProduct.searchResults SearchDigitalProduct.renderResults].
    rewrite Hres.
    exists (imap (fun index result =>
                    {| SearchDigitalProduct.rank := index + 1;
                       SearchDigitalProduct.shown := result |}) results).
    split; [destruct results; [contradiction|reflexivity]|].
    split.
    + change (SearchDigitalProduct.shown
                <$> imap (fun index result =>
                            {| SearchDigitalProduct.rank := index + 1;
                               SearchDigitalProduct.shown := result |}) results
              = results).
      rewrite fmap_imap. rewrite (imap_ext _ (const id)); [|reflexivity].
      rewrite imap_const. apply list_fmap_id.
    + intros i card Hcard. apply list_lookup_imap_Some in Hcard.
      destruct Hcard as (result & Hresult & ->). split; [reflexivity|exact Hresult].
  - intros net st data results Hq Hp Hnet Hok Hres.
    rewrite VectorSearch_run. cbv zeta.
    rewrite !truthy_trim, Hq, Hp. cbn [negb component]. rewrite Hnet, Hok.
    cbn [VectorSearch.searchResults VectorSearch.renderResults].
    rewrite Hres. eexists. split; [reflexivity|]. split.
    + change (VectorSearch.shown
                <$> imap (fun index result =>
                            {| VectorSearch.rank := index + 1;
                               VectorSearch.shown := result |}) results
              = results).
      rewrite fmap_imap. rewrite (imap_ext _ (const id)); [|reflexivity].
      rewrite imap_const. apply list_fmap_id.
    + intros i card Hcard. apply list_lookup_imap_Some in Hcard.
      destruct Hcard as (result & Hresult & ->). split; [reflexivity|exact Hresult].
Qed.

(** Two results of equal score keep the order of the answer. *)
Lemma rank_is_return_order_witness :
  exists cards,
    SearchDigitalProduct.renderResults
      (SearchDigitalProduct.searchResults
         (component
            (run (SearchDigitalProduct.handleSearch
                    (fun _ => Json (sample_search_answer
                                      [sample_product "B" "0.9"; sample_product "A" "0.9"])))
               sample_search))) = Some cards
    /\ map SearchDigitalProduct.shown cards
       = [sample_product "B" "0.9"; sample_product "A" "0.9"]
    /\ forall (i : nat) card, cards !! i = Some card ->
         SearchDigitalProduct.rank card = (i + 1)%nat
         /\ [sample_product "B" "0.9"; sample_product "A" "0.9"] !! i
            = Some (SearchDigitalProduct.shown card).
Proof.
  apply (proj1 rank_is_return_order
           (fun _ => Json (sample_search_answer
                             [sample_product "B" "0.9"; sample_product "A" "0.9"]))
           sample_search
           (sample_search_answer [sample_product "B" "0.9"; sample_product "A" "0.9"])
           [sample_product "B" "0.9"; sample_product "A" "0.9"]);
    [reflexivity | reflexivity | reflexivity | reflexivity | discriminate].
Defined.

(** The message of a successful search does not include 'Error' when the
    total of the answer is a number. *)
Lemma found_message_tone (n : number) :
  SearchDigitalProduct.messageBox
    (lit "Found " ++ ToString (Number n) ++ lit " digital products matching your search")
  = Some SearchDigitalProduct.Informational.
Proof.
  unfold SearchDigitalProduct.messageBox.
  change (lit "Error") with (69 :: lit "rror").
  rewrite app_assoc, includes_skip.
  - reflexivity.
  - apply Forall_app. split.
    + unfold lit; simpl. repeat constructor; discriminate.
    + eapply Forall_impl; [apply Number_toString_text|]. simpl. tauto.
Qed.

(** C8: a successful answer without results is no error.  The message
    is the informational 'Found ...' line, the stored answer has an
    empty result sequence and no card is listed; a failed answer to the
    same search gives another message, the 'Error: ...' line in the
    error tone, and stores no answer. *)
Theorem empty_results_not_an_error st data data' (n : number) :
  forallb isWhiteSpace (SearchDigitalProduct.searchQuery st) = false ->
  SearchDigitalProduct.Response.success data = true ->
  SearchDigitalProduct.Response.results data = Some [] ->
  SearchDigitalProduct.Response.total_results data = Number n ->
  SearchDigitalProduct.Response.success data' = false ->
  let found := component (run (SearchDigitalProduct.handleSearch (fun _ => Json data)) st) in
  let failed := component (run (SearchDigitalProduct.handleSearch (fun _ => Json data')) st) in
  SearchDigitalProduct.messageBox (SearchDigitalProduct.message found)
  = Some SearchDigitalProduct.Informational
  /\ SearchDigitalProduct.searchResults found = Some data
  /\ SearchDigitalProduct.renderResults (SearchDigitalProduct.searchResults found) = None
  /\ SearchDigitalProduct.messageBox (SearchDigitalProduct.message failed)
     = Some SearchDigitalProduct.Error
  /\ SearchDigitalProduct.searchResults failed = None
  /\ SearchDigitalProduct.message found <> SearchDigitalProduct.message failed.
Proof.
  intros Hq Hok Hres Htotal Hko found failed. subst found failed.
  rewrite !SearchDigitalProduct_run. cbv zeta.
  rewrite truthy_trim, Hq. cbn [negb component]. rewrite Hok, Hko.
  cbn [SearchDigitalProduct.message SearchDigitalProduct.searchResults].
  rewrite Htotal.
  split; [apply found_message_tone|].
  split; [reflexivity|].
  split; [unfold SearchDigitalProduct.renderResults; rewrite Hres; reflexivity|].
  split; [unfold SearchDigitalProduct.messageBox; rewrite includes_Error; reflexivity|].
  split; [reflexivity|].
  intros Heq. unfold lit in Heq. simpl in Heq. discriminate Heq.
Qed.

(** The vector search words the same outcome with 'Found ... results
    for your search', which includes neither 'Error' nor 'error'. *)
Lemma vector_found_message_tone (n : number) :
  VectorSearch.messageBox
    (lit "Found " ++ ToString (Number n) ++ lit " results for your search")
  = Some VectorSearch.Informational.
Proof.
  assert (Hpre : forall c, c = 69 \/ c = 101 ->
            Forall (fun x => x <> c) (lit "Found " ++ ToString (Number n))).
  { intros c Hc. apply Forall_app. split.
    - unfold lit; simpl. repeat constructor; destruct Hc as [-> | ->]; discriminate.
    - eapply Forall_impl; [apply Number_toString_text|]. simpl.
      intros x [H1 H2]. destruct Hc as [-> | ->]; assumption. }
  unfold VectorSearch.messageBox.
  change (lit "Error") with (69 :: lit "rror").
  change (lit "error") with (101 :: lit "rror").
  rewrite app_assoc, !includes_skip by (apply Hpre; tauto).
  reflexivity.
Qed.

(** An answer with no result against an answer that reports a failure. *)
Lemma empty_results_not_an_error_witness :
  let found :=
    component (run (SearchDigitalProduct.handleSearch
                      (fun _ => Json (sample_search_answer []))) sample_search) in
  let failed :=
    component (run (SearchDigitalProduct.handleSearch
                      (fun _ => Json (sample_search_failure "index unavailable")))
                 sample_search) in
  SearchDigitalProduct.messageBox (SearchDigitalProduct.message found)
  = Some SearchDigitalProduct.Informational
  /\ SearchDigitalProduct.searchResults found = Some (sample_search_answer [])
  /\ SearchDigitalProduct.renderResults (SearchDigitalProduct.searchResults found) = None
  /\ SearchDigitalProduct.messageBox (SearchDigitalProduct.message failed)
     = Some SearchDigitalProduct.Error
  /\ SearchDigitalProduct.searchResults failed = None
  /\ SearchDigitalProduct.message found <> SearchDigitalProduct.message failed.
Proof.
  apply (empty_results_not_an_error sample_search (sample_search_answer [])
           (sample_search_failure "index unavailable") (Int 0)); reflexivity.
Defined.

Example empty_results_message :
  SearchDigitalProduct.message
    (component (run (SearchDigitalProduct.handleSearch
                       (fun _ => Json (sample_search_answer []))) sample_search))
  = lit "Found 0 digital products matching your search".
Proof. reflexivity. Qed.

(** ** Encoding and decoding the body *)

(** ** The body on the wire *)

Lemma startsWith_long (d y z : list N) :
  (length d <= length y)%nat -> startsWith d (y ++ z) = startsWith d y.
Proof.
  revert y. induction d as [|a d IH]; intros y Hlen; [destruct y; reflexivity|].
  destruct y as [|b y]; [simpl in Hlen; lia|].
  simpl. rewrite IH; [reflexivity|]. simpl in Hlen. lia.
Qed.

(** An occurrence that starts within [x] ends within [x ++ d]. *)
Lemma startsWithin_app (d x rest : list N) :
  Multipart.startsWithin d x (d ++ rest) = Multipart.startsWithin d x d.
Proof.
  induction x as [|b x IH]; [reflexivity|].
  cbn [Multipart.startsWithin]. rewrite IH. f_equal.
  rewrite (app_assoc (b :: x) d rest).
  apply startsWith_long. rewrite length_app. simpl. lia.
Qed.

Lemma pieces_skip (d y rest : list N) :
  Spec.pieces d (length y) (y ++ rest) = Spec.pieces d 0 rest.
Proof.
  induction y as [|b y IH]; [reflexivity|]. exact IH.
Qed.

Lemma pieces_cons (d : list N) (b : N) (r : list N) :
  Spec.pieces d 0 (b :: r)
  = if startsWith d (b :: r) then [] :: Spec.pieces d (length d - 1) r
    else match Spec.pieces d 0 r with
         | p :: ps => (b :: p) :: ps
         | [] => [[b]]
         end.
Proof. reflexivity. Qed.

(** A piece in which the delimiter does not start is cut off whole. *)
Lemma pieces_fresh (d x rest : list N) :
  d <> [] ->
  Multipart.startsWithin d x d = false ->
  Spec.pieces d 0 (x ++ d ++ rest) = x :: Spec.pieces d 0 rest.
Proof.
  intros Hd. induction x as [|b x IH]; intros Hfresh.
  - destruct d as [|c d]; [contradiction|].
    pose proof (startsWith_app (c :: d) rest) as Hs.
    change ([] ++ (c :: d) ++ rest) with (c :: d ++ rest) in *.
    change ((c :: d) ++ rest) with (c :: d ++ rest) in Hs.
    rewrite pieces_cons, Hs. f_equal.
    replace (length (c :: d) - 1)%nat with (length d) by (simpl; lia).
    apply pieces_skip.
  - cbn [Multipart.startsWithin] in Hfresh. apply orb_false_iff in Hfresh.
    destruct Hfresh as [Hhere Hlater].
    assert (Hs : startsWith d (b :: x ++ d ++ rest) = false).
    { change (b :: x ++ d ++ rest) with ((b :: x) ++ d ++ rest).
      rewrite (app_assoc (b :: x) d rest), startsWith_long; [exact Hhere|].
      rewrite length_app. simpl. lia. }
    change ((b :: x) ++ d ++ rest) with (b :: x ++ d ++ rest).
    rewrite pieces_cons, Hs, IH by exact Hlater. reflexivity.
Qed.

Lemma pieces_all (d : list N) (xs : list (list N)) (x last : list N) :
  d <> [] ->
  Multipart.startsWithin d x d = false ->
  Forall (fun y => Multipart.startsWithin d y d = false) xs ->
  Spec.pieces d 0 last = [last] ->
  Spec.pieces d 0 (x ++ flat_map (fun y => d ++ y) xs ++ d ++ last)
  = x :: xs ++ [last].
Proof.
  intros Hd Hx Hxs Hlast. revert x Hx.
  induction Hxs as [|y xs Hy _ IH]; intros x Hx.
  - simpl. rewrite pieces_fresh, Hlast by assumption. reflexivity.
  - simpl. rewrite <- !app_assoc. rewrite pieces_fresh by assumption.
    rewrite IH by assumption. reflexivity.
Qed.

Lemma flat_map_map {A B C} (f : B -> list C) (g : A -> B) (l : list A) :
  flat_map (fun x => f (g x)) l = flat_map f (map g l).
Proof.
  induction l as [|x l IH]; [reflexivity|]. simpl. rewrite IH. reflexivity.
Qed.

Lemma frame_shape {A} (dash boundary crlf tail : list A) (bodies : list (list A)) :
  crlf ++ flat_map (fun p => dash ++ boundary ++ crlf ++ p ++ crlf) bodies
  ++ dash ++ boundary ++ tail
  = flat_map (fun y => (crlf ++ dash ++ boundary) ++ y) (map (fun p => crlf ++ p) bodies)
    ++ (crlf ++ dash ++ boundary) ++ tail.
Proof.
  induction bodies as [|p bodies IH].
  - simpl. rewrite <- !app_assoc. reflexivity.
  - cbn [flat_map map].
    repeat rewrite <- app_assoc. repeat rewrite <- app_assoc in IH.
    do 5 (apply (f_equal (app _))). exact IH.
Qed.

(** The body, after a first CR LF, is made of the parts with a
    delimiter before each, and of the closing delimiter. *)
Lemma encode_delimited (boundary : list N) (entries : FormData) :
  Multipart.CRLF ++ Multipart.encode boundary entries
  = [] ++ flat_map (fun y => Multipart.delimiter boundary ++ y)
            (map (fun p => Multipart.CRLF ++ p) (map Multipart.part entries))
    ++ Multipart.delimiter boundary ++ lit "--" ++ Multipart.CRLF.
Proof.
  unfold Multipart.encode, Multipart.delimiter.
  rewrite (flat_map_map
             (fun p => lit "--" ++ boundary ++ Multipart.CRLF ++ p ++ Multipart.CRLF)
             Multipart.part entries).
  apply (frame_shape (lit "--") boundary Multipart.CRLF (lit "--" ++ Multipart.CRLF)).
Qed.

(** Cutting the body at the delimiters gives the parts back, when the
    boundary fits. *)
Lemma pieces_encode (boundary : list N) (entries : FormData) :
  Multipart.boundaryFits boundary entries = true ->
  Spec.pieces (Multipart.delimiter boundary) 0
    (Multipart.CRLF ++ Multipart.encode boundary entries)
  = [] :: map (fun p => Multipart.CRLF ++ p) (map Multipart.part entries)
    ++ [lit "--" ++ Multipart.CRLF].
Proof.
  intros Hfits. rewrite encode_delimited. apply pieces_all.
  - discriminate.
  - reflexivity.
  - rewrite map_map. unfold Multipart.boundaryFits in Hfits.
    rewrite forallb_forall in Hfits. apply Forall_forall. intros y Hy.
    apply list_elem_of_In, in_map_iff in Hy. destruct Hy as (entry & <- & Hin).
    specialize (Hfits entry Hin). apply negb_true_iff in Hfits. exact Hfits.
  - reflexivity.
Qed.

Lemma stripPrefix_app (p s : list N) : Spec.stripPrefix p (p ++ s) = Some s.
Proof.
  induction p as [|a p IH]; [reflexivity|]. simpl. rewrite N.eqb_refl. exact IH.
Qed.

(** The first occurrence of a delimiter after bytes that do not hold
    its first byte. *)
Lemma cut_head (c : N) (d x rest : list N) :
  Forall (fun b => b <> c) x ->
  Spec.cut (c :: d) (x ++ (c :: d) ++ rest) = Some (x, rest).
Proof.
  induction 1 as [|b x Hb _ IH].
  - pose proof (startsWith_app (c :: d) rest) as Hs.
    cbn [app] in Hs |- *. unfold Spec.cut; fold Spec.cut. rewrite Hs.
    do 2 f_equal. exact (drop_app_length (c :: d) rest).
  - cbn [app]. unfold Spec.cut; fold Spec.cut.
    cbn [startsWith]. destruct (N.eqb_spec c b) as [->|_]; [contradiction|].
    cbn [andb]. cbn [app] in IH. rewrite IH. reflexivity.
Qed.

Lemma escape_clean (bytes : list N) :
  Forall (fun b => b <> 34) (Multipart.escape bytes).
Proof.
  unfold Multipart.escape. induction bytes as [|b bytes IH]; [constructor|].
  cbn [flat_map]. apply Forall_app. split; [|exact IH].
  destruct (N.eqb_spec b 10); [unfold lit; simpl; repeat constructor; discriminate|].
  destruct (N.eqb_spec b 13); [unfold lit; simpl; repeat constructor; discriminate|].
  destruct (N.eqb_spec b 34); [unfold lit; simpl; repeat constructor; discriminate|].
  repeat constructor. assumption.
Qed.

(** The headers of a part are read back, for a file whose type holds no
    CR. *)
Lemma parsePart_part (entry : jsstring * FormDataEntryValue) :
  match entry.2 with
  | Text _ => True
  | Blob f => Forall (fun b => b <> 13) (Multipart.contentType f)
  end ->
  Spec.parsePart (Multipart.CRLF ++ Multipart.part entry)
  = Some match entry.2 with
         | Text value =>
             Spec.TextPart (Multipart.fieldName entry.1) (Multipart.textBytes value)
         | Blob f =>
             Spec.FilePart (Multipart.fieldName entry.1) (Multipart.fileName f)
               (Multipart.contentType f) (Multipart.fileBytes f)
         end.
Proof.
  intros Htype. unfold Spec.parsePart, Multipart.part.
  set (disposition := lit "Content-Disposition: form-data; name=").
  set (name := Multipart.fieldName entry.1).
  assert (Hname : Forall (fun b => b <> 34) name) by apply escape_clean.
  replace (Multipart.CRLF ++ disposition ++ [34] ++ name ++ [34] ++
           match entry.2 with
           | Text value => Multipart.CRLF ++ Multipart.CRLF ++ Multipart.textBytes value
           | Blob f =>
               lit "; filename=" ++ [34] ++ Multipart.fileName f ++ [34] ++ Multipart.CRLF
               ++ lit "Content-Type: " ++ Multipart.contentType f
               ++ Multipart.CRLF ++ Multipart.CRLF ++ Multipart.fileBytes f
           end)
    with ((Multipart.CRLF ++ disposition ++ [34]) ++ name ++ [34] ++
          match entry.2 with
          | Text value => Multipart.CRLF ++ Multipart.CRLF ++ Multipart.textBytes value
          | Blob f =>
              lit "; filename=" ++ [34] ++ Multipart.fileName f ++ [34] ++ Multipart.CRLF
              ++ lit "Content-Type: " ++ Multipart.contentType f
              ++ Multipart.CRLF ++ Multipart.CRLF ++ Multipart.fileBytes f
          end)
    by (repeat rewrite <- app_assoc; reflexivity).
  rewrite stripPrefix_app. cbn [mbind option_bind].
  rewrite (cut_head 34 [] name _ Hname). cbn [mbind option_bind].
  destruct entry.2 as [value|f].
  - replace (Multipart.CRLF ++ Multipart.CRLF ++ Multipart.textBytes value)
      with ((Multipart.CRLF ++ Multipart.CRLF) ++ Multipart.textBytes value)
      by (rewrite <- app_assoc; reflexivity).
    rewrite stripPrefix_app. reflexivity.
  - assert (Hfn : Forall (fun b => b <> 34) (Multipart.fileName f)) by apply escape_clean.
    replace (lit "; filename=" ++ [34] ++ Multipart.fileName f ++ [34] ++ Multipart.CRLF
             ++ lit "Content-Type: " ++ Multipart.contentType f
             ++ Multipart.CRLF ++ Multipart.CRLF ++ Multipart.fileBytes f)
      with ((lit "; filename=" ++ [34]) ++ Multipart.fileName f ++ [34]
            ++ (Multipart.CRLF ++ lit "Content-Type: ") ++ Multipart.contentType f
            ++ (Multipart.CRLF ++ Multipart.CRLF) ++ Multipart.fileBytes f)
      by (repeat rewrite <- app_assoc; reflexivity).
    assert (Hnot : Spec.stripPrefix (Multipart.CRLF ++ Multipart.CRLF)
                     ((lit "; filename=" ++ [34]) ++ Multipart.fileName f ++ [34]
                      ++ (Multipart.CRLF ++ lit "Content-Type: ") ++ Multipart.contentType f
                      ++ (Multipart.CRLF ++ Multipart.CRLF) ++ Multipart.fileBytes f) = None)
      by reflexivity.
    rewrite Hnot, stripPrefix_app. cbn [mbind option_bind].
    rewrite (cut_head 34 [] (Multipart.fileName f) _ Hfn). cbn [mbind option_bind].
    rewrite stripPrefix_app. cbn [mbind option_bind].
    change (Multipart.CRLF ++ Multipart.CRLF) with (13 :: [10; 13; 10]).
    rewrite (cut_head 13 [10; 13; 10] (Multipart.contentType f) _ Htype).
    reflexivity.
Qed.

(** Decoding the body gives the parts of the entries, when the boundary
    fits and the types of the files hold no CR. *)
Lemma decode_encode (boundary : list N) (entries : FormData) :
  Multipart.boundaryFits boundary entries = true ->
  Forall (fun entry : jsstring * FormDataEntryValue =>
            match entry.2 with
            | Text _ => True
            | Blob f => Forall (fun b => b <> 13) (Multipart.contentType f)
            end) entries ->
  Spec.decode boundary (Multipart.encode boundary entries)
  = map (fun entry : jsstring * FormDataEntryValue =>
           match entry.2 with
           | Text value =>
               Spec.TextPart (Multipart.fieldName entry.1) (Multipart.textBytes value)
           | Blob f =>
               Spec.FilePart (Multipart.fieldName entry.1) (Multipart.fileName f)
                 (Multipart.contentType f) (Multipart.fileBytes f)
           end) entries.
Proof.
  intros Hfits Htypes. unfold Spec.decode. rewrite pieces_encode by exact Hfits.
  cbn [tail]. rewrite omap_app.
  replace (omap Spec.parsePart [lit "--" ++ Multipart.CRLF]) with (@nil Spec.Part)
    by reflexivity.
  rewrite app_nil_r. rewrite map_map.
  induction Htypes as [|entry entries Htype _ IH]; [reflexivity|].
  cbn [map]. change (omap Spec.parsePart (?x :: ?l))
    with (match Spec.parsePart x with
          | Some y => y :: omap Spec.parsePart l
          | None => omap Spec.parsePart l
          end).
  rewrite parsePart_part by exact Htype.
  rewrite IH; [reflexivity|].
  unfold Multipart.boundaryFits in Hfits |- *. cbn [forallb] in Hfits.
  apply andb_true_iff in Hfits. apply Hfits.
Qed.

(** A text without line breaks is sent as it was entered. *)
Lemma normalizeNewlines_id (s : list N) :
  Forall (fun c => c <> 10 /\ c <> 13) s -> Multipart.normalizeNewlines s = s.
Proof.
  induction 1 as [|c s [H10 H13] _ IH]; [reflexivity|].
  cbn [Multipart.normalizeNewlines].
  destruct (N.eqb_spec c 13); [contradiction|].
  destruct (N.eqb_spec c 10); [contradiction|].
  rewrite IH. reflexivity.
Qed.

Lemma scalarValues_no_break (s : jsstring) :
  Forall (fun c => c <> 10 /\ c <> 13) s ->
  Forall (fun c => c <> 10 /\ c <> 13) (Multipart.scalarValues s).
Proof.
  assert (H : forall (n : nat) (s : jsstring),
             (length s <= n)%nat ->
             Forall (fun c => c <> 10 /\ c <> 13) s ->
             Forall (fun c => c <> 10 /\ c <> 13) (Multipart.scalarValues s)).
  { induction n as [|n IH]; intros [|c t] Hlen Hs.
    - constructor.
    - simpl in Hlen. lia.
    - constructor.
    - inversion Hs as [|? ? Hc Ht]; subst. simpl in Hlen.
      cbn [Multipart.scalarValues].
      destruct (Multipart.isLeadSurrogate c).
      + destruct t as [|d t']; [repeat constructor; discriminate|].
        inversion Ht as [|? ? Hd Ht']; subst. simpl in Hlen.
        destruct (Multipart.isTrailSurrogate d).
        * constructor; [split; lia|]. apply IH; [lia|exact Ht'].
        * constructor; [split; discriminate|]. apply IH; [simpl; lia|exact Ht].
      + destruct (Multipart.isTrailSurrogate c).
        * constructor; [split; discriminate|]. apply IH; [lia|exact Ht].
        * constructor; [exact Hc|]. apply IH; [lia|exact Ht]. }
  intros Hs. apply (H (length s)); [lia|exact Hs].
Qed.

Lemma textBytes_entered (value : jsstring) :
  Forall (fun c => c <> 10 /\ c <> 13) value ->
  Multipart.textBytes value = Spec.enteredBytes value.
Proof.
  intros H. unfold Multipart.textBytes, Spec.enteredBytes.
  rewrite normalizeNewlines_id; [reflexivity|]. apply scalarValues_no_break, H.
Qed.

Lemma printableType_no_CR (f : File) :
  Multipart.printableType f = true ->
  Forall (fun b => b <> 13) (Multipart.contentType f).
Proof.
  intros Hf. unfold Multipart.contentType.
  destruct (file_type f) as [|c type] eqn:Htype.
  - unfold lit. simpl. repeat (constructor; [discriminate|]). constructor.
  - unfold Multipart.printableType in Hf. rewrite Htype in Hf.
    apply Forall_forall. intros b Hb. apply list_elem_of_In in Hb.
    rewrite forallb_forall in Hf. specialize (Hf b Hb).
    apply andb_true_iff in Hf. destruct Hf as [Hlow _].
    apply N.leb_le in Hlow. lia.
Qed.

Lemma fileBytes_length (f : File) : length (Multipart.fileBytes f) = size f.
Proof. unfold Multipart.fileBytes, size. apply length_map. Qed.

(** The parts of the videos are read as files called 'videos' and hold
    no text. *)
Lemma videos_decoded (files : list File) :
  omap (Spec.selectFile (lit "videos"))
    (map (fun entry : jsstring * FormDataEntryValue =>
            match entry.2 with
            | Text value =>
                Spec.TextPart (Multipart.fieldName entry.1) (Multipart.textBytes value)
            | Blob f =>
                Spec.FilePart (Multipart.fieldName entry.1) (Multipart.fileName f)
                  (Multipart.contentType f) (Multipart.fileBytes f)
            end)
       (map (fun v => (lit "videos", v)) (map Blob files)))
  = map Multipart.fileBytes files.
Proof.
  induction files as [|file files IH]; [reflexivity|].
  cbn [map]. rewrite <- IH. reflexivity.
Qed.

(** What decoding the body of a course gives. *)
Lemma course_decoded (boundary : list N) localStorage formData :
  Multipart.boundaryFits boundary (AddAIProduct.submitData localStorage formData) = true ->
  forallb Multipart.printableType (AddAIProduct.videos formData) = true ->
  let wire := Multipart.encode boundary (AddAIProduct.submitData localStorage formData) in
  Spec.decode_text boundary (lit "product_name") wire
  = Some (Multipart.textBytes (AddAIProduct.product_name formData))
  /\ Spec.decode_text boundary (lit "product_category") wire
     = Some (Multipart.textBytes (AddAIProduct.product_category formData))
  /\ Spec.decode_text boundary (lit "suggestion_questions") wire
     = Some (Multipart.textBytes (AddAIProduct.suggestion_questions formData))
  /\ Spec.decode_text boundary (lit "price") wire
     = Some (Multipart.textBytes (AddAIProduct.price formData))
  /\ Spec.decode_files boundary (lit "videos") wire
     = map Multipart.fileBytes (AddAIProduct.videos formData).
Proof.
  intros Hfits Htypes wire. subst wire.
  unfold Spec.decode_text, Spec.decode_files.
  rewrite decode_encode; [|exact Hfits|].
  - rewrite submitData_shape, map_app, !omap_app, videos_decoded.
    repeat split; reflexivity.
  - rewrite submitData_shape. apply Forall_app. split.
    + repeat (constructor; [exact I|]). constructor.
    + rewrite forallb_forall in Htypes.
      apply Forall_forall. intros entry Hentry. apply list_elem_of_In in Hentry.
      rewrite map_map in Hentry. apply in_map_iff in Hentry.
      destruct Hentry as (file & <- & Hfile). cbn [snd].
      apply printableType_no_CR, Htypes, Hfile.
Qed.

(** What decoding the body of a digital product gives. *)
Lemma upload_decoded (boundary : list N) localStorage formData (file : File) :
  Multipart.boundaryFits boundary
    (UploadDigitalProduct.submitData localStorage formData file) = true ->
  Multipart.printableType file = true ->
  let wire :=
    Multipart.encode boundary
      (UploadDigitalProduct.submitData localStorage formData file) in
  Spec.decode_text boundary (lit "product_name") wire
  = Some (Multipart.textBytes (UploadDigitalProduct.product_name formData))
  /\ Spec.decode_text boundary (lit "product_category") wire
     = Some (Multipart.textBytes (UploadDigitalProduct.product_category formData))
  /\ Spec.decode_text boundary (lit "product_description") wire
     = Some (Multipart.textBytes (UploadDigitalProduct.product_description formData))
  /\ Spec.decode_text boundary (lit "price") wire
     = Some (Multipart.textBytes (UploadDigitalProduct.price formData))
  /\ Spec.decode_files boundary (lit "product_file") wire = [Multipart.fileBytes file].
Proof.
  intros Hfits Htype wire. subst wire.
  unfold Spec.decode_text, Spec.decode_files.
  rewrite decode_encode; [|exact Hfits|].
  - repeat split; reflexivity.
  - unfold UploadDigitalProduct.submitData, append. cbn [app].
    repeat (constructor; [exact I|]).
    constructor; [|constructor]. apply printableType_no_CR, Htype.
Qed.

(** C9, as stated, fails: a description of two lines is sent with its
    line break as CR LF, so the bytes decoded from the body are not the
    bytes of the description that was entered. *)
Lemma line_break_not_recovered :
  ~ Spec.wire_round_trip sample_boundary ∅
      (UploadDigitalProduct.formData sample_two_lines) sample_file.
Proof.
  intros Hround. destruct Hround as (_ & _ & Hdescription & _); [reflexivity|].
  vm_compute in Hdescription. discriminate.
Qed.

(** C9, amended: decoding the body that a submission puts on the wire
    gives each text field as the UTF-8 bytes of its value with every
    line break written as CR LF, and each file with its bytes, hence
    with its byte length: name, category, suggestion questions, price
    and the videos of a course; name, category, description, price and
    the file of a digital product.  For a value without CR and LF these
    are the bytes of the value as it was entered; the two lines
    'line1' and 'line2' arrive with CR LF between them, and an accented
    letter, the euro sign and a character outside the basic plane arrive
    as two, three and four bytes. *)
Theorem wire_round_trip_up_to_line_breaks (boundary boundary' : list N)
    localStorage net net' st st' (file : File) :
  UploadDigitalProduct.product_file (UploadDigitalProduct.formData st') = Some file ->
  Multipart.printableType file = true ->
  forallb Multipart.printableType (AddAIProduct.videos (AddAIProduct.formData st)) = true ->
  Multipart.boundaryFits boundary
    (AddAIProduct.submitData localStorage (AddAIProduct.formData st)) = true ->
  Multipart.boundaryFits boundary'
    (UploadDigitalProduct.submitData localStorage
       (UploadDigitalProduct.formData st') file) = true ->
  (exists request,
     fetched (run (AddAIProduct.handleSubmit localStorage net) st) = [request]
     /\ Spec.decode_text boundary (lit "product_name")
          (Multipart.encode boundary (body request))
        = Some (Multipart.textBytes (AddAIProduct.product_name (AddAIProduct.formData st)))
     /\ Spec.decode_text boundary (lit "product_category")
          (Multipart.encode boundary (body request))
        = Some (Multipart.textBytes
                  (AddAIProduct.product_category (AddAIProduct.formData st)))
     /\ Spec.decode_text boundary (lit "suggestion_questions")
          (Multipart.encode boundary (body request))
        = Some (Multipart.textBytes
                  (AddAIProduct.suggestion_questions (AddAIProduct.formData st)))
     /\ Spec.decode_text boundary (lit "price")
          (Multipart.encode boundary (body request))
        = Some (Multipart.textBytes (AddAIProduct.price (AddAIProduct.formData st)))
     /\ Spec.decode_files boundary (lit "videos")
          (Multipart.encode boundary (body request))
        = map Multipart.fileBytes (AddAIProduct.videos (AddAIProduct.formData st))
     /\ map (@length N)
          (Spec.decode_files boundary (lit "videos")
             (Multipart.encode boundary (body request)))
        = map size (AddAIProduct.videos (AddAIProduct.formData st)))
  /\ (exists request,
        fetched (run (UploadDigitalProduct.handleSubmit localStorage net') st') = [request]
        /\ Spec.decode_text boundary' (lit "product_name")
             (Multipart.encode boundary' (body request))
           = Some (Multipart.textBytes
                     (UploadDigitalProduct.product_name (UploadDigitalProduct.formData st')))
        /\ Spec.decode_text boundary' (lit "product_category")
             (Multipart.encode boundary' (body request))
           = Some (Multipart.textBytes
                     (UploadDigitalProduct.product_category
                        (UploadDigitalProduct.formData st')))
        /\ Spec.decode_text boundary' (lit "product_description")
             (Multipart.encode boundary' (body request))
           = Some (Multipart.textBytes
                     (UploadDigitalProduct.product_description
                        (UploadDigitalProduct.formData st')))
        /\ Spec.decode_text boundary' (lit "price")
             (Multipart.encode boundary' (body request))
           = Some (Multipart.textBytes
                     (UploadDigitalProduct.price (UploadDigitalProduct.formData st')))
        /\ Spec.decode_files boundary' (lit "product_file")
             (Multipart.encode boundary' (body request))
           = [Multipart.fileBytes file]
        /\ map (@length N)
             (Spec.decode_files boundary' (lit "product_file")
                (Multipart.encode boundary' (body request)))
           = [size file])
  /\ (forall value : jsstring,
        Forall (fun c => c <> 10 /\ c <> 13) value ->
        Multipart.textBytes value = Spec.enteredBytes value)
  /\ Multipart.textBytes (lit "line1" ++ [10] ++ lit "line2")
     = Spec.enteredBytes (lit "line1" ++ [13; 10] ++ lit "line2")
  /\ Multipart.textBytes [233; 8364; 55357; 56832; 10]
     = [195; 169; 226; 130; 172; 240; 159; 152; 128; 13; 10].
Proof.
  intros Hfile Htype Htypes Hfits Hfits'. split; [|split; [|split; [|split]]].
  - eexists. rewrite AddAIProduct_run. cbv zeta. cbn [fetched].
    split; [reflexivity|]. cbn [AddAIProduct.request body].
    destruct (course_decoded boundary localStorage (AddAIProduct.formData st) Hfits Htypes)
      as (Hname & Hcategory & Hquestions & Hprice & Hvideos).
    repeat (split; [assumption|]).
    rewrite Hvideos, map_map. apply map_ext. intros video. apply fileBytes_length.
  - eexists. rewrite UploadDigitalProduct_run, Hfile. cbv zeta. cbn [fetched].
    split; [reflexivity|]. cbn [UploadDigitalProduct.request body].
    destruct (upload_decoded boundary' localStorage (UploadDigitalProduct.formData st')
                file Hfits' Htype)
      as (Hname & Hcategory & Hdescription & Hprice & Hproduct).
    repeat (split; [assumption|]).
    rewrite Hproduct. cbn [map]. rewrite fileBytes_length. reflexivity.
  - exact textBytes_entered.
  - reflexivity.
  - reflexivity.
Qed.

Lemma wire_round_trip_up_to_line_breaks_witness :
  exists request,
    fetched (run (UploadDigitalProduct.handleSubmit ∅ (fun _ => Rejected [])) sample_two_lines)
    = [request]
    /\ Spec.decode_text sample_boundary (lit "product_description")
         (Multipart.encode sample_boundary (body request))
       = Some (lit "line1" ++ [13; 10] ++ lit "line2")
    /\ Spec.decode_text sample_boundary (lit "price")
         (Multipart.encode sample_boundary (body request))
       = Some (lit "19.99")
    /\ map (@length N)
         (Spec.decode_files sample_boundary (lit "product_file")
            (Multipart.encode sample_boundary (body request)))
       = [4%nat].
Proof.
  destruct (wire_round_trip_up_to_line_breaks sample_boundary sample_boundary ∅
              (fun _ => Rejected []) (fun _ => Rejected [])
              (sample_course [sample_video "lesson1.mp4"]) sample_two_lines sample_file)
    as (_ & (request & Hsent & _ & _ & Hdescription & Hprice & _ & Hsize) & _);
    [reflexivity..|].
  exists request. repeat split; assumption.
Defined.

(** ** The actor of a submission *)

(** C10: when the storage holds neither an admin identifier nor an
    admin type, both submissions are sent all the same, with the fixed
    actor '550e8400-e29b-41d4-a716-446655440000' of type 'super_admin':
    the run is the one of a storage that holds exactly these two
    values. *)
Theorem fallback_actor (localStorage : Storage) net net' st st' (file : File) :
  getItem localStorage (lit "admin_id") = None ->
  getItem localStorage (lit "admin_type") = None ->
  UploadDigitalProduct.product_file (UploadDigitalProduct.formData st') = Some file ->
  let stored : Storage :=
    <[lit "admin_id" := lit "550e8400-e29b-41d4-a716-446655440000"]>
      (<[lit "admin_type" := lit "super_admin"]> ∅) in
  (exists request,
     fetched (run (AddAIProduct.handleSubmit localStorage net) st) = [request]
     /\ get (lit "admin_id") (body request)
        = Some (Text (lit "550e8400-e29b-41d4-a716-446655440000"))
     /\ get (lit "admin_type") (body request) = Some (Text (lit "super_admin")))
  /\ run (AddAIProduct.handleSubmit localStorage net) st
     = run (AddAIProduct.handleSubmit stored net) st
  /\ (exists request,
        fetched (run (UploadDigitalProduct.handleSubmit localStorage net') st') = [request]
        /\ get (lit "admin_id") (body request)
           = Some (Text (lit "550e8400-e29b-41d4-a716-446655440000"))
        /\ get (lit "admin_type") (body request) = Some (Text (lit "super_admin")))
  /\ run (UploadDigitalProduct.handleSubmit localStorage net') st'
     = run (UploadDigitalProduct.handleSubmit stored net') st'.
Proof.
  intros Hid Htype Hfile stored.
  assert (Hai : forall formData,
             AddAIProduct.submitData localStorage formData
             = AddAIProduct.submitData stored formData).
  { intros formData. unfold AddAIProduct.submitData. rewrite Hid, Htype. reflexivity. }
  assert (Hup : forall formData,
             UploadDigitalProduct.submitData localStorage formData file
             = UploadDigitalProduct.submitData stored formData file).
  { intros formData. unfold UploadDigitalProduct.submitData. rewrite Hid, Htype.
    reflexivity. }
  split; [|split; [|split]].
  - eexists. rewrite AddAIProduct_run. cbv zeta. cbn [fetched].
    split; [reflexivity|]. cbn [AddAIProduct.request body].
    unfold get. rewrite submitData_shape, !getAll_app, Hid, Htype.
    split; reflexivity.
  - rewrite !AddAIProduct_run, Hai. reflexivity.
  - eexists. rewrite UploadDigitalProduct_run, Hfile. cbv zeta. cbn [fetched].
    split; [reflexivity|]. cbn [UploadDigitalProduct.request body].
    unfold UploadDigitalProduct.submitData. rewrite Hid, Htype.
    split; reflexivity.
  - rewrite !UploadDigitalProduct_run, Hfile, Hup. reflexivity.
Qed.

(** A course submitted from an empty storage. *)
Lemma fallback_actor_witness :
  exists request,
    fetched (run (AddAIProduct.handleSubmit ∅ (fun _ => Rejected []))
               (sample_course [sample_video "lesson1.mp4"])) = [request]
    /\ get (lit "admin_id") (body request)
       = Some (Text (lit "550e8400-e29b-41d4-a716-446655440000"))
    /\ get (lit "admin_type") (body request) = Some (Text (lit "super_admin")).
Proof.
  apply (fallback_actor ∅ (fun _ => Rejected []) (fun _ => Rejected [])
           (sample_course [sample_video "lesson1.mp4"]) sample_upload sample_file);
    reflexivity.
Defined.

(** ** The inputs of the counterexamples, evaluated *)

Example spec_overall_status_examples :
  Spec.overall_status 5 (Some [Spec.processed; Spec.processed; Spec.processed])
  = Spec.PartiallyProcessed
  /\ Spec.overall_status 3 (Some [Spec.processed; Spec.processed; Spec.processed])
     = Spec.AllProcessed
  /\ Spec.overall_status 2 (Some [Spec.failed; Spec.failed]) = Spec.ProcessingFailed
  /\ Spec.overall_status 2 (Some [Spec.processed; Spec.failed]) = Spec.PartiallyProcessed
  /\ Spec.overall_status 5 None = Spec.ProcessingFailed.
Proof. repeat split; reflexivity. Qed.

Example course_submission_request :
  map (fun r => (method r, Spec.metadata_only r, length (body r)))
    (fetched (run (AddAIProduct.handleSubmit ∅
                     (fun _ => Json (sample_course_answer [sample_item "Lesson 1"])))
                (sample_course [sample_video "lesson1.mp4"])))
  = [(POST, false, 7%nat)].
Proof. reflexivity. Qed.

Example course_answer_shorter_than_input :
  let answer :=
    sample_course_answer [sample_item "Lesson 1"; sample_item "Lesson 2"; sample_item "Lesson 3"] in
  let st :=
    component (run (AddAIProduct.handleSubmit ∅ (fun _ => Json answer))
                 (sample_course (map sample_video ["1"; "2"; "3"; "4"; "5"]%string))) in
  AddAIProduct.message st = lit "AI training product created and processed successfully!"
  /\ AddAIProduct.messageBox (AddAIProduct.message st) = Some AddAIProduct.Informational
  /\ AddAIProduct.responseData st = AddAIProduct.Response.data answer.
Proof. repeat split; reflexivity. Qed.

Example course_call_fails :
  let st :=
    component (run (AddAIProduct.handleSubmit ∅ (fun _ => Rejected (lit "Failed to fetch")))
                 (sample_course [sample_video "lesson1.mp4"])) in
  AddAIProduct.message st = lit "Network error: Failed to fetch"
  /\ AddAIProduct.responseData st = None.
Proof. repeat split; reflexivity. Qed.

Example comma_only_request :
  Spec.product_id_set (lit ",") = []
  /\ Spec.product_id_set (lit " 1, ,2 ") = [lit "1"; lit "2"]
  /\ fetched (run (VectorSearch.handleSubmit (fun _ => Rejected []))
                (sample_vector_form "q" ","))
     = [ VectorSearch.request
           [(lit "question", lit "q"); (lit "product_ids", lit ","); (lit "n", lit "5")] ].
Proof. repeat split; reflexivity. Qed.

Example emptied_result_count_request :
  fetched (run (SearchDigitalProduct.handleSearch (fun _ => Rejected []))
             (SearchDigitalProduct.onChange_numResults (lit "") sample_search))
  = [ SearchDigitalProduct.request [(lit "query", lit "python"); (lit "n", lit "NaN")] ].
Proof. reflexivity. Qed.

(** * Further properties of the pages *)

From Stdlib Require DecimalPos.

(** ** The admin panel's [AddProduct]: a course in two requests *)

Ltac run_page handler :=
  unfold Http.run, Http.run_from, run, handler, try_catch_finally, mbind, handler_bind,
    mret, handler_ret, Http.fetch, Http.json_of, Http.throw, Http.update, Http.current,
    setState, getState;
  simpl.

(** What [handleAISubmit] leaves behind, by the answers to its two
    requests. *)
Lemma AddProduct_AI_run type_error localStorage net1 net2 st :
  Http.run (AddProduct.handleAISubmit type_error localStorage net1 net2) st =
  let finish message := AddProduct.setLoading false (AddProduct.setMessage message st) in
  let r1 := AddProduct.creation_request localStorage st in
  let created productData :=
    let r2 := AddProduct.processing_request localStorage st
                (AddProduct.Creation.product_id productData) in
    let processed aiData :=
      if AddProduct.Processing.success aiData then
        match AddProduct.Processing.data aiData with
        | Some data =>
            {| Http.state :=
                 AddProduct.setLoading false
                   (AddProduct.setProductType []
                      (AddProduct.setVideos []
                         (AddProduct.setPrice []
                            (AddProduct.setCategory []
                               (AddProduct.setName []
                                  (AddProduct.setMessage
                                     (AddProduct.processed_message data) st))))));
               Http.sent := [r1; r2] |}
        | None =>
            {| Http.state := finish (lit "Network error: " ++ type_error);
               Http.sent := [r1; r2] |}
        end
      else
        {| Http.state :=
             finish (lit "Product created but AI processing failed: "
                     ++ ToString (AddProduct.Processing.message aiData));
           Http.sent := [r1; r2] |} in
    match net2 r2 with
    | Http.Failed e | Http.Response _ (Rejected e) =>
        {| Http.state := finish (lit "Network error: " ++ e); Http.sent := [r1; r2] |}
    | Http.Response _ (Json aiData) => processed aiData
    end in
  match net1 r1 with
  | Http.Failed e | Http.Response _ (Rejected e) =>
      {| Http.state := finish (lit "Network error: " ++ e); Http.sent := [r1] |}
  | Http.Response _ (Json productData) =>
      if AddProduct.Creation.success productData then created productData
      else
        {| Http.state :=
             finish (lit "Error creating product: "
                     ++ ToString (AddProduct.Creation.message productData));
           Http.sent := [r1] |}
  end.
Proof.
  run_page AddProduct.handleAISubmit.
  destruct (net1 _) as [e|ok [e|productData]]; simpl; try reflexivity.
  destruct (AddProduct.Creation.success productData); simpl; [|reflexivity].
  destruct (net2 _) as [e|ok2 [e|aiData]]; simpl; try reflexivity.
  destruct (AddProduct.Processing.success aiData); simpl; [|reflexivity].
  destruct (AddProduct.Processing.data aiData); reflexivity.
Qed.

(** X1: the record is created first and the videos are sent only after
    a successful creation. *)
Theorem course_created_before_processing type_error localStorage net1 net2 st :
  let r1 := AddProduct.creation_request localStorage st in
  Http.sent (Http.run (AddProduct.handleAISubmit type_error localStorage net1 net2) st)
  = r1 :: match net1 r1 with
          | Http.Response _ (Json productData) =>
              if AddProduct.Creation.success productData then
                [AddProduct.processing_request localStorage st
                   (AddProduct.Creation.product_id productData)]
              else []
          | _ => []
          end
  /\ (exists object, Http.body r1 = Http.Stringified object)
  /\ Http.url r1 <> AddProduct.processing_endpoint.
Proof.
  intros r1. subst r1. rewrite AddProduct_AI_run. cbv zeta.
  split; [|split; [eexists; reflexivity | discriminate]].
  destruct (net1 _) as [e|ok [e|productData]]; try reflexivity.
  destruct (AddProduct.Creation.success productData); [|reflexivity].
  destruct (net2 _) as [e|ok2 [e|aiData]]; try reflexivity.
  destruct (AddProduct.Processing.success aiData); [|reflexivity].
  destruct (AddProduct.Processing.data aiData); reflexivity.
Qed.

Lemma includes_failed (text : jsstring) :
  includes (lit "Product created but AI processing failed: " ++ text) (lit "failed") = true.
Proof.
  change (lit "Product created but AI processing failed: " ++ text)
    with (lit "Product created but AI processing " ++ lit "failed" ++ (lit ": " ++ text)).
  apply includes_infix.
Qed.

(** X2: a course whose record was created and whose processing is
    answered with a failure is reported as such, in the error tone, and
    the form is kept as it was. *)
Theorem created_but_not_processed type_error localStorage net1 net2 st
    ok1 ok2 productData aiData :
  net1 (AddProduct.creation_request localStorage st) = Http.Response ok1 (Json productData) ->
  AddProduct.Creation.success productData = true ->
  net2 (AddProduct.processing_request localStorage st
          (AddProduct.Creation.product_id productData))
  = Http.Response ok2 (Json aiData) ->
  AddProduct.Processing.success aiData = false ->
  let page := Http.run (AddProduct.handleAISubmit type_error localStorage net1 net2) st in
  Http.state page
  = AddProduct.setLoading false
      (AddProduct.setMessage
         (lit "Product created but AI processing failed: "
          ++ ToString (AddProduct.Processing.message aiData)) st)
  /\ AddProduct.messageBox (AddProduct.message (Http.state page)) = Some AddProduct.Error
  /\ length (Http.sent page) = 2%nat.
Proof.
  intros H1 Hok1 H2 Hok2 page. subst page.
  rewrite AddProduct_AI_run. cbv zeta. rewrite H1, Hok1, H2, Hok2.
  split; [reflexivity|]. split; [|reflexivity].
  cbn [Http.state AddProduct.setLoading AddProduct.setMessage AddProduct.message].
  unfold AddProduct.messageBox. rewrite includes_failed, orb_true_r. reflexivity.
Qed.

(** A course of two videos: created as product 42, not processed. *)
Lemma created_but_not_processed_witness :
  AddProduct.message
    (Http.state
       (Http.run (AddProduct.handleAISubmit (lit "TypeError") ∅
                    (fun _ => Http.Response true (Json sample_created))
                    (fun _ => Http.Response false (Json sample_not_processed)))
          sample_admin_course))
  = lit "Product created but AI processing failed: transcoder unavailable"
  /\ AddProduct.videos
       (Http.state
          (Http.run (AddProduct.handleAISubmit (lit "TypeError") ∅
                       (fun _ => Http.Response true (Json sample_created))
                       (fun _ => Http.Response false (Json sample_not_processed)))
             sample_admin_course))
     = [sample_video "lesson1.mp4"; sample_video "lesson2.mp4"].
Proof.
  destruct (created_but_not_processed (lit "TypeError") ∅
              (fun _ => Http.Response true (Json sample_created))
              (fun _ => Http.Response false (Json sample_not_processed))
              sample_admin_course true false sample_created sample_not_processed
              eq_refl eq_refl eq_refl eq_refl) as (Hstate & _ & _).
  rewrite Hstate. split; reflexivity.
Defined.

(** X3: the form is cleared only together with the message of a
    processed course; on every other path the state is the submitted one
    with a message that is not empty, and [loading] is false at the end
    of every path. *)
Theorem form_kept_unless_processed type_error localStorage net1 net2 st :
  let page := Http.run (AddProduct.handleAISubmit type_error localStorage net1 net2) st in
  AddProduct.loading (Http.state page) = false
  /\ ((exists message,
         truthy message = true
         /\ Http.state page
            = AddProduct.setLoading false (AddProduct.setMessage message st))
      \/ (exists data,
            AddProduct.message (Http.state page) = AddProduct.processed_message data
            /\ AddProduct.videos (Http.state page) = []
            /\ AddProduct.name (Http.state page) = []
            /\ AddProduct.description (Http.state page) = AddProduct.description st
            /\ AddProduct.file (Http.state page) = AddProduct.file st)).
Proof.
  intros page. subst page. rewrite AddProduct_AI_run. cbv zeta.
  destruct (net1 _) as [e|ok [e|productData]];
    try (split; [reflexivity|left; eexists; split; [|reflexivity]; reflexivity]).
  destruct (AddProduct.Creation.success productData);
    [|split; [reflexivity|left; eexists; split; [|reflexivity]; reflexivity]].
  destruct (net2 _) as [e|ok2 [e|aiData]];
    try (split; [reflexivity|left; eexists; split; [|reflexivity]; reflexivity]).
  destruct (AddProduct.Processing.success aiData);
    [|split; [reflexivity|left; eexists; split; [|reflexivity]; reflexivity]].
  destruct (AddProduct.Processing.data aiData) as [data|];
    [|split; [reflexivity|left; eexists; split; [|reflexivity]; reflexivity]].
  split; [reflexivity|]. right. exists data. repeat split; reflexivity.
Qed.

(** X4: the processing request carries the identifier of the created
    record, the name, and the videos under the one name 'videos' in the
    order of the selection; their number is the one announced in the
    creation request. *)
Theorem processing_request_videos localStorage st (productId : value) :
  exists fd,
    Http.body (AddProduct.processing_request localStorage st productId) = Http.Multipart fd
    /\ get (lit "product_id") fd = Some (Text (ToString productId))
    /\ get (lit "product_name") fd = Some (Text (AddProduct.name st))
    /\ getAll (lit "videos") fd = map Blob (AddProduct.videos st)
    /\ Http.body (AddProduct.creation_request localStorage st)
       = Http.Stringified
           [ (lit "product_name", Http.JString (AddProduct.name st));
             (lit "product_category", Http.JString (AddProduct.category st));
             (lit "price", Http.JNumber (Http.ParseFloat (AddProduct.price st)));
             (lit "number_of_videos",
              Http.JNumber (Http.OfLength (length (getAll (lit "videos") fd)))) ].
Proof.
  eexists. split; [reflexivity|].
  assert (Hall : getAll (lit "videos")
                   (fold_left (fun formData video => append (lit "videos") (Blob video) formData)
                      (AddProduct.videos st)
                      (append (lit "product_name") (Text (AddProduct.name st))
                         (append (lit "product_id") (Text (ToString productId)) [])))
                 = map Blob (AddProduct.videos st)).
  { rewrite forEach_append, getAll_app.
    rewrite <- (map_map Blob (fun v => (lit "videos", v))), getAll_same. reflexivity. }
  unfold get. rewrite Hall, length_map, forEach_append, !getAll_app.
  repeat split; reflexivity.
Qed.

(** X5: when the first request throws, the page shows 'Network error: '
    followed by the text of the error, and the box is red only if that
    text includes 'Error' or 'failed'. *)
Theorem thrown_error_tone type_error localStorage net1 net2 st (e : jsstring) :
  net1 (AddProduct.creation_request localStorage st) = Http.Failed e ->
  let page := Http.run (AddProduct.handleAISubmit type_error localStorage net1 net2) st in
  AddProduct.message (Http.state page) = lit "Network error: " ++ e
  /\ AddProduct.messageBox (AddProduct.message (Http.state page))
     = Some (if includes e (lit "Error") || includes e (lit "failed")
             then AddProduct.Error else AddProduct.Informational).
Proof.
  intros H page. subst page. rewrite AddProduct_AI_run. cbv zeta. rewrite H.
  split; [reflexivity|].
  cbn [Http.state AddProduct.setLoading AddProduct.setMessage AddProduct.message].
  unfold AddProduct.messageBox.
  change (lit "Error") with (69 :: lit "rror").
  change (lit "failed") with (102 :: lit "ailed").
  rewrite !includes_skip
    by (unfold lit; simpl; repeat constructor; discriminate).
  reflexivity.
Qed.

(** The error of a server that cannot be reached is shown in green. *)
Lemma thrown_error_tone_witness :
  AddProduct.messageBox
    (AddProduct.message
       (Http.state
          (Http.run (AddProduct.handleAISubmit (lit "TypeError") ∅
                       (fun _ => Http.Failed (lit "Failed to fetch"))
                       (fun _ => Http.Failed (lit "Failed to fetch")))
             sample_admin_course)))
  = Some AddProduct.Informational.
Proof.
  apply (thrown_error_tone (lit "TypeError") ∅
           (fun _ => Http.Failed (lit "Failed to fetch"))
           (fun _ => Http.Failed (lit "Failed to fetch"))
           sample_admin_course (lit "Failed to fetch")).
  reflexivity.
Defined.

(** What [handleDigitalSubmit] leaves behind. *)
Lemma AddProduct_digital_run localStorage net st :
  Http.run (AddProduct.handleDigitalSubmit localStorage net) st =
  let finish message := AddProduct.setLoading false (AddProduct.setMessage message st) in
  let r := AddProduct.digital_request localStorage st in
  {| Http.state :=
       match net r with
       | Http.Failed e | Http.Response _ (Rejected e) => finish (lit "Network error: " ++ e)
       | Http.Response _ (Json data) =>
           if AddProduct.Digital.success data then
             AddProduct.setLoading false
               (AddProduct.setProductType []
                  (AddProduct.setFile AddProduct.NoFile
                     (AddProduct.setDescription []
                        (AddProduct.setPrice []
                           (AddProduct.setCategory []
                              (AddProduct.setName []
                                 (AddProduct.setMessage
                                    (lit "Digital product created and uploaded successfully!")
                                    st)))))))
           else finish (lit "Error: " ++ ToString (AddProduct.Digital.message data))
       end;
     Http.sent := [r] |}.
Proof.
  run_page AddProduct.handleDigitalSubmit.
  destruct (net _) as [e|ok [e|data]]; simpl; try reflexivity.
  destruct (AddProduct.Digital.success data); reflexivity.
Qed.

(** X6: [handleDigitalSubmit] does not check the file: it always sends
    exactly one request, whose 'file' part is the picked file, or the
    text 'null' when no file was ever picked, or the text 'undefined'
    when the selection was emptied. *)
Theorem digital_submit_without_file_check localStorage net st :
  exists fd,
    Http.sent (Http.run (AddProduct.handleDigitalSubmit localStorage net) st)
    = [ {| Http.method := POST; Http.url := AddProduct.digital_endpoint;
           Http.headers := [(lit "Authorization", Http.bearer localStorage)];
           Http.body := Http.Multipart fd |} ]
    /\ get (lit "file") fd
       = Some match AddProduct.file st with
              | AddProduct.NoFile => Text (lit "null")
              | AddProduct.Unset => Text (lit "undefined")
              | AddProduct.Picked f => Blob f
              end
    /\ AddProduct.file (AddProduct.handleFileChange [] st) = AddProduct.Unset.
Proof.
  eexists. rewrite AddProduct_digital_run. cbv zeta. cbn [Http.sent].
  split; [reflexivity|]. split; [|reflexivity].
  destruct (AddProduct.file st); reflexivity.
Qed.

(** ** [ViewTable] *)

Lemma ViewTable_run localStorage net before st :
  Http.run_from (ViewTable.fetchTableData localStorage net) before st =
  if truthy (ViewTable.selectedTable st) then
    let r := ViewTable.request localStorage (ViewTable.selectedTable st) in
    {| Http.state :=
         match net r with
         | Http.Response true (Json data) =>
             ViewTable.setLoading false
               (ViewTable.setTableData (default [] (ViewTable.Response.data data))
                  (ViewTable.setError [] st))
         | Http.Response false (Json data) =>
             ViewTable.setLoading false
               (ViewTable.setError
                  (or_else (ViewTable.Response.error data) (lit "Failed to fetch data")) st)
         | _ =>
             ViewTable.setLoading false
               (ViewTable.setError
                  (lit "Network error. Please check if backend is running.") st)
         end;
       Http.sent := before ++ [r] |}
  else {| Http.state := st; Http.sent := before |}.
Proof.
  run_page ViewTable.fetchTableData. unfold return_.
  destruct (truthy (ViewTable.selectedTable st)); simpl; [|reflexivity].
  destruct (net _) as [e|[|] [e|data]]; reflexivity.
Qed.

Lemma or_else_truthy (a : option jsstring) (b : jsstring) :
  truthy b = true -> truthy (or_else a b) = true.
Proof.
  intros Hb. unfold or_else. destruct a as [s|]; [|exact Hb].
  destruct (truthy s) eqn:E; [exact E|exact Hb].
Qed.

(** X7: with no table selected the view button does nothing: the state
    stays as it is, [loading] included, and no request is sent. *)
Theorem no_table_no_request localStorage net before st :
  ViewTable.selectedTable st = [] ->
  Http.run_from (ViewTable.handleView localStorage net) before st
  = {| Http.state := st; Http.sent := before |}.
Proof.
  intros H. unfold ViewTable.handleView. rewrite ViewTable_run, H. reflexivity.
Qed.

Lemma no_table_no_request_witness :
  Http.run_from (ViewTable.handleView ∅ (fun _ => Http.Failed [])) [] ViewTable.initial
  = {| Http.state := ViewTable.initial; Http.sent := [] |}.
Proof.
  apply (no_table_no_request ∅ (fun _ => Http.Failed []) [] ViewTable.initial).
  reflexivity.
Defined.

(** X8: with a table selected exactly one request is sent.  An ok
    response with a JSON body replaces the rows (by none when the body
    has no [data]) and leaves no error; every other outcome keeps the
    rows that were shown and sets a non-empty error.  [loading] ends
    false in all cases. *)
Theorem table_fetch_outcome localStorage net st :
  ViewTable.selectedTable st <> [] ->
  let r := ViewTable.request localStorage (ViewTable.selectedTable st) in
  let page := Http.run (ViewTable.fetchTableData localStorage net) st in
  Http.sent page = [r]
  /\ ViewTable.loading (Http.state page) = false
  /\ ViewTable.selectedTable (Http.state page) = ViewTable.selectedTable st
  /\ match net r with
     | Http.Response true (Json data) =>
         ViewTable.tableData (Http.state page) = default [] (ViewTable.Response.data data)
         /\ ViewTable.error (Http.state page) = []
     | _ =>
         ViewTable.tableData (Http.state page) = ViewTable.tableData st
         /\ truthy (ViewTable.error (Http.state page)) = true
     end.
Proof.
  intros Hsel r page. subst r page. unfold Http.run. rewrite ViewTable_run.
  assert (Ht : truthy (ViewTable.selectedTable st) = true)
    by (destruct (ViewTable.selectedTable st); [contradiction|reflexivity]).
  rewrite Ht. cbv zeta.
  destruct (net _) as [e|[|] [e|data]]; repeat split; try reflexivity.
  cbn [Http.state ViewTable.setLoading ViewTable.setError ViewTable.error].
  apply or_else_truthy. reflexivity.
Qed.

Lemma table_fetch_outcome_witness :
  let st := ViewTable.handleTableChange (lit "users") ViewTable.initial in
  Http.sent (Http.run (ViewTable.fetchTableData ∅ (fun _ => Http.Failed [])) st)
  = [ViewTable.request ∅ (lit "users")].
Proof.
  apply (table_fetch_outcome ∅ (fun _ => Http.Failed [])
           (ViewTable.handleTableChange (lit "users") ViewTable.initial)).
  discriminate.
Defined.

(** The invariant of the page under its events: the selected table is
    an option of the select, and every request sent asks for a listed
    table. *)
Lemma ViewTable_replay_invariant localStorage (events : list ViewTable.Event) page :
  Forall (fun ev => match ev with
                    | ViewTable.Select value => value ∈ ViewTable.options
                    | ViewTable.View _ => True
                    end) events ->
  ViewTable.selectedTable (Http.state page) ∈ ViewTable.options ->
  Forall (fun r => exists t, t ∈ ViewTable.tables
                             /\ r = ViewTable.request localStorage t) (Http.sent page) ->
  Forall (fun r => exists t, t ∈ ViewTable.tables
                             /\ r = ViewTable.request localStorage t)
    (Http.sent (fold_left (ViewTable.step localStorage) events page)).
Proof.
  intros Hev. revert page.
  induction Hev as [|ev events Hhead _ IH]; intros page Hsel Hsent; [exact Hsent|].
  simpl. apply IH.
  - destruct ev as [value|net]; simpl; [exact Hhead|].
    unfold ViewTable.handleView. rewrite ViewTable_run.
    destruct (truthy _); [|exact Hsel].
    cbv zeta. destruct (net _) as [e|[|] [e|data]]; exact Hsel.
  - destruct ev as [value|net]; simpl; [exact Hsent|].
    unfold ViewTable.handleView. rewrite ViewTable_run.
    destruct (ViewTable.selectedTable (Http.state page)) as [|c t] eqn:E; [exact Hsent|].
    cbn [truthy]. cbv zeta. cbn [Http.sent].
    apply Forall_app. split; [exact Hsent|].
    constructor; [|constructor].
    exists (c :: t). split; [|reflexivity].
    unfold ViewTable.options in Hsel. apply elem_of_cons in Hsel.
    destruct Hsel as [Hnil|Hin]; [discriminate|exact Hin].
Qed.

(** X9: whatever is chosen in the select and however often the view
    button is clicked, every request the page sends asks for one of the
    fifteen listed tables, with the bearer header. *)
Theorem requests_only_listed_tables localStorage (events : list ViewTable.Event) :
  Forall (fun ev => match ev with
                    | ViewTable.Select value => value ∈ ViewTable.options
                    | ViewTable.View _ => True
                    end) events ->
  Forall (fun r => exists t, t ∈ ViewTable.tables
                             /\ r = ViewTable.request localStorage t)
    (Http.sent (ViewTable.replay localStorage events)).
Proof.
  intros Hev. apply ViewTable_replay_invariant; [exact Hev| |constructor].
  apply list_elem_of_here.
Qed.

Lemma requests_only_listed_tables_witness :
  Forall (fun r => exists t, t ∈ ViewTable.tables /\ r = ViewTable.request ∅ t)
    (Http.sent (ViewTable.replay ∅
                  [ ViewTable.View (fun _ => Http.Failed []);
                    ViewTable.Select (lit "users");
                    ViewTable.View (fun _ => Http.Failed []);
                    ViewTable.Select (lit "");
                    ViewTable.View (fun _ => Http.Failed []) ])).
Proof.
  apply (requests_only_listed_tables ∅).
  repeat constructor; apply list_elem_of_In; vm_compute; tauto.
Defined.

Lemma lookup_map {A B} (f : A -> B) (l : list A) (i : nat) :
  map f l !! i = f <$> (l !! i).
Proof. apply list_lookup_fmap. Qed.

(** X10: the table has one header cell per property of the first row
    and one line per row; when every row lists the properties of the
    first row in the same order, the cell of a row under a header is the
    text of the value that the row has for that property. *)
Theorem columns_align (tableData : list ViewTable.Row) first rest :
  tableData = first :: rest ->
  Forall (fun row => map fst row = map fst first) rest ->
  exists table,
    ViewTable.renderTable tableData = Some table
    /\ ViewTable.header table = map fst first
    /\ length (ViewTable.body table) = length tableData
    /\ forall (i j : nat) (row : ViewTable.Row) key v,
         tableData !! i = Some row ->
         row !! j = Some (key, v) ->
         ViewTable.header table !! j = Some key
         /\ (ViewTable.body table !! i ≫= fun cells => cells !! j) = Some (ToString v).
Proof.
  intros -> Hrows. eexists. split; [reflexivity|].
  cbn [ViewTable.header ViewTable.body].
  split; [reflexivity|]. split; [apply length_map|].
  intros i j row key v Hrow Hcell.
  assert (Hkeys : map fst row = map fst first).
  { assert (Hall : Forall (fun row => map fst row = map fst first) (first :: rest))
      by (constructor; [reflexivity|exact Hrows]).
    rewrite Forall_forall in Hall. apply Hall.
    eapply list_elem_of_lookup_2. exact Hrow. }
  split.
  - rewrite <- Hkeys, lookup_map, Hcell. reflexivity.
  - rewrite lookup_map, Hrow. simpl. rewrite lookup_map, Hcell. reflexivity.
Qed.

Lemma columns_align_witness :
  exists table,
    ViewTable.renderTable
      [ [(lit "id", Number (Int 1)); (lit "name", String (lit "Ada"))];
        [(lit "id", Number (Int 2)); (lit "name", Null)] ] = Some table
    /\ ViewTable.header table = [lit "id"; lit "name"]
    /\ ViewTable.body table = [[lit "1"; lit "Ada"]; [lit "2"; lit "null"]].
Proof.
  destruct (columns_align
              [ [(lit "id", Number (Int 1)); (lit "name", String (lit "Ada"))];
                [(lit "id", Number (Int 2)); (lit "name", Null)] ]
              [(lit "id", Number (Int 1)); (lit "name", String (lit "Ada"))]
              [ [(lit "id", Number (Int 2)); (lit "name", Null)] ]
              eq_refl
              ltac:(repeat constructor))
    as (table & Hrender & _).
  exists table. split; [exact Hrender|].
  injection Hrender as <-. split; reflexivity.
Defined.

(** ** [AddSubadmin] *)

Lemma AddSubadmin_run localStorage net st :
  Http.run (AddSubadmin.handleSubmit localStorage net) st =
  let r := AddSubadmin.request localStorage (AddSubadmin.formData st) in
  {| Http.state :=
       match net r with
       | Http.Response true (Json _) =>
           {| AddSubadmin.formData := AddSubadmin.emptyForm;
              AddSubadmin.error := [];
              AddSubadmin.success := lit "Sub admin created successfully!";
              AddSubadmin.loading := false |}
       | Http.Response false (Json data) =>
           {| AddSubadmin.formData := AddSubadmin.formData st;
              AddSubadmin.error :=
                or_else (AddSubadmin.Response.error data) (lit "Failed to create sub admin");
              AddSubadmin.success := [];
              AddSubadmin.loading := false |}
       | _ =>
           {| AddSubadmin.formData := AddSubadmin.formData st;
              AddSubadmin.error := lit "Network error. Please check if backend is running.";
              AddSubadmin.success := [];
              AddSubadmin.loading := false |}
       end;
     Http.sent := [r] |}.
Proof.
  run_page AddSubadmin.handleSubmit.
  destruct (net _) as [e|[|] [e|data]]; reflexivity.
Qed.

(** X11: a submission sends one request with the four fields as typed.
    After it exactly one of the two messages is shown: the success
    line, with the form emptied, when the response is ok and its body
    parses; an error otherwise, with the form kept as typed. *)
Theorem subadmin_outcome localStorage net st :
  let r := AddSubadmin.request localStorage (AddSubadmin.formData st) in
  let page := Http.run (AddSubadmin.handleSubmit localStorage net) st in
  Http.sent page = [r]
  /\ Http.body r
     = Http.Stringified
         [ (lit "name", Http.JString (AddSubadmin.name (AddSubadmin.formData st)));
           (lit "email", Http.JString (AddSubadmin.email (AddSubadmin.formData st)));
           (lit "password", Http.JString (AddSubadmin.password (AddSubadmin.formData st)));
           (lit "phone_number",
            Http.JString (AddSubadmin.phone_number (AddSubadmin.formData st))) ]
  /\ AddSubadmin.loading (Http.state page) = false
  /\ match net r with
     | Http.Response true (Json _) =>
         truthy (AddSubadmin.success (Http.state page)) = true
         /\ AddSubadmin.error (Http.state page) = []
         /\ AddSubadmin.formData (Http.state page) = AddSubadmin.emptyForm
     | _ =>
         AddSubadmin.success (Http.state page) = []
         /\ truthy (AddSubadmin.error (Http.state page)) = true
         /\ AddSubadmin.formData (Http.state page) = AddSubadmin.formData st
     end.
Proof.
  intros r page. subst r page. rewrite AddSubadmin_run. cbv zeta.
  split; [reflexivity|]. split; [reflexivity|].
  destruct (net _) as [e|[|] [e|data]]; repeat split; try reflexivity.
  cbn [Http.state AddSubadmin.error]. apply or_else_truthy. reflexivity.
Qed.

(** ** [Dashboard] *)

Lemma Dashboard_run localStorage net before st :
  Http.run_from (Dashboard.fetchDashboardStats localStorage net) before st =
  let failed :=
    Dashboard.setLoading false
      (Dashboard.setError (lit "Failed to fetch dashboard data") st) in
  let thrown :=
    Dashboard.setLoading false
      (Dashboard.setStats (Some Dashboard.sampleStats)
         (Dashboard.setError (lit "Network error. Please check if backend is running.") st)) in
  {| Http.state :=
       match net (Dashboard.request localStorage) with
       | Http.Failed _ | Http.Response true (Rejected _) => thrown
       | Http.Response true (Json data) =>
           if Dashboard.Response.success data then
             Dashboard.setLoading false (Dashboard.setStats (Dashboard.Response.data data) st)
           else failed
       | Http.Response false _ => failed
       end;
     Http.sent := before ++ [Dashboard.request localStorage] |}.
Proof.
  run_page Dashboard.fetchDashboardStats.
  destruct (net _) as [e|[|] [e|data]]; simpl; try reflexivity.
  destruct (Dashboard.Response.success data); reflexivity.
Qed.

Lemma Dashboard_error_persists localStorage nets page :
  truthy (Dashboard.error (Http.state page)) = true ->
  Dashboard.loading (Http.state page) = false ->
  truthy (Dashboard.error (Http.state (Dashboard.refreshes localStorage nets page))) = true
  /\ Dashboard.loading (Http.state (Dashboard.refreshes localStorage nets page)) = false.
Proof.
  revert page. induction nets as [|net nets IH]; intros page H Hl; [split; assumption|].
  simpl. apply IH.
  - unfold Dashboard.click. destruct (Dashboard.render _) as [[|banner figures]|]; try exact H.
    rewrite Dashboard_run. cbv zeta.
    destruct (net _) as [e|[|] [e|data]]; try reflexivity.
    destruct (Dashboard.Response.success data); [exact H|reflexivity].
  - unfold Dashboard.click. destruct (Dashboard.render _) as [[|banner figures]|]; try exact Hl.
    rewrite Dashboard_run. cbv zeta.
    destruct (net _) as [e|[|] [e|data]]; try reflexivity.
    destruct (Dashboard.Response.success data); reflexivity.
Qed.

(** X12: once a fetch of the statistics fails (a thrown error, a
    response that is not ok, or an answer without success), the error
    is never reset: after any later clicks on 'Refresh Data', successful
    ones included, the page shows its cards under the banner ending in
    '(Showing sample data)' whenever it renders at all; it does not
    render only if [stats] was left undefined, by a successful answer
    without data. *)
Theorem error_banner_sticks localStorage net after page :
  match net (Dashboard.request localStorage) with
  | Http.Response true (Json data) => Dashboard.Response.success data = false
  | _ => True
  end ->
  let failed :=
    Http.run_from (Dashboard.fetchDashboardStats localStorage net)
      (Http.sent page) (Http.state page) in
  let st := Http.state (Dashboard.refreshes localStorage after failed) in
  truthy (Dashboard.error st) = true
  /\ Dashboard.render st
     = match Dashboard.stats st with
       | None => None
       | Some figures =>
           Some (Dashboard.Cards
                   (Some (Dashboard.error st ++ lit " (Showing sample data)")) figures)
       end.
Proof.
  intros Hfail failed st.
  assert (Hmid : truthy (Dashboard.error (Http.state failed)) = true
                 /\ Dashboard.loading (Http.state failed) = false).
  { subst failed. rewrite Dashboard_run. cbv zeta.
    destruct (net _) as [e|[|] [e|data]]; try (split; reflexivity).
    rewrite Hfail. split; reflexivity. }
  destruct Hmid as [Herr Hload].
  destruct (Dashboard_error_persists localStorage after failed Herr Hload) as [Hend Hl].
  fold st in Hend, Hl. split; [exact Hend|].
  unfold Dashboard.render. rewrite Hl, Hend. reflexivity.
Qed.

(** The first fetch is refused, then a refresh succeeds: the figures of
    the answer are shown under the banner. *)
Lemma error_banner_sticks_witness :
  Dashboard.render
    (Http.state
       (Dashboard.refreshes ∅
          [fun _ => Http.Response true
                      (Json {| Dashboard.Response.success := true;
                               Dashboard.Response.data := Some Dashboard.sampleStats |})]
          (Http.run_from
             (Dashboard.fetchDashboardStats ∅ (fun _ => Http.Response false (Rejected [])))
             [] Dashboard.initial)))
  = Some (Dashboard.Cards
            (Some (lit "Failed to fetch dashboard data (Showing sample data)"))
            Dashboard.sampleStats).
Proof.
  destruct (error_banner_sticks ∅ (fun _ => Http.Response false (Rejected []))
              [fun _ => Http.Response true
                          (Json {| Dashboard.Response.success := true;
                                   Dashboard.Response.data := Some Dashboard.sampleStats |})]
              {| Http.state := Dashboard.initial; Http.sent := [] |} I)
    as [_ Hrender].
  refine (eq_trans Hrender _). reflexivity.
Defined.

(** X13: one fetch of the statistics.  The sample figures replace the
    statistics only when the fetch or the parsing of the body throws; a
    response that is not ok, or an answer without success, sets the
    error and keeps the statistics that were shown; a successful answer
    stores its data and leaves the error as it was.  [loading] is false
    afterwards. *)
Theorem dashboard_fetch_outcome localStorage net st :
  let page := Http.run (Dashboard.fetchDashboardStats localStorage net) st in
  Http.sent page = [Dashboard.request localStorage]
  /\ Dashboard.loading (Http.state page) = false
  /\ match net (Dashboard.request localStorage) with
     | Http.Failed _ | Http.Response true (Rejected _) =>
         Dashboard.stats (Http.state page) = Some Dashboard.sampleStats
         /\ Dashboard.error (Http.state page)
            = lit "Network error. Please check if backend is running."
     | Http.Response true (Json data) =>
         if Dashboard.Response.success data then
           Dashboard.stats (Http.state page) = Dashboard.Response.data data
           /\ Dashboard.error (Http.state page) = Dashboard.error st
         else
           Dashboard.stats (Http.state page) = Dashboard.stats st
           /\ Dashboard.error (Http.state page) = lit "Failed to fetch dashboard data"
     | Http.Response false _ =>
         Dashboard.stats (Http.state page) = Dashboard.stats st
         /\ Dashboard.error (Http.state page) = lit "Failed to fetch dashboard data"
     end.
Proof.
  intros page. subst page. unfold Http.run. rewrite Dashboard_run. cbv zeta.
  split; [reflexivity|].
  destruct (net _) as [e|[|] [e|data]]; try (repeat split; reflexivity).
  destruct (Dashboard.Response.success data); repeat split; reflexivity.
Qed.

(** ** The sidebars *)

(** X14: in each of the three panels every button of the sidebar opens a page of its
    own, is the only active button once clicked, and the panel starts on
    the page of its first button; any page identifier that no button
    sets is rendered as the table view. *)
Theorem sidebar_pages :
  (NoDup (map SuperAdminPanel.renderPage SuperAdminPanel.buttons)
   /\ head SuperAdminPanel.buttons = Some SuperAdminPanel.initial
   /\ (forall b, b ∈ SuperAdminPanel.buttons ->
         filter (fun b' => SuperAdminPanel.active b b' = true) SuperAdminPanel.buttons = [b])
   /\ (forall page, page ∉ SuperAdminPanel.buttons ->
         SuperAdminPanel.renderPage page = SuperAdminPanel.ViewTable))
  /\ (NoDup (map SubAdminPanel.renderPage SubAdminPanel.buttons)
      /\ head SubAdminPanel.buttons = Some SubAdminPanel.initial
      /\ (forall b, b ∈ SubAdminPanel.buttons ->
            filter (fun b' => SubAdminPanel.active b b' = true) SubAdminPanel.buttons = [b])
      /\ (forall page, page ∉ SubAdminPanel.buttons ->
            SubAdminPanel.renderPage page = SubAdminPanel.ViewTable))
  /\ (NoDup (map AdminPanel.renderPage AdminPanel.buttons)
      /\ head AdminPanel.buttons = Some AdminPanel.initial
      /\ (forall b, b ∈ AdminPanel.buttons ->
            filter (fun b' => AdminPanel.active b b' = true) AdminPanel.buttons = [b])
      /\ (forall page, page ∉ AdminPanel.buttons ->
            AdminPanel.renderPage page = AdminPanel.ViewTable)).
Proof.
  split; [|split].
  - split; [|split; [reflexivity|split]].
    + vm_compute.
      repeat (constructor;
              [rewrite ?not_elem_of_cons; repeat split; try discriminate;
               apply not_elem_of_nil|]).
      constructor.
    + intros b Hb. apply list_elem_of_In in Hb. simpl in Hb.
      repeat (destruct Hb as [<-|Hb]; [reflexivity|]). destruct Hb.
    + intros page Hpage. unfold SuperAdminPanel.renderPage.
      repeat (case_decide; [subst; exfalso; apply Hpage; apply list_elem_of_In; simpl; tauto|]).
      reflexivity.
  - split; [|split; [reflexivity|split]].
    + vm_compute.
      repeat (constructor;
              [rewrite ?not_elem_of_cons; repeat split; try discriminate;
               apply not_elem_of_nil|]).
      constructor.
    + intros b Hb. apply list_elem_of_In in Hb. simpl in Hb.
      repeat (destruct Hb as [<-|Hb]; [reflexivity|]). destruct Hb.
    + intros page Hpage. unfold SubAdminPanel.renderPage.
      repeat (case_decide; [subst; exfalso; apply Hpage; apply list_elem_of_In; simpl; tauto|]).
      reflexivity.
  - split; [|split; [reflexivity|split]].
    + vm_compute.
      repeat (constructor;
              [rewrite ?not_elem_of_cons; repeat split; try discriminate;
               apply not_elem_of_nil|]).
      constructor.
    + intros b Hb. apply list_elem_of_In in Hb. simpl in Hb.
      repeat (destruct Hb as [<-|Hb]; [reflexivity|]). destruct Hb.
    + intros page Hpage. unfold AdminPanel.renderPage.
      repeat (case_decide; [subst; exfalso; apply Hpage; apply list_elem_of_In; simpl; tauto|]).
      reflexivity.
Qed.

(** ** More on the upload and search pages *)

(** X15: of the files picked for a digital product only the first is
    kept, and a later change of the input that brings no file keeps it;
    the request then carries that one file as its only 'product_file'
    part. *)
Theorem first_file_kept localStorage net st (file : File) (others : list File) :
  let st' :=
    UploadDigitalProduct.handleFileChange []
      (UploadDigitalProduct.handleFileChange (file :: others) st) in
  UploadDigitalProduct.product_file (UploadDigitalProduct.formData st') = Some file
  /\ exists request,
       fetched (run (UploadDigitalProduct.handleSubmit localStorage net) st') = [request]
       /\ getAll (lit "product_file") (body request) = [Blob file].
Proof.
  intros st'. split; [reflexivity|].
  eexists. rewrite UploadDigitalProduct_run.
  change (UploadDigitalProduct.product_file (UploadDigitalProduct.formData st'))
    with (Some file).
  cbv zeta. cbn [fetched]. split; reflexivity.
Qed.

(** X16: after a successful upload the form is empty, so a second
    submission straight after it sends nothing: it stops at the missing
    file, and the details of the first upload are no longer shown. *)
Theorem no_accidental_resubmission localStorage net net' st file data :
  UploadDigitalProduct.product_file (UploadDigitalProduct.formData st) = Some file ->
  net (UploadDigitalProduct.request
         (UploadDigitalProduct.submitData localStorage
            (UploadDigitalProduct.formData st) file)) = Json data ->
  UploadDigitalProduct.Response.success data = true ->
  let uploaded := component (run (UploadDigitalProduct.handleSubmit localStorage net) st) in
  let again := run (UploadDigitalProduct.handleSubmit localStorage net') uploaded in
  UploadDigitalProduct.responseData uploaded = UploadDigitalProduct.Response.data data
  /\ fetched again = []
  /\ UploadDigitalProduct.message (component again)
     = lit "Error: Please select a product file"
  /\ UploadDigitalProduct.responseData (component again) = None.
Proof.
  intros Hfile Hnet Hok uploaded again. subst uploaded again.
  rewrite !UploadDigitalProduct_run, Hfile. cbv zeta. cbn [component].
  rewrite Hnet, Hok. repeat split; reflexivity.
Qed.

Lemma no_accidental_resubmission_witness :
  fetched
    (run (UploadDigitalProduct.handleSubmit ∅
            (fun _ => Json {| UploadDigitalProduct.Response.success := true;
                              UploadDigitalProduct.Response.message := None;
                              UploadDigitalProduct.Response.data := None |}))
       (component
          (run (UploadDigitalProduct.handleSubmit ∅
                  (fun _ => Json {| UploadDigitalProduct.Response.success := true;
                                    UploadDigitalProduct.Response.message := None;
                                    UploadDigitalProduct.Response.data := None |}))
             sample_upload)))
  = [].
Proof.
  apply (no_accidental_resubmission ∅
           (fun _ => Json {| UploadDigitalProduct.Response.success := true;
                             UploadDigitalProduct.Response.message := None;
                             UploadDigitalProduct.Response.data := None |})
           (fun _ => Json {| UploadDigitalProduct.Response.success := true;
                             UploadDigitalProduct.Response.message := None;
                             UploadDigitalProduct.Response.data := None |})
           sample_upload sample_file
           {| UploadDigitalProduct.Response.success := true;
              UploadDigitalProduct.Response.message := None;
              UploadDigitalProduct.Response.data := None |});
    reflexivity.
Defined.

(** X17: the submit button is always released: whatever the input and
    the answer, validation stops and thrown errors included, each of the
    four handlers ends with [loading] false. *)
Theorem loading_released :
  (forall localStorage net st,
     AddAIProduct.loading (component (run (AddAIProduct.handleSubmit localStorage net) st))
     = false)
  /\ (forall localStorage net st,
        UploadDigitalProduct.loading
          (component (run (UploadDigitalProduct.handleSubmit localStorage net) st)) = false)
  /\ (forall net st,
        SearchDigitalProduct.loading
          (component (run (SearchDigitalProduct.handleSearch net) st)) = false)
  /\ (forall net st,
        VectorSearch.loading (component (run (VectorSearch.handleSubmit net) st)) = false).
Proof.
  repeat split.
  - intros. rewrite AddAIProduct_run. cbv zeta. cbn [component].
    destruct (net _) as [e|data]; [reflexivity|].
    destruct (AddAIProduct.Response.success data); reflexivity.
  - intros. rewrite UploadDigitalProduct_run.
    destruct (UploadDigitalProduct.product_file _); [|reflexivity].
    cbv zeta. cbn [component].
    destruct (net _) as [e|data]; [reflexivity|].
    destruct (UploadDigitalProduct.Response.success data); reflexivity.
  - intros. rewrite SearchDigitalProduct_run. cbv zeta.
    destruct (truthy _); [|reflexivity]. cbn [component].
    destruct (net _) as [e|data]; [reflexivity|].
    destruct (SearchDigitalProduct.Response.success data); reflexivity.
  - intros. rewrite VectorSearch_run. cbv zeta.
    destruct (truthy _); [|reflexivity].
    destruct (truthy _); [|reflexivity]. cbn [component].
    destruct (net _) as [e|data]; [reflexivity|].
    destruct (VectorSearch.Response.success data); reflexivity.
Qed.

(** X18: results of an earlier search never survive a new one.  After
    a search the stored answer is the one just received when the query
    was sent and answered with success, and nothing in every other case:
    a blank query, an answer without success, a thrown error. *)
Theorem stale_results_cleared :
  (forall net st,
     SearchDigitalProduct.searchResults
       (component (run (SearchDigitalProduct.handleSearch net) st))
     = if forallb isWhiteSpace (SearchDigitalProduct.searchQuery st) then None
       else match net (SearchDigitalProduct.request
                         [ (lit "query", SearchDigitalProduct.searchQuery st);
                           (lit "n", Number_toString (SearchDigitalProduct.numResults st)) ])
            with
            | Json data =>
                if SearchDigitalProduct.Response.success data then Some data else None
            | Rejected _ => None
            end)
  /\ (forall net st,
        VectorSearch.searchResults (component (run (VectorSearch.handleSubmit net) st))
        = if forallb isWhiteSpace (VectorSearch.question (VectorSearch.formData st))
             || forallb isWhiteSpace (VectorSearch.product_ids (VectorSearch.formData st))
          then None
          else match net (VectorSearch.request
                            [ (lit "question", VectorSearch.question (VectorSearch.formData st));
                              (lit "product_ids",
                               VectorSearch.product_ids (VectorSearch.formData st));
                              (lit "n", ToString (VectorSearch.n (VectorSearch.formData st))) ])
               with
               | Json data => if VectorSearch.Response.success data then Some data else None
               | Rejected _ => None
               end).
Proof.
  split.
  - intros. rewrite SearchDigitalProduct_run. cbv zeta. rewrite truthy_trim.
    destruct (forallb isWhiteSpace _); [reflexivity|]. cbn [negb component].
    destruct (net _) as [e|data]; [reflexivity|].
    destruct (SearchDigitalProduct.Response.success data); reflexivity.
  - intros. rewrite VectorSearch_run. cbv zeta. rewrite !truthy_trim.
    destruct (forallb isWhiteSpace (VectorSearch.question _)); [reflexivity|].
    destruct (forallb isWhiteSpace (VectorSearch.product_ids _)); [reflexivity|].
    cbn [negb component orb].
    destruct (net _) as [e|data]; [reflexivity|].
    destruct (VectorSearch.Response.success data); reflexivity.
Qed.

(** X19: the digital product search looks for 'Error' only.  When the
    request throws, the message is 'Network error: ' followed by the
    text of the error, and it gets the error class only if that text
    includes 'Error'. *)
Theorem search_thrown_error_tone st (e : jsstring) :
  forallb isWhiteSpace (SearchDigitalProduct.searchQuery st) = false ->
  let after := component (run (SearchDigitalProduct.handleSearch (fun _ => Rejected e)) st) in
  SearchDigitalProduct.message after = lit "Network error: " ++ e
  /\ SearchDigitalProduct.messageBox (SearchDigitalProduct.message after)
     = Some (if includes e (lit "Error")
             then SearchDigitalProduct.Error else SearchDigitalProduct.Informational).
Proof.
  intros Hq after. subst after. rewrite SearchDigitalProduct_run. cbv zeta.
  rewrite truthy_trim, Hq. cbn [negb component SearchDigitalProduct.message].
  split; [reflexivity|].
  unfold SearchDigitalProduct.messageBox.
  change (lit "Error") with (69 :: lit "rror").
  rewrite includes_skip by (unfold lit; simpl; repeat constructor; discriminate).
  reflexivity.
Qed.

Lemma search_thrown_error_tone_witness :
  SearchDigitalProduct.messageBox
    (SearchDigitalProduct.message
       (component (run (SearchDigitalProduct.handleSearch
                          (fun _ => Rejected (lit "Failed to fetch"))) sample_search)))
  = Some SearchDigitalProduct.Informational.
Proof.
  apply (search_thrown_error_tone sample_search (lit "Failed to fetch")).
  reflexivity.
Defined.

(** X20: on the vector search every outcome but a successful answer is
    shown in the error tone: a blank question, a blank list of products,
    an answer without success, a thrown error. *)
Theorem vector_search_failures_red net st :
  VectorSearch.messageBox
    (VectorSearch.message (component (run (VectorSearch.handleSubmit net) st)))
  = Some VectorSearch.Error
  \/ exists data,
       net (VectorSearch.request
              [ (lit "question", VectorSearch.question (VectorSearch.formData st));
                (lit "product_ids", VectorSearch.product_ids (VectorSearch.formData st));
                (lit "n", ToString (VectorSearch.n (VectorSearch.formData st))) ])
       = Json data
       /\ VectorSearch.Response.success data = true
       /\ VectorSearch.searchResults (component (run (VectorSearch.handleSubmit net) st))
          = Some data.
Proof.
  rewrite VectorSearch_run. cbv zeta.
  destruct (truthy (trim (VectorSearch.question _))); [|left; reflexivity].
  destruct (truthy (trim (VectorSearch.product_ids _))); [|left; reflexivity].
  cbn [component].
  destruct (net _) as [e|data] eqn:E.
  - left. cbn [VectorSearch.message]. unfold VectorSearch.messageBox.
    rewrite includes_Network_error, orb_true_r. reflexivity.
  - destruct (VectorSearch.Response.success data) eqn:Hok.
    + right. exists data. split; [reflexivity|]. split; [exact Hok|reflexivity].
    + left. cbn [VectorSearch.message]. unfold VectorSearch.messageBox.
      rewrite includes_Error. reflexivity.
Qed.

(** X21: edits of the course form compose as expected: an edit of one
    of the four text inputs stores the value typed, in the state and
    hence in the part of that name of the request; edits of two
    different inputs commute, the last value typed in an input wins,
    and no edit of a text input touches the selected videos. *)
Theorem course_edits_compose (n1 n2 v1 v2 : jsstring) st :
  n1 <> n2 ->
  (AddAIProduct.product_name
     (AddAIProduct.formData
        (AddAIProduct.handleInputChange (lit "product_name") v1 st)) = v1
   /\ AddAIProduct.product_category
        (AddAIProduct.formData
           (AddAIProduct.handleInputChange (lit "product_category") v1 st)) = v1
   /\ AddAIProduct.suggestion_questions
        (AddAIProduct.formData
           (AddAIProduct.handleInputChange (lit "suggestion_questions") v1 st)) = v1
   /\ AddAIProduct.price
        (AddAIProduct.formData (AddAIProduct.handleInputChange (lit "price") v1 st)) = v1)
  /\ (forall localStorage name,
        name ∈ [lit "product_name"; lit "product_category";
                lit "suggestion_questions"; lit "price"] ->
        get name
          (AddAIProduct.submitData localStorage
             (AddAIProduct.formData (AddAIProduct.handleInputChange name v1 st)))
        = Some (Text v1))
  /\ AddAIProduct.handleInputChange n1 v1 (AddAIProduct.handleInputChange n2 v2 st)
     = AddAIProduct.handleInputChange n2 v2 (AddAIProduct.handleInputChange n1 v1 st)
  /\ AddAIProduct.handleInputChange n1 v1 (AddAIProduct.handleInputChange n1 v2 st)
     = AddAIProduct.handleInputChange n1 v1 st
  /\ AddAIProduct.videos (AddAIProduct.formData (AddAIProduct.handleInputChange n1 v1 st))
     = AddAIProduct.videos (AddAIProduct.formData st).
Proof.
  intros Hne. split; [repeat split; reflexivity|]. split.
  - intros localStorage name Hname. unfold get.
    rewrite submitData_shape, !getAll_app.
    apply list_elem_of_In in Hname. simpl in Hname.
    destruct Hname as [<-|[<-|[<-|[<-|[]]]]]; reflexivity.
  - unfold AddAIProduct.handleInputChange, AddAIProduct.setFormData.
    repeat split; simpl;
      repeat (case_decide; subst; simpl; try congruence); try reflexivity.
Qed.

Lemma course_edits_compose_witness :
  AddAIProduct.handleInputChange (lit "price") (lit "5")
    (AddAIProduct.handleInputChange (lit "product_name") (lit "SQL")
       (sample_course [sample_video "lesson1.mp4"]))
  = AddAIProduct.handleInputChange (lit "product_name") (lit "SQL")
      (AddAIProduct.handleInputChange (lit "price") (lit "5")
         (sample_course [sample_video "lesson1.mp4"])).
Proof.
  apply (course_edits_compose (lit "price") (lit "product_name") (lit "5") (lit "SQL")
           (sample_course [sample_video "lesson1.mp4"])).
  discriminate.
Defined.

(** X22: without a token in the storage the pages of the admin server
    still send their requests, with the header 'Authorization: Bearer
    null'. *)
Theorem missing_token_header (localStorage : Storage) net net' st st' :
  getItem localStorage (lit "token") = None ->
  (exists r,
     Http.sent (Http.run (AddSubadmin.handleSubmit localStorage net) st) = [r]
     /\ (lit "Authorization", lit "Bearer null") ∈ Http.headers r)
  /\ (exists r,
        Http.sent (Http.run (Dashboard.fetchDashboardStats localStorage net') st') = [r]
        /\ (lit "Authorization", lit "Bearer null") ∈ Http.headers r)
  /\ (forall table,
        (lit "Authorization", lit "Bearer null")
        ∈ Http.headers (ViewTable.request localStorage table))
  /\ (forall st productId,
        (lit "Authorization", lit "Bearer null")
        ∈ Http.headers (AddProduct.creation_request localStorage st)
        /\ (lit "Authorization", lit "Bearer null")
           ∈ Http.headers (AddProduct.processing_request localStorage st productId)
        /\ (lit "Authorization", lit "Bearer null")
           ∈ Http.headers (AddProduct.digital_request localStorage st)).
Proof.
  intros Htoken.
  assert (Hbearer : Http.bearer localStorage = lit "Bearer null")
    by (unfold Http.bearer; rewrite Htoken; reflexivity).
  split; [|split; [|split]].
  - eexists. rewrite AddSubadmin_run. cbv zeta. split; [reflexivity|].
    cbn [AddSubadmin.request Http.headers]. rewrite Hbearer. apply list_elem_of_here.
  - eexists. unfold Http.run. rewrite Dashboard_run. cbv zeta. split; [reflexivity|].
    cbn [Dashboard.request Http.headers]. rewrite Hbearer. apply list_elem_of_here.
  - intros table. cbn [ViewTable.request Http.headers]. rewrite Hbearer.
    apply list_elem_of_here.
  - intros st0 productId. unfold AddProduct.creation_request,
      AddProduct.processing_request, AddProduct.digital_request.
    cbn [Http.headers]. rewrite Hbearer. repeat split; apply list_elem_of_here.
Qed.

Lemma missing_token_header_witness :
  exists r,
    Http.sent (Http.run (AddSubadmin.handleSubmit ∅ (fun _ => Http.Failed []))
                 AddSubadmin.initial) = [r]
    /\ (lit "Authorization", lit "Bearer null") ∈ Http.headers r.
Proof.
  apply (missing_token_header ∅ (fun _ => Http.Failed []) (fun _ => Http.Failed [])
           AddSubadmin.initial Dashboard.initial).
  reflexivity.
Defined.

(** ** The result count and its input *)

Lemma parseDigits_acc (d : Decimal.uint) (acc : positive) :
  parseDigits 10 (Some (N.pos acc)) (lit (NilEmpty.string_of_uint d))
  = Some (N.pos (Pos.of_uint_acc d acc)).
Proof.
  unfold lit. revert acc. induction d; intros acc; simpl; [reflexivity|..];
    rewrite <- IHd; f_equal; f_equal; lia.
Qed.

Lemma parseDigits_zero (d : Decimal.uint) :
  parseDigits 10 (Some 0) (lit (NilEmpty.string_of_uint d)) = Some (Pos.of_uint d).
Proof.
  induction d; try (exact (parseDigits_acc d _)); [reflexivity|].
  exact IHd.
Qed.

Lemma parseDigits_uint (d : Decimal.uint) :
  d <> Decimal.Nil ->
  parseDigits 10 None (lit (NilEmpty.string_of_uint d)) = Some (Pos.of_uint d).
Proof.
  destruct d; intros Hd; try (exact (parseDigits_acc d _)); [contradiction|].
  exact (parseDigits_zero d).
Qed.

(** On a string of decimal digits, with or without a minus sign in
    front, [parseInt] is the value of the digits. *)
Lemma parseInt_uint (d : Decimal.uint) :
  d <> Decimal.Nil ->
  parseInt (lit (NilEmpty.string_of_uint d)) = Int (Z.of_N (Pos.of_uint d))
  /\ parseInt (45 :: lit (NilEmpty.string_of_uint d)) = Int (- Z.of_N (Pos.of_uint d)).
Proof.
  intros Hd. pose proof (parseDigits_uint d Hd) as H.
  assert (Hint : forall n, Int (1 * Z.of_N n) = Int (Z.of_N n) /\
                           Int (-1 * Z.of_N n) = Int (- Z.of_N n))
    by (intros n; split; f_equal; lia).
  destruct d as [|d|d|d|d|d|d|d|d|d|d]; [contradiction|..];
    try (unfold parseInt; unfold lit in *; simpl in *; rewrite H; apply Hint).
  destruct d as [|d|d|d|d|d|d|d|d|d|d];
    unfold parseInt; unfold lit in *; simpl in *; try rewrite H;
    first [apply Hint | split; reflexivity].
Qed.

(** [parseInt] reads back what [toString] prints. *)
Lemma parseInt_toString (n : number) : parseInt (Number_toString n) = n.
Proof.
  destruct n as [|[|p|p]]; try reflexivity.
  - unfold Number_toString, decimal. simpl Z.to_int. cbn [NilZero.string_of_int].
    pose proof (DecimalPos.Unsigned.to_uint_nonnil p) as Hnn.
    destruct (parseInt_uint _ Hnn) as [H _].
    rewrite DecimalPos.Unsigned.of_to in H.
    destruct (Pos.to_uint p) eqn:E; [contradiction|..]; exact H.
  - unfold Number_toString, decimal. simpl Z.to_int. cbn [NilZero.string_of_int].
    pose proof (DecimalPos.Unsigned.to_uint_nonnil p) as Hnn.
    destruct (parseInt_uint _ Hnn) as [_ H].
    rewrite DecimalPos.Unsigned.of_to in H.
    destruct (Pos.to_uint p) eqn:E; [contradiction|..]; exact H.
Qed.

(** X23: the result count survives its own input: when the count is
    NaN or a safe integer, typing again the text that the input shows
    for it leaves the state as it is, and the search then sends that
    same text as [n]. *)
Theorem retyped_count_unchanged net st :
  match SearchDigitalProduct.numResults st with
  | Int z => (- 2 ^ 53 < z < 2 ^ 53)%Z
  | NaN => True
  end ->
  SearchDigitalProduct.onChange_numResults
    (Number_toString (SearchDigitalProduct.numResults st)) st = st
  /\ run (SearchDigitalProduct.handleSearch net)
       (SearchDigitalProduct.onChange_numResults
          (Number_toString (SearchDigitalProduct.numResults st)) st)
     = run (SearchDigitalProduct.handleSearch net) st.
Proof.
  intros _.
  assert (H : SearchDigitalProduct.onChange_numResults
                (Number_toString (SearchDigitalProduct.numResults st)) st = st).
  { unfold SearchDigitalProduct.onChange_numResults, SearchDigitalProduct.setNumResults.
    rewrite parseInt_toString. destruct st; reflexivity. }
  rewrite H. split; reflexivity.
Qed.

Lemma retyped_count_unchanged_witness :
  SearchDigitalProduct.onChange_numResults (lit "5") SearchDigitalProduct.initial
  = SearchDigitalProduct.initial.
Proof.
  apply (retyped_count_unchanged (fun _ => Rejected []) SearchDigitalProduct.initial).
  simpl. lia.
Defined.
